(** * Team task management backend: models, controllers and fan-out

    A shallow embedding of the TypeScript sources

    - [models/task.model.ts], [models/team.model.ts] (schema methods),
    - [modules/team], [modules/task], [modules/project] (controllers, DTOs),
    - [services/activity.service.ts], [services/socket.service.ts],
    - [core/socket.ts], [responses.ts], [response-messages.ts].

    Conventions of the embedding.

    - A MongoDB collection read only through [findById] is a finite map
      from the document id to the document; the user collection, which is
      also searched by e-mail, is a list of documents.
    - Identifiers are the strings [ObjectId.toString()] yields, 24 hex
      digits in lower case; [===] on them is [String.eqb].  Route
      parameters are taken to be ids in that form: the cast error
      Mongoose raises on a malformed one is not modelled.  Where a
      request body or a socket event supplies the id ([User.findById]
      of an assignee, [Team.findById] of [team:join]) the cast is
      modelled: the hex digits are read regardless of their case.
    - A controller is a function from the database (and the request) to
      the HTTP response and the database afterwards.  An exception caught
      by the [try]/[catch] of a controller is the 500 answer, with the
      database as it stood when the exception was raised; the [error]
      text of that answer, which depends on [NODE_ENV] and on the
      exception, is kept abstract.
    - The activity collection holds the records handed to
      [Activity.save], in the order of the calls; [logActivity] swallows
      a failed save, so no control flow depends on it.
    - The socket server [io] holds the emissions made so far, [None]
      being the server before [initializeSocket].
    - [new Date()] is the [now] argument of the operation; the [_id] of
      a new document is the [newId] argument.
    - The [data] body of a response, the timestamps Mongoose maintains
      ([createdAt], [updatedAt]) and the e-mail notification are left
      out. *)

From Stdlib Require Import ZArith String List Bool Ascii Lia.
From stdpp Require Import base option list strings gmap.
Import ListNotations.

Open Scope string_scope.

Abbreviation Id := string.

(** ** JavaScript primitives used by the sources *)

Module Js.

(** Truthiness of a string: every string but the empty one. *)
Definition truthy (s : string) : bool := negb (String.eqb s "").

(** [Array.prototype.some]. *)
Definition some {A} (p : A -> bool) (l : list A) : bool := existsb p l.

(** [Array.prototype.find]. *)
Definition find {A} (p : A -> bool) (l : list A) : option A := List.find p l.

(** [Array.prototype.findIndex]; [None] stands for [-1]. *)
Fixpoint findIndex {A} (p : A -> bool) (l : list A) : option nat :=
  match l with
  | [] => None
  | x :: l' => if p x then Some 0 else option_map S (findIndex p l')
  end.

(** [Array.prototype.splice(i, 1)]: the array without its element [i]. *)
Definition splice1 {A} (i : nat) (l : list A) : list A := delete i l.

(** An assignment [x.field = v] through the reference [find] returned:
    the first element satisfying [p] is replaced by [f] of it. *)
Fixpoint updateFirst {A} (p : A -> bool) (f : A -> A) (l : list A) : list A :=
  match l with
  | [] => []
  | x :: l' => if p x then f x :: l' else x :: updateFirst p f l'
  end.

End Js.

(** ** ObjectIds as Mongoose casts them *)

Module ObjectId.

(** A hex digit as [ObjectId.toString()] prints it: [A]-[F] in lower
    case, every other character as it is. *)
Definition lower (c : ascii) : ascii :=
  let n := nat_of_ascii c in
  if ((65 <=? n) && (n <=? 70))%nat then ascii_of_nat (n + 32) else c.

(** [new ObjectId(s).toString()] for a string [s] of hex digits. *)
Fixpoint toHexString (s : string) : string :=
  match s with
  | EmptyString => EmptyString
  | String c s' => String (lower c) (toHexString s')
  end.

Definition isHexDigit (c : ascii) : bool :=
  let n := nat_of_ascii c in
  (((48 <=? n) && (n <=? 57)) || ((97 <=? n) && (n <=? 102))
   || ((65 <=? n) && (n <=? 70)))%nat.

(** The cast of a string to an ObjectId, given by its printed form:
    24 hex digits are accepted in either case; any other string raises
    a cast error ([None]). *)
Definition cast (s : string) : option string :=
  if (String.length s =? 24)%nat && forallb isHexDigit (list_ascii_of_string s)
  then Some (toHexString s)
  else None.

End ObjectId.

(** ** Enumerations ([interfaces/*.interface.ts]) *)

Inductive TaskPriority := LOW | MEDIUM | HIGH | URGENT.

Inductive TaskStatus := TODO | IN_PROGRESS | REVIEW | DONE.

Inductive TeamMemberRole := OWNER | ADMIN | MEMBER.

Inductive ActivityAction :=
| CREATED | UPDATED | DELETED | ASSIGNED | UNASSIGNED | STATUS_CHANGED
| MEMBER_ADDED | MEMBER_REMOVED | ROLE_CHANGED.

Module ActivityEntity.

Inductive t := TASK | PROJECT | TEAM | USER.

End ActivityEntity.

(** The events of [SocketEvents] that the services emit. *)
Module SocketEvents.

Inductive t :=
| TASK_CREATED | TASK_UPDATED | TASK_DELETED | TASK_STATUS_CHANGED
| TASK_ASSIGNED | MEMBER_JOINED | MEMBER_REMOVED | MEMBER_ROLE_UPDATED
| PROJECT_CREATED | PROJECT_UPDATED | PROJECT_DELETED.

(** The event name sent on the wire. *)
Definition value (e : t) : string :=
  match e with
  | TASK_CREATED => "task:created"
  | TASK_UPDATED => "task:updated"
  | TASK_DELETED => "task:deleted"
  | TASK_STATUS_CHANGED => "task:status_changed"
  | TASK_ASSIGNED => "task:assigned"
  | MEMBER_JOINED => "member:joined"
  | MEMBER_REMOVED => "member:removed"
  | MEMBER_ROLE_UPDATED => "member:role_updated"
  | PROJECT_CREATED => "project:created"
  | PROJECT_UPDATED => "project:updated"
  | PROJECT_DELETED => "project:deleted"
  end.

End SocketEvents.

#[global] Instance TaskStatus_eq_dec : EqDecision TaskStatus.
Proof. solve_decision. Defined.

#[global] Instance TaskPriority_eq_dec : EqDecision TaskPriority.
Proof. solve_decision. Defined.

#[global] Instance TeamMemberRole_eq_dec : EqDecision TeamMemberRole.
Proof. solve_decision. Defined.

#[global] Instance ActivityAction_eq_dec : EqDecision ActivityAction.
Proof. solve_decision. Defined.

(** The string value of each enum member. *)
Definition TaskStatus_value (s : TaskStatus) : string :=
  match s with
  | TODO => "todo"
  | IN_PROGRESS => "in_progress"
  | REVIEW => "review"
  | DONE => "done"
  end.

Definition TeamMemberRole_value (r : TeamMemberRole) : string :=
  match r with
  | OWNER => "owner"
  | ADMIN => "admin"
  | MEMBER => "member"
  end.

Definition TaskStatus_eqb (a b : TaskStatus) : bool := bool_decide (a = b).

Definition TeamMemberRole_eqb (a b : TeamMemberRole) : bool := bool_decide (a = b).

(** ** Models *)

Module User.

Record t := mk { _id : Id; name : string; email : string }.

(** [User.findById]: the id is cast to an ObjectId, so its hex digits
    are compared regardless of their case.  (The callers pass the id of
    the token, an id that matched a stored one, or an assignee that
    passed the pattern of the DTO: the cast does not fail.) *)
Definition findById (users : list t) (id : Id) : option t :=
  Js.find (fun u => String.eqb (_id u) (ObjectId.toHexString id)) users.

(** [User.findOne({ email })]. *)
Definition findOneByEmail (users : list t) (e : string) : option t :=
  Js.find (fun u => String.eqb (email u) e) users.

End User.

Module Task.

Record t := mk {
  title : string;
  description : option string;
  priority : TaskPriority;
  status : TaskStatus;
  dueDate : option Z;
  assignee : option Id;
  projectId : Id;
  createdBy : Id;
}.

(** The [transitions] table of [canTransitionTo]. *)
Definition transitions (s : TaskStatus) : list TaskStatus :=
  match s with
  | TODO => [IN_PROGRESS; DONE]
  | IN_PROGRESS => [TODO; REVIEW; DONE]
  | REVIEW => [IN_PROGRESS; DONE]
  | DONE => [TODO; IN_PROGRESS; REVIEW]
  end.

(** [Array.prototype.includes] on statuses. *)
Definition includes (l : list TaskStatus) (x : TaskStatus) : bool :=
  existsb (fun y => TaskStatus_eqb y x) l.

(** [taskSchema.methods.canTransitionTo]. *)
Definition canTransitionTo (this : t) (newStatus : TaskStatus) : bool :=
  let currentStatus := status this in
  includes (transitions currentStatus) newStatus || false.

End Task.

Module Project.

Record t := mk {
  name : string;
  description : option string;
  teamId : Id;
  createdBy : Id;
}.

End Project.

Module Team.

Record Member := mkMember {
  userId : Id;
  role : TeamMemberRole;
  joinedAt : Z;
}.

Record t := mk {
  name : string;
  description : option string;
  owner : Id;
  members : list Member;
}.

(** [teamSchema.methods.isMember]: only the member list is read. *)
Definition isMember (this : t) (uid : Id) : bool :=
  Js.some (fun member =>
    let memberId := userId member in
    String.eqb memberId uid) (members this).

(** [teamSchema.methods.isAdminOrOwner]. *)
Definition isAdminOrOwner (this : t) (uid : Id) : bool :=
  let ownerId := owner this in
  if String.eqb ownerId uid then true
  else
    Js.some (fun member =>
      let memberId := userId member in
      String.eqb memberId uid
      && (TeamMemberRole_eqb (role member) ADMIN
          || TeamMemberRole_eqb (role member) OWNER)) (members this).

(** [teamSchema.methods.getMemberRole]. *)
Definition getMemberRole (this : t) (uid : Id) : option TeamMemberRole :=
  let ownerId := owner this in
  if String.eqb ownerId uid then Some OWNER
  else
    match Js.find (fun m => String.eqb (userId m) uid) (members this) with
    | Some member => Some (role member)
    | None => None
    end.

End Team.

(** ** HTTP responses ([responses.ts], [response-messages.ts]) *)

(** The [error] text of a response: a label fixed in the source, or
    the text [serverError] chooses when it runs,
    [process.env.NODE_ENV === 'development' ? error?.message :
    'Internal server error']: the message of the caught exception in
    development mode, the fixed text otherwise. *)
Inductive ErrorText :=
| Label (text : string)
| ServerErrorText.

Record Response := mkResponse {
  statusCode : nat;
  success : bool;
  message : string;
  error : option ErrorText;
}.

Module ResponseHandler.

Definition success (message : string) (statusCode : nat) : Response :=
  mkResponse statusCode true message None.

Definition error (message : string) (err : string) (statusCode : nat) : Response :=
  mkResponse statusCode false message (Some (Label err)).

Definition unauthorized (message : string) : Response :=
  error message "Unauthorized" 401.

Definition notFound (message : string) : Response :=
  error message "Not found" 404.

Definition forbidden (message : string) : Response :=
  error message "Forbidden" 403.

(** [this.error(res, message, text, 500)], [text] being chosen by
    [NODE_ENV] between the exception's message and the fixed one. *)
Definition serverError (message : string) : Response :=
  mkResponse 500 false message (Some ServerErrorText).

End ResponseHandler.

Module ResponseMessages.

Definition AUTH_UNAUTHORIZED := "Unauthorized access".
Definition GENERAL_INTERNAL_SERVER_ERROR := "Internal server error".

Definition PROJECT_CREATED := "Project created successfully".
Definition PROJECT_UPDATED := "Project updated successfully".
Definition PROJECT_DELETED := "Project deleted successfully".
Definition PROJECT_NOT_FOUND := "Project not found".
Definition PROJECT_UNAUTHORIZED := "You are not authorized to access this project".
Definition PROJECT_TEAM_NOT_FOUND := "Team not found".
Definition PROJECT_NOT_TEAM_MEMBER := "You are not a member of this team".

Definition TASK_CREATED := "Task created successfully".
Definition TASK_UPDATED := "Task updated successfully".
Definition TASK_DELETED := "Task deleted successfully".
Definition TASK_STATUS_UPDATED := "Task status updated successfully".
Definition TASK_NOT_FOUND := "Task not found".
Definition TASK_UNAUTHORIZED := "You are not authorized to access this task".
Definition TASK_PROJECT_NOT_FOUND := "Project not found".
Definition TASK_TEAM_NOT_FOUND := "Team not found".
Definition TASK_NOT_TEAM_MEMBER := "You are not a member of this team".
Definition TASK_ASSIGNEE_NOT_FOUND := "Assignee not found".

End ResponseMessages.

(** ** Activity records ([interfaces/activity.interface.ts]) *)

(** The [changes] object a task update builds: one [{old, new}] pair per
    tracked field. *)
Record TaskChanges := mkTaskChanges {
  ch_title : option (string * string);
  ch_priority : option (TaskPriority * TaskPriority);
  ch_status : option (TaskStatus * TaskStatus);
  ch_assignee : option (option Id * option Id);
}.

Record ProjectChanges := mkProjectChanges {
  ch_name : option (string * string);
  ch_description : option (option string * option string);
}.

(** The shapes of [metadata] the controllers build. *)
Inductive Metadata :=
| MetaTaskCreated (taskTitle : string) (priority : TaskPriority)
    (status : TaskStatus) (assignee : option Id)
| MetaTaskUpdated (taskTitle : string) (changes : TaskChanges)
| MetaAssignment (taskTitle : string) (oldAssignee newAssignee : option Id)
| MetaStatus (taskTitle : string) (oldStatus newStatus : TaskStatus)
| MetaTaskDeleted (taskTitle : string)
| MetaProject (projectName : string)
| MetaProjectUpdated (projectName : string) (changes : ProjectChanges).

Module Activity.

Record t := mk {
  userId : Id;
  teamId : Id;
  action : ActivityAction;
  entity : ActivityEntity.t;
  entityId : Id;
  metadata : Metadata;
  timestamp : Z;
}.

End Activity.

(** ** Event payloads ([interfaces/socket.interface.ts]) *)

(** The [{id, name, email}] object naming a user in a payload. *)
Record UserRef := mkUserRef { ref_id : Id; ref_name : string; ref_email : string }.

Definition UserRef_of (id : Id) (u : User.t) : UserRef :=
  mkUserRef id (User.name u) (User.email u).

(** A populated user document seen as such an object. *)
Definition UserRef_populated (u : User.t) : UserRef :=
  mkUserRef (User._id u) (User.name u) (User.email u).

Record TaskView := mkTaskView {
  tv_id : Id;
  tv_title : string;
  tv_description : option string;
  tv_priority : TaskPriority;
  tv_status : TaskStatus;
  tv_dueDate : option Z;
  tv_assignee : option UserRef;
  tv_project : Id * string;
  tv_createdBy : UserRef;
}.

Record TaskAssignedPayload := mkTaskAssignedPayload {
  ta_taskId : Id;
  ta_taskTitle : string;
  ta_assignee : UserRef;
  ta_teamId : Id;
  ta_projectId : Id;
  ta_assignedBy : UserRef;
}.

Record MemberJoinedPayload := mkMemberJoinedPayload {
  mj_teamId : Id;
  mj_teamName : string;
  mj_member : UserRef;
  mj_role : TeamMemberRole;
  mj_joinedAt : Z;
  mj_addedBy : UserRef;
}.

Record MemberRemovedPayload := mkMemberRemovedPayload {
  mr_teamId : Id;
  mr_teamName : string;
  mr_memberId : Id;
  mr_memberName : string;
  mr_removedBy : UserRef;
}.

Record MemberRoleUpdatedPayload := mkMemberRoleUpdatedPayload {
  mu_teamId : Id;
  mu_teamName : string;
  mu_member : UserRef;
  mu_oldRole : TeamMemberRole;
  mu_newRole : TeamMemberRole;
  mu_updatedBy : UserRef;
}.

Record TaskStatusChangedPayload := mkTaskStatusChangedPayload {
  ts_taskId : Id;
  ts_taskTitle : string;
  ts_oldStatus : TaskStatus;
  ts_newStatus : TaskStatus;
  ts_teamId : Id;
  ts_projectId : Id;
  ts_changedBy : UserRef;
}.

(** The payloads that only go to the team room, and the sum of all
    payloads an emission carries. *)
Inductive Payload :=
| PTaskCreated (task : TaskView) (teamId projectId : Id)
| PTaskUpdated (task : TaskView) (changes : TaskChanges)
    (teamId projectId : Id) (updatedBy : UserRef)
| PTaskDeleted (taskId : Id) (taskTitle : string) (teamId projectId : Id)
    (deletedBy : UserRef)
| PTaskStatusChanged (p : TaskStatusChangedPayload)
| PTaskAssigned (p : TaskAssignedPayload)
| PMemberJoined (p : MemberJoinedPayload)
| PMemberRemoved (p : MemberRemovedPayload)
| PMemberRoleUpdated (p : MemberRoleUpdatedPayload)
| PProjectCreated (projectId : Id) (name : string) (description : option string)
    (teamId : Id) (createdBy : UserRef)
| PProjectUpdated (projectId : Id) (name : string) (description : option string)
    (changes : ProjectChanges) (teamId : Id) (updatedBy : UserRef)
| PProjectDeleted (projectId : Id) (projectName : string) (teamId : Id)
    (deletedBy : UserRef).

(** [teamId] of a payload, as [payload.teamId] reads it. *)
Definition Payload_teamId (p : Payload) : Id :=
  match p with
  | PTaskCreated _ t _ | PTaskUpdated _ _ t _ _ | PTaskDeleted _ _ t _ _ => t
  | PTaskStatusChanged q => ts_teamId q
  | PTaskAssigned q => ta_teamId q
  | PMemberJoined q => mj_teamId q
  | PMemberRemoved q => mr_teamId q
  | PMemberRoleUpdated q => mu_teamId q
  | PProjectCreated _ _ _ t _ | PProjectUpdated _ _ _ _ t _
  | PProjectDeleted _ _ t _ => t
  end.

(** One [io.to(room).emit(event, data)]: [data] is the payload, spread
    with [isPersonal] and [message] where the emitter adds them; a field
    the emitter does not add is [None]. *)
Record Emission := mkEmission {
  room : string;
  event : SocketEvents.t;
  data : Payload;
  isPersonal : option bool;
  personalMessage : option string;
}.

(** ** The database and the socket server *)

Record Db := mkDb {
  users : list User.t;
  teams : gmap Id Team.t;
  projects : gmap Id Project.t;
  tasks : gmap Id Task.t;
  activities : list Activity.t;
  io : option (list Emission);
}.

Definition set_teams (db : Db) (v : gmap Id Team.t) : Db :=
  mkDb (users db) v (projects db) (tasks db) (activities db) (io db).

Definition set_projects (db : Db) (v : gmap Id Project.t) : Db :=
  mkDb (users db) (teams db) v (tasks db) (activities db) (io db).

Definition set_tasks (db : Db) (v : gmap Id Task.t) : Db :=
  mkDb (users db) (teams db) (projects db) v (activities db) (io db).

Definition set_activities (db : Db) (v : list Activity.t) : Db :=
  mkDb (users db) (teams db) (projects db) (tasks db) v (io db).

Definition set_io (db : Db) (v : option (list Emission)) : Db :=
  mkDb (users db) (teams db) (projects db) (tasks db) (activities db) v.

(** ** The activity recorder ([services/activity.service.ts]) *)

Module ActivityService.

(** [logActivity]: builds the record and saves it. *)
Definition logActivity (db : Db) (userId teamId : Id)
    (action : ActivityAction) (entity : ActivityEntity.t) (entityId : Id)
    (metadata : Metadata) (now : Z) : Db :=
  let activity :=
    Activity.mk userId teamId action entity entityId metadata now in
  set_activities db (activities db ++ [activity]).

End ActivityService.

(** ** The fan-out ([core/socket.ts], [services/socket.service.ts]) *)

(** [isSocketInitialized]: [io !== null]. *)
Definition isSocketInitialized (io : option (list Emission)) : bool :=
  match io with Some _ => true | None => false end.

Module SocketService.

Definition teamRoom (teamId : Id) : string := "team:" ++ teamId.

Definition userRoom (userId : Id) : string := "user:" ++ userId.

(** [io.to(room).emit(event, data)] on the server [getIO()] returned. *)
Definition emit (sent : list Emission) (e : Emission) : list Emission :=
  sent ++ [e].

(** The frame every emitter shares: nothing is sent while the server is
    not initialised; otherwise [body] runs on the server [getIO()]
    returns. *)
Definition whenInitialized (io : option (list Emission))
    (body : list Emission -> list Emission) : option (list Emission) :=
  if negb (isSocketInitialized io) then io
  else
    match io with
    | Some sent => Some (body sent)
    | None => io
    end.

(** The emitters that address the team room only: [emitTaskCreated],
    [emitTaskUpdated], [emitTaskDeleted], [emitTaskStatusChanged],
    [emitProjectCreated], [emitProjectUpdated], [emitProjectDeleted]. *)
Definition emitToTeam (io : option (list Emission)) (ev : SocketEvents.t)
    (payload : Payload) : option (list Emission) :=
  whenInitialized io (fun sent =>
    let roomName := teamRoom (Payload_teamId payload) in
    emit sent (mkEmission roomName ev payload None None)).

Definition emitTaskCreated io (task : TaskView) (teamId projectId : Id) :=
  emitToTeam io SocketEvents.TASK_CREATED (PTaskCreated task teamId projectId).

Definition emitTaskUpdated io (task : TaskView) (changes : TaskChanges)
    (teamId projectId : Id) (updatedBy : UserRef) :=
  emitToTeam io SocketEvents.TASK_UPDATED
    (PTaskUpdated task changes teamId projectId updatedBy).

Definition emitTaskDeleted io (taskId : Id) (taskTitle : string)
    (teamId projectId : Id) (deletedBy : UserRef) :=
  emitToTeam io SocketEvents.TASK_DELETED
    (PTaskDeleted taskId taskTitle teamId projectId deletedBy).

Definition emitTaskStatusChanged io (payload : TaskStatusChangedPayload) :=
  emitToTeam io SocketEvents.TASK_STATUS_CHANGED (PTaskStatusChanged payload).

Definition emitProjectCreated io (projectId : Id) (name : string)
    (description : option string) (teamId : Id) (createdBy : UserRef) :=
  emitToTeam io SocketEvents.PROJECT_CREATED
    (PProjectCreated projectId name description teamId createdBy).

Definition emitProjectUpdated io (projectId : Id) (name : string)
    (description : option string) (changes : ProjectChanges) (teamId : Id)
    (updatedBy : UserRef) :=
  emitToTeam io SocketEvents.PROJECT_UPDATED
    (PProjectUpdated projectId name description changes teamId updatedBy).

Definition emitProjectDeleted io (projectId : Id) (projectName : string)
    (teamId : Id) (deletedBy : UserRef) :=
  emitToTeam io SocketEvents.PROJECT_DELETED
    (PProjectDeleted projectId projectName teamId deletedBy).

(** [emitTaskAssigned]. *)
Definition emitTaskAssigned (io : option (list Emission))
    (payload : TaskAssignedPayload) : option (list Emission) :=
  whenInitialized io (fun sent =>
    let roomName := teamRoom (ta_teamId payload) in
    let sent1 :=
      emit sent (mkEmission roomName SocketEvents.TASK_ASSIGNED
                   (PTaskAssigned payload) None None) in
    if Js.truthy (ref_id (ta_assignee payload)) then
      emit sent1
        (mkEmission (userRoom (ref_id (ta_assignee payload)))
           SocketEvents.TASK_ASSIGNED (PTaskAssigned payload) (Some true) None)
    else sent1).

(** [emitMemberJoined]. *)
Definition emitMemberJoined (io : option (list Emission))
    (payload : MemberJoinedPayload) : option (list Emission) :=
  whenInitialized io (fun sent =>
    let roomName := teamRoom (mj_teamId payload) in
    let sent1 :=
      emit sent (mkEmission roomName SocketEvents.MEMBER_JOINED
                   (PMemberJoined payload) None None) in
    emit sent1
      (mkEmission (userRoom (ref_id (mj_member payload)))
         SocketEvents.MEMBER_JOINED (PMemberJoined payload) (Some true)
         (Some ("You have been added to " ++ mj_teamName payload)))).

(** [emitMemberRemoved]. *)
Definition emitMemberRemoved (io : option (list Emission))
    (payload : MemberRemovedPayload) : option (list Emission) :=
  whenInitialized io (fun sent =>
    let roomName := teamRoom (mr_teamId payload) in
    let sent1 :=
      emit sent (mkEmission roomName SocketEvents.MEMBER_REMOVED
                   (PMemberRemoved payload) None None) in
    emit sent1
      (mkEmission (userRoom (mr_memberId payload))
         SocketEvents.MEMBER_REMOVED (PMemberRemoved payload) (Some true)
         (Some ("You have been removed from " ++ mr_teamName payload)))).

(** [emitMemberRoleUpdated]. *)
Definition emitMemberRoleUpdated (io : option (list Emission))
    (payload : MemberRoleUpdatedPayload) : option (list Emission) :=
  whenInitialized io (fun sent =>
    let roomName := teamRoom (mu_teamId payload) in
    let sent1 :=
      emit sent (mkEmission roomName SocketEvents.MEMBER_ROLE_UPDATED
                   (PMemberRoleUpdated payload) None None) in
    emit sent1
      (mkEmission (userRoom (ref_id (mu_member payload)))
         SocketEvents.MEMBER_ROLE_UPDATED (PMemberRoleUpdated payload)
         (Some true)
         (Some ("Your role in " ++ mu_teamName payload
                ++ " has been changed from "
                ++ TeamMemberRole_value (mu_oldRole payload)
                ++ " to " ++ TeamMemberRole_value (mu_newRole payload))))).

End SocketService.

(** ** Request validation ([modules/*/dtos], class-validator) *)

Module Dto.

(** [Object.values(TeamMemberRole)]. *)
Definition TeamMemberRole_values : list TeamMemberRole := [OWNER; ADMIN; MEMBER].

(** [@IsEnum(TeamMemberRole)]: the value is one of the enum's values.
    The result is the enum member the string denotes. *)
Definition IsEnum_TeamMemberRole (v : string) : option TeamMemberRole :=
  Js.find (fun r => String.eqb (TeamMemberRole_value r) v) TeamMemberRole_values.

(** The [role] field of [InviteMemberDto]: optional, an enum value when
    present, [MEMBER] by default.  [None] is a validation failure (422). *)
Definition InviteMemberDto_role (raw : option string) : option TeamMemberRole :=
  match raw with
  | None => Some MEMBER
  | Some v => IsEnum_TeamMemberRole v
  end.

(** The [role] field of [UpdateMemberRoleDto]: required, an enum value. *)
Definition UpdateMemberRoleDto_role (raw : option string) : option TeamMemberRole :=
  match raw with
  | None => None
  | Some v => IsEnum_TeamMemberRole v
  end.

Definition isHexDigit (c : ascii) : bool :=
  let n := nat_of_ascii c in
  (((48 <=? n) && (n <=? 57)) || ((97 <=? n) && (n <=? 102))
   || ((65 <=? n) && (n <=? 70)))%nat.

(** [@Matches(/^[0-9a-fA-F]{24}$/)]. *)
Definition isObjectId (s : string) : bool :=
  (String.length s =? 24)%nat && forallb isHexDigit (list_ascii_of_string s).

(** The [assignee] field of [CreateTaskDto] and [UpdateTaskDto]:
    optional, [null] allowed, an ObjectId string otherwise. *)
Definition assignee_ok (a : option Id) : bool :=
  match a with
  | None => true
  | Some s => isObjectId s
  end.

End Dto.

(** [req.user?.userId] followed by [if (!userId)]: the id when it is
    defined and truthy. *)
Definition authenticated (user : option Id) : option Id :=
  match user with
  | Some userId => if Js.truthy userId then Some userId else None
  | None => None
  end.

(** ** Team controller ([modules/team/controllers]) *)

Module TeamController.

(** The predicate [m => m.userId.toString() === memberId]. *)
Definition hasUserId (memberId : Id) (m : Team.Member) : bool :=
  String.eqb (Team.userId m) memberId.

Definition createTeam (db : Db) (user : option Id) (name : string)
    (description : option string) (newId : Id) (now : Z) : Response * Db :=
  match authenticated user with
  | None => (ResponseHandler.unauthorized ResponseMessages.AUTH_UNAUTHORIZED, db)
  | Some userId =>
      let team :=
        Team.mk name description userId [Team.mkMember userId OWNER now] in
      match teams db !! newId with
      | Some _ =>
          (* the insert of a taken [_id] is refused *)
          (ResponseHandler.serverError
             ResponseMessages.GENERAL_INTERNAL_SERVER_ERROR, db)
      | None =>
          let db1 := set_teams db (<[newId := team]> (teams db)) in
          match User.findById (users db1) userId with
          | None =>
              (* [team.owner] populated to [null] *)
              (ResponseHandler.serverError
                 ResponseMessages.GENERAL_INTERNAL_SERVER_ERROR, db1)
          | Some _ =>
              (ResponseHandler.success "Team created successfully" 201, db1)
          end
      end
  end.

Definition updateTeam (db : Db) (user : option Id) (teamId : Id)
    (name : option string) (description : option (option string))
    : Response * Db :=
  match authenticated user with
  | None => (ResponseHandler.unauthorized ResponseMessages.AUTH_UNAUTHORIZED, db)
  | Some userId =>
      match teams db !! teamId with
      | None => (ResponseHandler.notFound "Team not found", db)
      | Some team =>
          if negb (Team.isAdminOrOwner team userId) then
            (ResponseHandler.error
               "Only team admins or owners can update team details"
               "Forbidden" 403, db)
          else
            let name' := match name with Some n => n | None => Team.name team end in
            let description' :=
              match description with
              | Some d => d
              | None => Team.description team
              end in
            let team' :=
              Team.mk name' description' (Team.owner team) (Team.members team) in
            let db1 := set_teams db (<[teamId := team']> (teams db)) in
            match User.findById (users db1) (Team.owner team') with
            | None =>
                (ResponseHandler.serverError
                   ResponseMessages.GENERAL_INTERNAL_SERVER_ERROR, db1)
            | Some _ =>
                (ResponseHandler.success "Team updated successfully" 200, db1)
            end
      end
  end.

Definition deleteTeam (db : Db) (user : option Id) (teamId : Id)
    : Response * Db :=
  match authenticated user with
  | None => (ResponseHandler.unauthorized ResponseMessages.AUTH_UNAUTHORIZED, db)
  | Some userId =>
      match teams db !! teamId with
      | None => (ResponseHandler.notFound "Team not found", db)
      | Some team =>
          if negb (String.eqb (Team.owner team) userId) then
            (ResponseHandler.error "Only team owner can delete the team"
               "Forbidden" 403, db)
          else
            (ResponseHandler.success "Team deleted successfully" 200,
             set_teams db (delete teamId (teams db)))
      end
  end.

Definition inviteMember (db : Db) (user : option Id) (teamId : Id)
    (email : string) (role : option TeamMemberRole) (now : Z) : Response * Db :=
  match authenticated user with
  | None => (ResponseHandler.unauthorized ResponseMessages.AUTH_UNAUTHORIZED, db)
  | Some userId =>
      match teams db !! teamId with
      | None => (ResponseHandler.notFound "Team not found", db)
      | Some team =>
          if negb (Team.isAdminOrOwner team userId) then
            (ResponseHandler.error
               "Only team admins or owners can invite members"
               "Forbidden" 403, db)
          else
            match User.findOneByEmail (users db) email with
            | None =>
                (ResponseHandler.notFound "User not found with this email", db)
            | Some userToInvite =>
                if Team.isMember team (User._id userToInvite) then
                  (ResponseHandler.error
                     "User is already a member of this team" "Conflict" 409, db)
                else
                  match User.findById (users db) userId with
                  | None =>
                      (ResponseHandler.unauthorized
                         ResponseMessages.AUTH_UNAUTHORIZED, db)
                  | Some inviter =>
                      let role' := match role with Some r => r | None => MEMBER end in
                      let team' :=
                        Team.mk (Team.name team) (Team.description team)
                          (Team.owner team)
                          (Team.members team
                           ++ [Team.mkMember (User._id userToInvite) role' now]) in
                      let db1 := set_teams db (<[teamId := team']> (teams db)) in
                      let io' :=
                        SocketService.emitMemberJoined (io db1)
                          (mkMemberJoinedPayload teamId (Team.name team')
                             (UserRef_populated userToInvite) role' now
                             (UserRef_of userId inviter)) in
                      (ResponseHandler.success
                         "Member added to team successfully" 201,
                       set_io db1 io')
                  end
            end
      end
  end.

Definition removeMember (db : Db) (user : option Id) (teamId memberId : Id)
    : Response * Db :=
  match authenticated user with
  | None => (ResponseHandler.unauthorized ResponseMessages.AUTH_UNAUTHORIZED, db)
  | Some userId =>
      match teams db !! teamId with
      | None => (ResponseHandler.notFound "Team not found", db)
      | Some team =>
          if negb (Team.isAdminOrOwner team userId) then
            (ResponseHandler.error
               "Only team admins or owners can remove members"
               "Forbidden" 403, db)
          else if String.eqb (Team.owner team) memberId then
            (ResponseHandler.error "Cannot remove team owner" "Bad Request" 400, db)
          else
            match Js.findIndex (hasUserId memberId) (Team.members team) with
            | None =>
                (ResponseHandler.notFound "Member not found in this team", db)
            | Some memberIndex =>
                let removedMember := User.findById (users db) memberId in
                let remover := User.findById (users db) userId in
                let team' :=
                  Team.mk (Team.name team) (Team.description team)
                    (Team.owner team)
                    (Js.splice1 memberIndex (Team.members team)) in
                let db1 := set_teams db (<[teamId := team']> (teams db)) in
                let io' :=
                  match removedMember, remover with
                  | Some removedMember, Some remover =>
                      SocketService.emitMemberRemoved (io db1)
                        (mkMemberRemovedPayload teamId (Team.name team')
                           memberId (User.name removedMember)
                           (UserRef_of userId remover))
                  | _, _ => io db1
                  end in
                (ResponseHandler.success
                   "Member removed from team successfully" 200,
                 set_io db1 io')
            end
      end
  end.

(** [member.role = role]. *)
Definition setRole (role : TeamMemberRole) (m : Team.Member) : Team.Member :=
  Team.mkMember (Team.userId m) role (Team.joinedAt m).

Definition updateMemberRole (db : Db) (user : option Id)
    (teamId memberId : Id) (role : TeamMemberRole) : Response * Db :=
  match authenticated user with
  | None => (ResponseHandler.unauthorized ResponseMessages.AUTH_UNAUTHORIZED, db)
  | Some userId =>
      match teams db !! teamId with
      | None => (ResponseHandler.notFound "Team not found", db)
      | Some team =>
          if negb (String.eqb (Team.owner team) userId) then
            (ResponseHandler.error "Only team owner can update member roles"
               "Forbidden" 403, db)
          else if String.eqb (Team.owner team) memberId then
            (ResponseHandler.error "Cannot update team owner role"
               "Bad Request" 400, db)
          else
            match Js.find (hasUserId memberId) (Team.members team) with
            | Some member =>
                let oldRole := Team.role member in
                let memberUser := User.findById (users db) memberId in
                let updater := User.findById (users db) userId in
                let team' :=
                  Team.mk (Team.name team) (Team.description team)
                    (Team.owner team)
                    (Js.updateFirst (hasUserId memberId) (setRole role)
                       (Team.members team)) in
                let db1 := set_teams db (<[teamId := team']> (teams db)) in
                let io' :=
                  match memberUser, updater with
                  | Some memberUser, Some updater =>
                      SocketService.emitMemberRoleUpdated (io db1)
                        (mkMemberRoleUpdatedPayload teamId (Team.name team')
                           (UserRef_of memberId memberUser) oldRole role
                           (UserRef_of userId updater))
                  | _, _ => io db1
                  end in
                (ResponseHandler.success "Member role updated successfully" 200,
                 set_io db1 io')
            | None =>
                (ResponseHandler.notFound "Member not found in this team", db)
            end
      end
  end.

Definition leaveTeam (db : Db) (user : option Id) (teamId : Id)
    : Response * Db :=
  match authenticated user with
  | None => (ResponseHandler.unauthorized ResponseMessages.AUTH_UNAUTHORIZED, db)
  | Some userId =>
      match teams db !! teamId with
      | None => (ResponseHandler.notFound "Team not found", db)
      | Some team =>
          if String.eqb (Team.owner team) userId then
            (ResponseHandler.error
               "Team owner cannot leave. Please transfer ownership or delete the team."
               "Bad Request" 400, db)
          else
            match Js.findIndex (hasUserId userId) (Team.members team) with
            | None =>
                (ResponseHandler.error "You are not a member of this team"
                   "Bad Request" 400, db)
            | Some memberIndex =>
                let team' :=
                  Team.mk (Team.name team) (Team.description team)
                    (Team.owner team)
                    (Js.splice1 memberIndex (Team.members team)) in
                (ResponseHandler.success "Left team successfully" 200,
                 set_teams db (<[teamId := team']> (teams db)))
            end
      end
  end.

End TeamController.

(** ** Task controller ([modules/task/controllers]) *)

Record CreateTaskDto := mkCreateTaskDto {
  ct_title : string;
  ct_description : option string;
  ct_priority : TaskPriority;
  ct_status : TaskStatus;
  ct_dueDate : option Z;
  ct_assignee : option Id;
  ct_projectId : Id;
}.

(** Every field of [UpdateTaskDto] is optional: the outer [None] is
    [undefined]; for the fields that accept [null] the inner [None] is
    [null]. *)
Record UpdateTaskDto := mkUpdateTaskDto {
  ut_title : option string;
  ut_description : option (option string);
  ut_priority : option TaskPriority;
  ut_status : option TaskStatus;
  ut_dueDate : option (option Z);
  ut_assignee : option (option Id);
}.

Module TaskController.

(** A populated [assignee] path: the user document, or [null]. *)
Definition populateAssignee (users : list User.t) (a : option Id) : option UserRef :=
  match a with
  | Some id =>
      match User.findById users id with
      | Some u => Some (UserRef_populated u)
      | None => None
      end
  | None => None
  end.

(** The [taskResponse] object, as far as the emitted payload reads it. *)
Definition taskView (users : list User.t) (taskId : Id) (task : Task.t)
    (projectName : string) (creator : User.t) : TaskView :=
  mkTaskView taskId (Task.title task) (Task.description task)
    (Task.priority task) (Task.status task) (Task.dueDate task)
    (populateAssignee users (Task.assignee task))
    (Task.projectId task, projectName) (UserRef_populated creator).

(** [if (x.assignee)] on an optional, nullable id. *)
Definition truthyAssignee (a : option Id) : option Id :=
  match a with
  | Some id => if Js.truthy id then Some id else None
  | None => None
  end.

(** The assignee check shared by [createTask] and [updateTask]:
    [None] when the check passes, the error response otherwise. *)
Definition checkAssignee (db : Db) (team : Team.t) (a : option Id)
    : option Response :=
  match truthyAssignee a with
  | None => None
  | Some id =>
      match User.findById (users db) id with
      | None =>
          Some (ResponseHandler.notFound ResponseMessages.TASK_ASSIGNEE_NOT_FOUND)
      | Some _ =>
          if negb (Team.isMember team id) then
            Some (ResponseHandler.error "Assignee must be a member of the team"
                    "Invalid Assignee" 400)
          else None
      end
  end.

Definition createTask (db : Db) (user : option Id) (taskData : CreateTaskDto)
    (newId : Id) (now : Z) : Response * Db :=
  match authenticated user with
  | None => (ResponseHandler.unauthorized ResponseMessages.AUTH_UNAUTHORIZED, db)
  | Some userId =>
      match projects db !! ct_projectId taskData with
      | None => (ResponseHandler.notFound ResponseMessages.TASK_PROJECT_NOT_FOUND, db)
      | Some project =>
          let teamId := Project.teamId project in
          match teams db !! teamId with
          | None => (ResponseHandler.notFound ResponseMessages.TASK_TEAM_NOT_FOUND, db)
          | Some team =>
              if negb (Team.isMember team userId) then
                (ResponseHandler.error ResponseMessages.TASK_NOT_TEAM_MEMBER
                   "Forbidden" 403, db)
              else
                match checkAssignee db team (ct_assignee taskData) with
                | Some err => (err, db)
                | None =>
                    let task :=
                      Task.mk (ct_title taskData) (ct_description taskData)
                        (ct_priority taskData) (ct_status taskData)
                        (ct_dueDate taskData) (ct_assignee taskData)
                        (ct_projectId taskData) userId in
                    match tasks db !! newId with
                    | Some _ =>
                        (ResponseHandler.serverError
                           ResponseMessages.GENERAL_INTERNAL_SERVER_ERROR, db)
                    | None =>
                        let db1 := set_tasks db (<[newId := task]> (tasks db)) in
                        let db2 :=
                          ActivityService.logActivity db1 userId teamId CREATED
                            ActivityEntity.TASK newId
                            (MetaTaskCreated (Task.title task) (Task.priority task)
                               (Task.status task) (Task.assignee task)) now in
                        match User.findById (users db2) userId with
                        | None =>
                            (* [task.createdBy] populated to [null] *)
                            (ResponseHandler.serverError
                               ResponseMessages.GENERAL_INTERNAL_SERVER_ERROR, db2)
                        | Some creator =>
                            let taskResponse :=
                              taskView (users db2) newId task
                                (Project.name project) creator in
                            let io' :=
                              SocketService.emitTaskCreated (io db2) taskResponse
                                teamId (ct_projectId taskData) in
                            (ResponseHandler.success ResponseMessages.TASK_CREATED 201,
                             set_io db2 io')
                        end
                    end
                end
          end
      end
  end.

(** [oldAssignee !== updateData.assignee], where [oldAssignee] is a
    string or [undefined] and [updateData.assignee] a string or [null]. *)
Definition assigneeDiffers (oldAssignee newAssignee : option Id) : bool :=
  match newAssignee with
  | None => true
  | Some n =>
      match oldAssignee with
      | Some o => negb (String.eqb o n)
      | None => true
      end
  end.

Definition statusTransitionError (current requested : TaskStatus) : Response :=
  ResponseHandler.error
    ("Cannot transition from " ++ TaskStatus_value current
     ++ " to " ++ TaskStatus_value requested)
    "Invalid Status Transition" 400.

(** The recorder calls of [updateTask], made once the document is
    saved: the generic record, then one for a changed assignee, then one
    for a changed status. *)
Definition updateTask_logActivities (db : Db) (userId teamId taskId : Id)
    (oldAssignee : option Id) (oldStatus : TaskStatus) (task' : Task.t)
    (changes : TaskChanges) (updateData : UpdateTaskDto) (now : Z) : Db :=
  let db2 :=
    ActivityService.logActivity db userId teamId UPDATED ActivityEntity.TASK
      taskId (MetaTaskUpdated (Task.title task') changes) now in
  let db3 :=
    match ut_assignee updateData with
    | Some newAssignee =>
        if assigneeDiffers oldAssignee newAssignee then
          ActivityService.logActivity db2 userId teamId
            (match truthyAssignee newAssignee with
             | Some _ => ASSIGNED
             | None => UNASSIGNED
             end)
            ActivityEntity.TASK taskId
            (MetaAssignment (Task.title task') oldAssignee newAssignee) now
        else db2
    | None => db2
    end in
  match ut_status updateData with
  | Some s =>
      if negb (TaskStatus_eqb oldStatus s) then
        ActivityService.logActivity db3 userId teamId STATUS_CHANGED
          ActivityEntity.TASK taskId
          (MetaStatus (Task.title task') oldStatus s) now
      else db3
  | None => db3
  end.

(** The socket calls of [updateTask] and its answer, once the references
    of the saved document are populated. *)
Definition updateTask_emit (db : Db) (userId teamId taskId : Id)
    (oldAssignee : option Id) (oldStatus : TaskStatus) (task' : Task.t)
    (changes : TaskChanges) (updateData : UpdateTaskDto) (project : Project.t)
    (creator : User.t) : Response * Db :=
  let updater := User.findById (users db) userId in
  let taskResponse :=
    taskView (users db) taskId task' (Project.name project) creator in
  let io1 :=
    match updater with
    | Some updater =>
        SocketService.emitTaskUpdated (io db) taskResponse changes teamId
          (Task.projectId task') (UserRef_of userId updater)
    | None => io db
    end in
  let io2 :=
    match ut_status updateData, updater with
    | Some s, Some updater =>
        if negb (TaskStatus_eqb oldStatus s) then
          SocketService.emitTaskStatusChanged io1
            (mkTaskStatusChangedPayload taskId (Task.title task') oldStatus
               s teamId (Task.projectId task') (UserRef_of userId updater))
        else io1
    | _, _ => io1
    end in
  match ut_assignee updateData, updater with
  | Some newAssignee, Some updater =>
      if assigneeDiffers oldAssignee newAssignee then
        match truthyAssignee newAssignee with
        | Some a =>
            match User.findById (users db) a with
            | Some assignee =>
                let io3 :=
                  SocketService.emitTaskAssigned io2
                    (mkTaskAssignedPayload taskId (Task.title task')
                       (UserRef_populated assignee) teamId (Task.projectId task')
                       (UserRef_of userId updater)) in
                (ResponseHandler.success ResponseMessages.TASK_UPDATED 200,
                 set_io db io3)
            | None =>
                (* [task.assignee] populated to [null] *)
                (ResponseHandler.serverError
                   ResponseMessages.GENERAL_INTERNAL_SERVER_ERROR, set_io db io2)
            end
        | None =>
            (ResponseHandler.success ResponseMessages.TASK_UPDATED 200, set_io db io2)
        end
      else (ResponseHandler.success ResponseMessages.TASK_UPDATED 200, set_io db io2)
  | _, _ => (ResponseHandler.success ResponseMessages.TASK_UPDATED 200, set_io db io2)
  end.

Definition updateTask (db : Db) (user : option Id) (taskId : Id)
    (updateData : UpdateTaskDto) (now : Z) : Response * Db :=
  match authenticated user with
  | None => (ResponseHandler.unauthorized ResponseMessages.AUTH_UNAUTHORIZED, db)
  | Some userId =>
  match tasks db !! taskId with
  | None => (ResponseHandler.notFound ResponseMessages.TASK_NOT_FOUND, db)
  | Some task =>
  match projects db !! Task.projectId task with
  | None =>
      (* [task.projectId] populated to [null] *)
      (ResponseHandler.serverError ResponseMessages.GENERAL_INTERNAL_SERVER_ERROR, db)
  | Some project =>
  let teamId := Project.teamId project in
  match teams db !! teamId with
  | None =>
      (ResponseHandler.error ResponseMessages.TASK_UNAUTHORIZED "Forbidden" 403, db)
  | Some team =>
  if negb (Team.isMember team userId) then
    (ResponseHandler.error ResponseMessages.TASK_UNAUTHORIZED "Forbidden" 403, db)
  else
  match checkAssignee db team (default None (ut_assignee updateData)) with
  | Some err => (err, db)
  | None =>
  let oldAssignee := Task.assignee task in
  let oldStatus := Task.status task in
  let title' := default (Task.title task) (ut_title updateData) in
  let description' := default (Task.description task) (ut_description updateData) in
  let priority' := default (Task.priority task) (ut_priority updateData) in
  match
    match ut_status updateData with
    | Some s =>
        if negb (Task.canTransitionTo task s) then
          inl (statusTransitionError (Task.status task) s)
        else inr s
    | None => inr (Task.status task)
    end
  with
  | inl err => (err, db)
  | inr status' =>
  let dueDate' := default (Task.dueDate task) (ut_dueDate updateData) in
  let assignee' := default (Task.assignee task) (ut_assignee updateData) in
  let changes :=
    mkTaskChanges
      (option_map (fun n => (Task.title task, n)) (ut_title updateData))
      (option_map (fun n => (Task.priority task, n)) (ut_priority updateData))
      (option_map (fun n => (Task.status task, n)) (ut_status updateData))
      (option_map (fun n => (oldAssignee, n)) (ut_assignee updateData)) in
  let task' :=
    Task.mk title' description' priority' status' dueDate' assignee'
      (Task.projectId task) (Task.createdBy task) in
  let db1 := set_tasks db (<[taskId := task']> (tasks db)) in
  let db4 :=
    updateTask_logActivities db1 userId teamId taskId oldAssignee oldStatus
      task' changes updateData now in
  match User.findById (users db4) (Task.createdBy task') with
  | None =>
      (* [task.createdBy] populated to [null] *)
      (ResponseHandler.serverError ResponseMessages.GENERAL_INTERNAL_SERVER_ERROR, db4)
  | Some creator =>
      updateTask_emit db4 userId teamId taskId oldAssignee oldStatus task'
        changes updateData project creator
  end
  end
  end
  end
  end
  end
  end.

Definition updateTaskStatus (db : Db) (user : option Id) (taskId : Id)
    (status : TaskStatus) : Response * Db :=
  match authenticated user with
  | None => (ResponseHandler.unauthorized ResponseMessages.AUTH_UNAUTHORIZED, db)
  | Some userId =>
  match tasks db !! taskId with
  | None => (ResponseHandler.notFound ResponseMessages.TASK_NOT_FOUND, db)
  | Some task =>
  match projects db !! Task.projectId task with
  | None =>
      (ResponseHandler.serverError ResponseMessages.GENERAL_INTERNAL_SERVER_ERROR, db)
  | Some project =>
  let teamId := Project.teamId project in
  match teams db !! teamId with
  | None =>
      (ResponseHandler.error ResponseMessages.TASK_UNAUTHORIZED "Forbidden" 403, db)
  | Some team =>
  if negb (Team.isMember team userId) then
    (ResponseHandler.error ResponseMessages.TASK_UNAUTHORIZED "Forbidden" 403, db)
  else if negb (Task.canTransitionTo task status) then
    (statusTransitionError (Task.status task) status, db)
  else
    let oldStatus := Task.status task in
    let task' :=
      Task.mk (Task.title task) (Task.description task) (Task.priority task)
        status (Task.dueDate task) (Task.assignee task) (Task.projectId task)
        (Task.createdBy task) in
    let db1 := set_tasks db (<[taskId := task']> (tasks db)) in
    let updater := User.findById (users db1) userId in
    let io' :=
      match updater with
      | Some updater =>
          SocketService.emitTaskStatusChanged (io db1)
            (mkTaskStatusChangedPayload taskId (Task.title task') oldStatus
               status teamId (Task.projectId task') (UserRef_of userId updater))
      | None => io db1
      end in
    (ResponseHandler.success ResponseMessages.TASK_STATUS_UPDATED 200,
     set_io db1 io')
  end
  end
  end
  end.

Definition deleteTask (db : Db) (user : option Id) (taskId : Id) (now : Z)
    : Response * Db :=
  match authenticated user with
  | None => (ResponseHandler.unauthorized ResponseMessages.AUTH_UNAUTHORIZED, db)
  | Some userId =>
  match tasks db !! taskId with
  | None => (ResponseHandler.notFound ResponseMessages.TASK_NOT_FOUND, db)
  | Some task =>
  match projects db !! Task.projectId task with
  | None =>
      (ResponseHandler.serverError ResponseMessages.GENERAL_INTERNAL_SERVER_ERROR, db)
  | Some project =>
  let teamId := Project.teamId project in
  match teams db !! teamId with
  | None => (ResponseHandler.notFound ResponseMessages.TASK_TEAM_NOT_FOUND, db)
  | Some team =>
  if negb (Team.isAdminOrOwner team userId)
     && negb (String.eqb (Task.createdBy task) userId) then
    (ResponseHandler.error
       "Only team admins/owners or task creator can delete tasks"
       "Forbidden" 403, db)
  else
    let db1 := set_tasks db (delete taskId (tasks db)) in
    let deleter := User.findById (users db1) userId in
    let db2 :=
      ActivityService.logActivity db1 userId teamId DELETED ActivityEntity.TASK
        taskId (MetaTaskDeleted (Task.title task)) now in
    let io' :=
      match deleter with
      | Some deleter =>
          SocketService.emitTaskDeleted (io db2) taskId (Task.title task) teamId
            (Task.projectId task) (UserRef_of userId deleter)
      | None => io db2
      end in
    (ResponseHandler.success ResponseMessages.TASK_DELETED 200, set_io db2 io')
  end
  end
  end
  end.

End TaskController.

(** ** Project controller ([modules/project/controllers]) *)

Module ProjectController.

Definition createProject (db : Db) (user : option Id) (name : string)
    (description : option string) (teamId : Id) (newId : Id) (now : Z)
    : Response * Db :=
  match authenticated user with
  | None => (ResponseHandler.unauthorized ResponseMessages.AUTH_UNAUTHORIZED, db)
  | Some userId =>
  match teams db !! teamId with
  | None => (ResponseHandler.notFound ResponseMessages.PROJECT_TEAM_NOT_FOUND, db)
  | Some team =>
  if negb (Team.isMember team userId) then
    (ResponseHandler.forbidden ResponseMessages.PROJECT_NOT_TEAM_MEMBER, db)
  else
    let project := Project.mk name description teamId userId in
    match projects db !! newId with
    | Some _ =>
        (ResponseHandler.serverError
           ResponseMessages.GENERAL_INTERNAL_SERVER_ERROR, db)
    | None =>
        let db1 := set_projects db (<[newId := project]> (projects db)) in
        let db2 :=
          ActivityService.logActivity db1 userId teamId CREATED
            ActivityEntity.PROJECT newId (MetaProject (Project.name project)) now in
        match User.findById (users db2) userId with
        | None =>
            (ResponseHandler.serverError
               ResponseMessages.GENERAL_INTERNAL_SERVER_ERROR, db2)
        | Some creator =>
            let io' :=
              SocketService.emitProjectCreated (io db2) newId
                (Project.name project) (Project.description project) teamId
                (UserRef_populated creator) in
            (ResponseHandler.success ResponseMessages.PROJECT_CREATED 201,
             set_io db2 io')
        end
    end
  end
  end.

(** [project.teamId.toString()] once [populate] has put the team
    document (with its [name] selected) in the place of the id: the
    document as printed, not its id.  The layout is the one Node's
    [util.inspect] gives a document that fits one line. *)
Definition populatedTeamId_toString (project : Project.t) (team : Team.t)
    : string :=
  "{ _id: new ObjectId('" ++ Project.teamId project ++ "'), name: '"
  ++ Team.name team ++ "' }".

Definition updateProject (db : Db) (user : option Id) (projectId : Id)
    (name : option string) (description : option (option string)) (now : Z)
    : Response * Db :=
  match authenticated user with
  | None => (ResponseHandler.unauthorized ResponseMessages.AUTH_UNAUTHORIZED, db)
  | Some userId =>
  match projects db !! projectId with
  | None => (ResponseHandler.notFound ResponseMessages.PROJECT_NOT_FOUND, db)
  | Some project =>
  match teams db !! Project.teamId project with
  | None => (ResponseHandler.notFound ResponseMessages.PROJECT_TEAM_NOT_FOUND, db)
  | Some team =>
  if negb (Team.isAdminOrOwner team userId) then
    (ResponseHandler.forbidden ResponseMessages.PROJECT_UNAUTHORIZED, db)
  else
    let changes :=
      mkProjectChanges
        (option_map (fun n => (Project.name project, n)) name)
        (option_map (fun n => (Project.description project, n)) description) in
    let project' :=
      Project.mk (default (Project.name project) name)
        (default (Project.description project) description)
        (Project.teamId project) (Project.createdBy project) in
    let db1 := set_projects db (<[projectId := project']> (projects db)) in
    let db2 :=
      ActivityService.logActivity db1 userId (Project.teamId project') UPDATED
        ActivityEntity.PROJECT projectId
        (MetaProjectUpdated (Project.name project') changes) now in
    let updater := User.findById (users db2) userId in
    match User.findById (users db2) (Project.createdBy project') with
    | None =>
        (ResponseHandler.serverError
           ResponseMessages.GENERAL_INTERNAL_SERVER_ERROR, db2)
    | Some _ =>
        let io' :=
          match updater with
          | Some updater =>
              SocketService.emitProjectUpdated (io db2) projectId
                (Project.name project') (Project.description project') changes
                (populatedTeamId_toString project' team)
                (UserRef_of userId updater)
          | None => io db2
          end in
        (ResponseHandler.success ResponseMessages.PROJECT_UPDATED 200,
         set_io db2 io')
    end
  end
  end
  end.

Definition deleteProject (db : Db) (user : option Id) (projectId : Id) (now : Z)
    : Response * Db :=
  match authenticated user with
  | None => (ResponseHandler.unauthorized ResponseMessages.AUTH_UNAUTHORIZED, db)
  | Some userId =>
  match projects db !! projectId with
  | None => (ResponseHandler.notFound ResponseMessages.PROJECT_NOT_FOUND, db)
  | Some project =>
  match teams db !! Project.teamId project with
  | None => (ResponseHandler.notFound ResponseMessages.PROJECT_TEAM_NOT_FOUND, db)
  | Some team =>
  if negb (Team.isAdminOrOwner team userId) then
    (ResponseHandler.forbidden ResponseMessages.PROJECT_UNAUTHORIZED, db)
  else
    let db1 := set_projects db (delete projectId (projects db)) in
    let deleter := User.findById (users db1) userId in
    let db2 :=
      ActivityService.logActivity db1 userId (Project.teamId project) DELETED
        ActivityEntity.PROJECT projectId (MetaProject (Project.name project)) now in
    let io' :=
      match deleter with
      | Some deleter =>
          SocketService.emitProjectDeleted (io db2) projectId
            (Project.name project) (Project.teamId project)
            (UserRef_of userId deleter)
      | None => io db2
      end in
    (ResponseHandler.success ResponseMessages.PROJECT_DELETED 200, set_io db2 io')
  end
  end
  end.

End ProjectController.

(** ** The task-status table as the specification words it *)

(** The directed edges of the allowed transitions:
    todo -> in_progress, done;  in_progress -> todo, review, done;
    review -> in_progress, done;  done -> todo, in_progress, review. *)
Inductive SpecEdge : TaskStatus -> TaskStatus -> Prop :=
| edge_todo_in_progress : SpecEdge TODO IN_PROGRESS
| edge_todo_done : SpecEdge TODO DONE
| edge_in_progress_todo : SpecEdge IN_PROGRESS TODO
| edge_in_progress_review : SpecEdge IN_PROGRESS REVIEW
| edge_in_progress_done : SpecEdge IN_PROGRESS DONE
| edge_review_in_progress : SpecEdge REVIEW IN_PROGRESS
| edge_review_done : SpecEdge REVIEW DONE
| edge_done_todo : SpecEdge DONE TODO
| edge_done_in_progress : SpecEdge DONE IN_PROGRESS
| edge_done_review : SpecEdge DONE REVIEW.

(** ** Reachable databases *)

(** One request served by a controller. *)
Inductive step (db : Db) : Db -> Prop :=
| step_createTeam user name description newId now :
    step db (snd (TeamController.createTeam db user name description newId now))
| step_updateTeam user teamId name description :
    step db (snd (TeamController.updateTeam db user teamId name description))
| step_deleteTeam user teamId :
    step db (snd (TeamController.deleteTeam db user teamId))
| step_inviteMember user teamId email role now :
    step db (snd (TeamController.inviteMember db user teamId email role now))
| step_removeMember user teamId memberId :
    step db (snd (TeamController.removeMember db user teamId memberId))
| step_updateMemberRole user teamId memberId role :
    step db (snd (TeamController.updateMemberRole db user teamId memberId role))
| step_leaveTeam user teamId :
    step db (snd (TeamController.leaveTeam db user teamId))
| step_createProject user name description teamId newId now :
    step db (snd (ProjectController.createProject db user name description
                    teamId newId now))
| step_updateProject user projectId name description now :
    step db (snd (ProjectController.updateProject db user projectId name
                    description now))
| step_deleteProject user projectId now :
    step db (snd (ProjectController.deleteProject db user projectId now))
| step_createTask user taskData newId now :
    step db (snd (TaskController.createTask db user taskData newId now))
| step_updateTask user taskId updateData now :
    step db (snd (TaskController.updateTask db user taskId updateData now))
| step_updateTaskStatus user taskId status :
    step db (snd (TaskController.updateTaskStatus db user taskId status))
| step_deleteTask user taskId now :
    step db (snd (TaskController.deleteTask db user taskId now)).

(** The databases the controllers produce, starting without any team. *)
Inductive Reachable : Db -> Prop :=
| reach_init db : teams db = ∅ -> Reachable db
| reach_step db db' : Reachable db -> step db db' -> Reachable db'.

(** The owner has an entry in the member list. *)
Definition ownerListed (team : Team.t) : Prop :=
  In (Team.owner team) (map Team.userId (Team.members team)).

(** Every stored team lists its owner. *)
Definition ownersListed (db : Db) : Prop :=
  forall tid team, teams db !! tid = Some team -> ownerListed team.

(** [db'] holds the activities of [db] followed by new ones, the first
    of which records the given action on the given entity. *)
Definition recorded (db db' : Db) (action : ActivityAction)
    (entity : ActivityEntity.t) (entityId : Id) : Prop :=
  exists a rest,
    activities db' = (activities db ++ a :: rest)%list
    /\ Activity.action a = action
    /\ Activity.entity a = entity
    /\ Activity.entityId a = entityId.

(** Between [before] and [after] the socket server sent two copies of
    [payload] under [ev]: one to the room of the team, without the
    [isPersonal] field, then one to the personal room of the affected
    user, with [isPersonal: true]. *)
Definition fansOut (before after : option (list Emission)) (ev : SocketEvents.t)
    (payload : Payload) (teamId affected : Id) : Prop :=
  exists sent teamCopy personalCopy,
    before = Some sent
    /\ after = Some (sent ++ [teamCopy; personalCopy])%list
    /\ room teamCopy = "team:" ++ teamId
    /\ event teamCopy = ev
    /\ data teamCopy = payload
    /\ isPersonal teamCopy = None
    /\ room personalCopy = "user:" ++ affected
    /\ event personalCopy = ev
    /\ data personalCopy = payload
    /\ isPersonal personalCopy = Some true.

(** The document an accepted general update saves. *)
Definition updatedTask (task : Task.t) (updateData : UpdateTaskDto) : Task.t :=
  Task.mk (default (Task.title task) (ut_title updateData))
    (default (Task.description task) (ut_description updateData))
    (default (Task.priority task) (ut_priority updateData))
    (default (Task.status task) (ut_status updateData))
    (default (Task.dueDate task) (ut_dueDate updateData))
    (default (Task.assignee task) (ut_assignee updateData))
    (Task.projectId task) (Task.createdBy task).

(** The [changes] object of a general update. *)
Definition updateTaskChanges (task : Task.t) (updateData : UpdateTaskDto)
    : TaskChanges :=
  mkTaskChanges
    (option_map (fun n => (Task.title task, n)) (ut_title updateData))
    (option_map (fun n => (Task.priority task, n)) (ut_priority updateData))
    (option_map (fun n => (Task.status task, n)) (ut_status updateData))
    (option_map (fun n => (Task.assignee task, n)) (ut_assignee updateData)).

(** The records an accepted general update hands to the recorder, in the
    order of the calls. *)
Definition updateTaskLog (userId teamId taskId : Id) (task : Task.t)
    (updateData : UpdateTaskDto) (now : Z) : list Activity.t :=
  let title' := default (Task.title task) (ut_title updateData) in
  [Activity.mk userId teamId UPDATED ActivityEntity.TASK taskId
     (MetaTaskUpdated title' (updateTaskChanges task updateData)) now]
  ++ match ut_assignee updateData with
     | Some newAssignee =>
         if TaskController.assigneeDiffers (Task.assignee task) newAssignee then
           [Activity.mk userId teamId
              (match TaskController.truthyAssignee newAssignee with
               | Some _ => ASSIGNED
               | None => UNASSIGNED
               end)
              ActivityEntity.TASK taskId
              (MetaAssignment title' (Task.assignee task) newAssignee) now]
         else []
     | None => []
     end
  ++ match ut_status updateData with
     | Some s =>
         if negb (TaskStatus_eqb (Task.status task) s) then
           [Activity.mk userId teamId STATUS_CHANGED ActivityEntity.TASK taskId
              (MetaStatus title' (Task.status task) s) now]
         else []
     | None => []
     end.

(** ** Proof automation *)

(** Case analysis on the scrutinee of some [match] of the goal. *)
Ltac case_scrutinee :=
  match goal with
  | |- context [match ?x with _ => _ end] => destruct x eqn:?
  end.

(** Turns boolean comparisons among the hypotheses into equations. *)
Ltac eqb_facts :=
  repeat match goal with
  | H : String.eqb _ _ = false |- _ => apply String.eqb_neq in H
  | H : String.eqb _ _ = true |- _ => apply String.eqb_eq in H
  | H : negb _ = false |- _ => apply negb_false_iff in H
  | H : negb _ = true |- _ => apply negb_true_iff in H
  end.

(** Reduces the projections of a database built by the setters. *)
Ltac project_db :=
  cbn [fst snd users teams projects tasks activities io set_io set_tasks
       set_teams set_projects set_activities ActivityService.logActivity].

(** Closes a [recorded] goal once the activity list is explicit. *)
Ltac show_recorded :=
  unfold recorded; cbn; rewrite <- ?app_assoc; cbn;
  eexists; eexists; split; [reflexivity|cbn; auto].

(** ** Sample data *)

Module Sample.

Definition ada : Id := "0000000000000000000000a1".
Definition bob : Id := "0000000000000000000000a2".
Definition cyd : Id := "0000000000000000000000a3".
Definition ghost : Id := "0000000000000000000000ff".

Definition people : list User.t :=
  [User.mk ada "Ada" "ada@example.com";
   User.mk bob "Bob" "bob@example.com";
   User.mk cyd "Cyd" "cyd@example.com"].

Definition core : Team.t :=
  Team.mk "Core" None ada [Team.mkMember ada OWNER 0; Team.mkMember bob MEMBER 5].

Definition roadmap : Project.t := Project.mk "Roadmap" None "T1" ada.

Definition ticket : Task.t := Task.mk "Ticket" None MEDIUM TODO None None "P1" ada.

(** Ada owns team T1 with Bob as a member; Cyd is registered but in no
    team; project P1 of T1 holds the unassigned task K1 in status todo. *)
Definition db : Db :=
  mkDb people {[ "T1" := core ]} {[ "P1" := roadmap ]} {[ "K1" := ticket ]}
    [] (Some []).

(** Registered users, nothing else. *)
Definition dbEmpty : Db := mkDb people ∅ ∅ ∅ [] (Some []).

(** The same database before the socket server is initialised. *)
Definition dbOffline : Db := set_io db None.

(** A team whose owner has no entry in the member list. *)
Definition ownerOnly : Team.t := Team.mk "Solo" None ada [].

(** The team of Ada and Bob stored under an ObjectId. *)
Definition coreId : Id := "0000000000000000000000b1".

Definition dbCore : Db := mkDb people {[ coreId := core ]} ∅ ∅ [] (Some []).

End Sample.

(** ** Socket connections ([core/socket.ts]) *)

Module SocketServer.

(** What a handler sends back on the socket itself. *)
Inductive Reply :=
| ErrorReply (message : string)
| TeamJoined (teamId teamName message : string)
| TeamLeft (teamId message : string).

(** A connection: the user id the authentication middleware attached to
    the socket, and the rooms the handlers below joined it to. *)
Record Connection := mk { user : option Id; rooms : gset string }.

(** The [connection] handler: the socket joins its personal room. *)
Definition onConnection (user : option Id) : Connection :=
  match authenticated user with
  | Some userId => mk user {[ "user:" ++ userId ]}
  | None => mk user ∅
  end.

(** The [team:join] handler.  [Team.findById] casts the id the client
    sent; the room joined is named by the id as sent. *)
Definition onJoinTeam (db : Db) (c : Connection) (teamId : string)
    : Connection * Reply :=
  match (if Js.truthy teamId then authenticated (user c) else None) with
  | None => (c, ErrorReply "Invalid team ID or user not authenticated")
  | Some userId =>
      match ObjectId.cast teamId with
      | None =>
          (* the cast error, caught *)
          (c, ErrorReply "Failed to join team room")
      | Some id =>
          match teams db !! id with
          | None => (c, ErrorReply "Team not found")
          | Some team =>
              if negb (Team.isMember team userId) then
                (c, ErrorReply "You are not a member of this team")
              else
                (mk (user c) ({[ "team:" ++ teamId ]} ∪ rooms c),
                 TeamJoined teamId (Team.name team)
                   "Successfully joined team room")
          end
      end
  end.

(** The [team:leave] handler. *)
Definition onLeaveTeam (c : Connection) (teamId : string) : Connection * Reply :=
  if negb (Js.truthy teamId) then (c, ErrorReply "Invalid team ID")
  else
    (mk (user c) (rooms c ∖ {[ "team:" ++ teamId ]}),
     TeamLeft teamId "Successfully left team room").

(** The room events a client sends. *)
Inductive ClientEvent :=
| JOIN_TEAM (teamId : string)
| LEAVE_TEAM (teamId : string).

Definition handle (db : Db) (c : Connection) (ev : ClientEvent)
    : Connection * Reply :=
  match ev with
  | JOIN_TEAM teamId => onJoinTeam db c teamId
  | LEAVE_TEAM teamId => onLeaveTeam c teamId
  end.

(** A connection's life: it opens, then handles its events in order,
    each against the database of its moment. *)
Definition session (user : option Id) (events : list (Db * ClientEvent))
    : Connection :=
  fold_left (fun c ev => fst (handle (fst ev) c (snd ev))) events
    (onConnection user).

End SocketServer.

(** ** Invariants of the controllers *)

(** The shape the team controller keeps: the owner is listed, no user is
    listed twice, and an entry of the owner has role owner. *)
Definition teamOk (team : Team.t) : Prop :=
  ownerListed team
  /\ NoDup (map Team.userId (Team.members team))
  /\ (forall m, In m (Team.members team) ->
                Team.userId m = Team.owner team -> Team.role m = OWNER).

(** Every stored team has that shape. *)
Definition teamsOk (db : Db) : Prop :=
  forall tid team, teams db !! tid = Some team -> teamOk team.

(** The activities the controllers produce: the six task actions on a
    task, and creation, update and deletion on a project. *)
Definition producedKind (a : Activity.t) : bool :=
  match Activity.entity a, Activity.action a with
  | ActivityEntity.TASK,
    (CREATED | UPDATED | DELETED | ASSIGNED | UNASSIGNED | STATUS_CHANGED) => true
  | ActivityEntity.PROJECT, (CREATED | UPDATED | DELETED) => true
  | _, _ => false
  end.

(** The event under which each payload travels. *)
Definition Payload_event (p : Payload) : SocketEvents.t :=
  match p with
  | PTaskCreated _ _ _ => SocketEvents.TASK_CREATED
  | PTaskUpdated _ _ _ _ _ => SocketEvents.TASK_UPDATED
  | PTaskDeleted _ _ _ _ _ => SocketEvents.TASK_DELETED
  | PTaskStatusChanged _ => SocketEvents.TASK_STATUS_CHANGED
  | PTaskAssigned _ => SocketEvents.TASK_ASSIGNED
  | PMemberJoined _ => SocketEvents.MEMBER_JOINED
  | PMemberRemoved _ => SocketEvents.MEMBER_REMOVED
  | PMemberRoleUpdated _ => SocketEvents.MEMBER_ROLE_UPDATED
  | PProjectCreated _ _ _ _ _ => SocketEvents.PROJECT_CREATED
  | PProjectUpdated _ _ _ _ _ _ => SocketEvents.PROJECT_UPDATED
  | PProjectDeleted _ _ _ _ => SocketEvents.PROJECT_DELETED
  end.

(** The user a payload is about, for the four kinds that have one. *)
Definition personalTarget (p : Payload) : option Id :=
  match p with
  | PTaskAssigned q => Some (ref_id (ta_assignee q))
  | PMemberJoined q => Some (ref_id (mj_member q))
  | PMemberRemoved q => Some (mr_memberId q)
  | PMemberRoleUpdated q => Some (ref_id (mu_member q))
  | _ => None
  end.

#[global] Instance SocketEvents_eq_dec : EqDecision SocketEvents.t.
Proof. solve_decision. Defined.

(** An emission is well addressed when it travels under the event of its
    payload and is either a copy without [isPersonal] for the room of
    the payload's team, or a copy with [isPersonal: true] for the
    personal room of the user the payload is about. *)
Definition wellAddressed (e : Emission) : bool :=
  bool_decide (event e = Payload_event (data e))
  && match isPersonal e with
     | None => String.eqb (room e) ("team:" ++ Payload_teamId (data e))
     | Some flag =>
         flag
         && match personalTarget (data e) with
            | Some uid => String.eqb (room e) ("user:" ++ uid)
            | None => false
            end
     end.

(** [after] is [before] with well-addressed emissions appended; an
    uninitialised server stays so. *)
Definition extends (before after : option (list Emission)) : Prop :=
  match before, after with
  | None, None => True
  | Some sent, Some sent' =>
      exists new, sent' = (sent ++ new)%list /\ forallb wellAddressed new = true
  | _, _ => False
  end.

(** [after] is [before] with activities of the produced kinds appended. *)
Definition appends (before after : list Activity.t) : Prop :=
  exists new, after = (before ++ new)%list /\ forallb producedKind new = true.

(** Any number of requests served one after the other. *)
Inductive steps : Db -> Db -> Prop :=
| steps_refl db : steps db db
| steps_step db db' db'' : steps db db' -> step db' db'' -> steps db db''.

(** What one request may do to the users, the activities and the socket
    server. *)
Definition effects (db db' : Db) : Prop :=
  users db' = users db
  /\ appends (activities db) (activities db')
  /\ extends (io db) (io db').

(** * Properties *)

(** ** Lists *)

Lemma findIndex_split {A} (p : A -> bool) (l : list A) (i : nat) :
  Js.findIndex p l = Some i ->
  exists l1 x l2,
    l = (l1 ++ x :: l2)%list /\ length l1 = i /\ p x = true
    /\ (forall y, In y l1 -> p y = false)
    /\ Js.splice1 i l = (l1 ++ l2)%list.
Proof.
  revert i. induction l as [|a l IH]; intros i H; simpl in H.
  - discriminate.
  - destruct (p a) eqn:Hpa.
    + injection H as <-. exists [], a, l. simpl. repeat split; auto.
      intros y [].
    + destruct (Js.findIndex p l) as [j|] eqn:Hj; simpl in H; [|discriminate].
      injection H as <-.
      destruct (IH j eq_refl) as (l1 & x & l2 & -> & Hlen & Hpx & Hbefore & Hdel).
      exists (a :: l1), x, l2. simpl. repeat split; auto.
      * intros y [<-|Hy]; auto.
      * unfold Js.splice1 in *. cbn. f_equal. exact Hdel.
Qed.

Lemma findIndex_None {A} (p : A -> bool) (l : list A) :
  Js.findIndex p l = None <-> existsb p l = false.
Proof.
  induction l as [|a l IH]; simpl; [tauto|].
  destruct (p a); simpl; [split; discriminate|].
  destruct (Js.findIndex p l); simpl in *; split; intros H;
    try discriminate; try apply IH; auto.
  destruct IH as [_ IH]. specialize (IH H). discriminate.
Qed.

Lemma updateFirst_userId (p : Team.Member -> bool) (r : TeamMemberRole)
    (l : list Team.Member) :
  map Team.userId (Js.updateFirst p (TeamController.setRole r) l)
  = map Team.userId l.
Proof.
  induction l as [|a l IH]; simpl; [reflexivity|].
  destruct (p a); simpl; [reflexivity|]. now rewrite IH.
Qed.

(** ** Membership *)

Lemma isMember_In (team : Team.t) (uid : Id) :
  Team.isMember team uid = true
  <-> In uid (map Team.userId (Team.members team)).
Proof.
  unfold Team.isMember, Js.some. rewrite existsb_exists, in_map_iff.
  split.
  - intros (m & Hm & He). apply String.eqb_eq in He. eauto.
  - intros (m & He & Hm). exists m. split; [assumption|].
    now apply String.eqb_eq.
Qed.

Lemma spliced_keeps_other (l : list Team.Member) (victim other : Id) (i : nat) :
  Js.findIndex (TeamController.hasUserId victim) l = Some i ->
  other <> victim ->
  In other (map Team.userId l) ->
  In other (map Team.userId (Js.splice1 i l)).
Proof.
  intros Hi Hne Hin.
  destruct (findIndex_split _ _ _ Hi) as (l1 & x & l2 & -> & _ & Hx & _ & ->).
  unfold TeamController.hasUserId in Hx. apply String.eqb_eq in Hx.
  rewrite map_app, in_app_iff in *. simpl in Hin.
  destruct Hin as [H|[H|H]]; auto. congruence.
Qed.

(** ** C1: the transition table *)

Lemma includes_transitions_edge (current requested : TaskStatus) :
  Task.includes (Task.transitions current) requested = true
  <-> SpecEdge current requested.
Proof.
  destruct current, requested; vm_compute; split; intros H;
    solve [reflexivity | discriminate | constructor | inversion H].
Qed.

(** C1. For every pair (current, requested) of task statuses,
    [canTransitionTo] answers true exactly when requested is in the
    adjacency set of current in the table of the specification; every
    pair that is not listed, every same-status pair included, answers
    false. *)
Theorem canTransitionTo_matches_table (task : Task.t) (requested : TaskStatus) :
  (Task.canTransitionTo task requested = true
   <-> SpecEdge (Task.status task) requested)
  /\ (Task.canTransitionTo task requested = false
      <-> ~ SpecEdge (Task.status task) requested)
  /\ Task.canTransitionTo task (Task.status task) = false.
Proof.
  unfold Task.canTransitionTo. cbv zeta. rewrite !orb_false_r.
  pose proof (includes_transitions_edge (Task.status task) requested) as Hedge.
  split; [exact Hedge|]. split.
  - rewrite <- Hedge. now destruct (Task.includes _ _).
  - now destruct (Task.status task).
Qed.

(** ** C2: membership and the owner *)

Lemma checkAssignee_refuses (db : Db) (team : Team.t) (a : option Id)
    (r : Response) :
  TaskController.checkAssignee db team a = Some r ->
  r = ResponseHandler.notFound ResponseMessages.TASK_ASSIGNEE_NOT_FOUND
  \/ r = ResponseHandler.error "Assignee must be a member of the team"
           "Invalid Assignee" 400.
Proof.
  unfold TaskController.checkAssignee.
  repeat case_scrutinee; intros H; try discriminate; injection H as <-; auto.
Qed.

Lemma checkAssignee_failure (db : Db) (team : Team.t) (a : option Id)
    (r : Response) :
  TaskController.checkAssignee db team a = Some r -> success r = false.
Proof. intros H. now destruct (checkAssignee_refuses _ _ _ _ H) as [->| ->]. Qed.

(** The general update either refuses the request and leaves the
    database as it was, or passes every gate, saves the updated document
    and hands its records to the recorder; beyond that only the socket
    server changes. *)
Lemma updateTask_logActivities_eq (db : Db) (userId teamId taskId : Id)
    (task : Task.t) (updateData : UpdateTaskDto) (now : Z) :
  TaskController.updateTask_logActivities db userId teamId taskId
    (Task.assignee task) (Task.status task) (updatedTask task updateData)
    (updateTaskChanges task updateData) updateData now
  = set_activities db
      (activities db ++ updateTaskLog userId teamId taskId task updateData now).
Proof.
  unfold TaskController.updateTask_logActivities, updateTaskLog,
    ActivityService.logActivity, set_activities.
  destruct db as [us tm pj tk ac sk].
  cbn [users teams projects tasks activities io Task.title updatedTask].
  destruct (ut_assignee updateData) as [newAssignee|];
    [destruct (TaskController.assigneeDiffers (Task.assignee task) newAssignee)|];
    (destruct (ut_status updateData) as [s|];
     [destruct (negb (TaskStatus_eqb (Task.status task) s))|]);
    cbn [users teams projects tasks activities io];
    rewrite <- ?app_assoc; reflexivity.
Qed.

Lemma updateTask_emit_io_only (db : Db) (userId teamId taskId : Id)
    (oldAssignee : option Id) (oldStatus : TaskStatus) (task' : Task.t)
    (changes : TaskChanges) (updateData : UpdateTaskDto) (project : Project.t)
    (creator : User.t) (sk : option (list Emission)) :
  set_io (snd (TaskController.updateTask_emit db userId teamId taskId
                 oldAssignee oldStatus task' changes updateData project creator))
    sk
  = set_io db sk.
Proof.
  unfold TaskController.updateTask_emit. cbv zeta.
  repeat case_scrutinee; reflexivity.
Qed.

(** The general update either refuses the request and leaves the
    database as it was, or passes every gate, saves the updated document
    and hands its records to the recorder; beyond that only the socket
    server changes. *)
Lemma updateTask_inv (db : Db) (user : option Id) (taskId : Id)
    (updateData : UpdateTaskDto) (now : Z) :
  let r := TaskController.updateTask db user taskId updateData now in
  (success (fst r) = false /\ snd r = db)
  \/ (exists userId task project team,
        authenticated user = Some userId
        /\ tasks db !! taskId = Some task
        /\ projects db !! Task.projectId task = Some project
        /\ teams db !! Project.teamId project = Some team
        /\ Team.isMember team userId = true
        /\ TaskController.checkAssignee db team
             (default None (ut_assignee updateData)) = None
        /\ (forall s, ut_status updateData = Some s ->
                      Task.canTransitionTo task s = true)
        /\ set_io (snd r) (io db)
           = set_activities
               (set_tasks db (<[taskId := updatedTask task updateData]> (tasks db)))
               (activities db
                ++ updateTaskLog userId (Project.teamId project) taskId task
                     updateData now)).
Proof.
  unfold TaskController.updateTask.
  destruct (authenticated user) as [userId|] eqn:Hauth; [|left; split; reflexivity].
  destruct (tasks db !! taskId) as [task|] eqn:Htask; [|left; split; reflexivity].
  destruct (projects db !! Task.projectId task) as [project|] eqn:Hproject;
    [|left; split; reflexivity].
  cbv zeta.
  destruct (teams db !! Project.teamId project) as [team|] eqn:Hteam;
    [|left; split; reflexivity].
  destruct (Team.isMember team userId) eqn:Hmember; cbn [negb];
    [|left; split; reflexivity].
  destruct (TaskController.checkAssignee db team
              (default None (ut_assignee updateData))) as [err|] eqn:Hcheck.
  { left. split; [|reflexivity]. eapply checkAssignee_failure; eassumption. }
  assert (Hgate :
    (exists s, ut_status updateData = Some s
               /\ Task.canTransitionTo task s = false)
    \/ (forall s, ut_status updateData = Some s ->
                  Task.canTransitionTo task s = true)).
  { destruct (ut_status updateData) as [s|]; [|right; intros s Hs; discriminate].
    destruct (Task.canTransitionTo task s) eqn:Hcan.
    - right. intros s' Hs'. now injection Hs' as <-.
    - left. eauto. }
  destruct Hgate as [(s & Hs & Hcan)|Hcan].
  { left. rewrite Hs, Hcan. split; reflexivity. }
  right. exists userId, task, project, team.
  repeat (split; [first [assumption | reflexivity]|]).
  assert (Hstatus' :
    match ut_status updateData with
    | Some s =>
        if negb (Task.canTransitionTo task s)
        then inl (TaskController.statusTransitionError (Task.status task) s)
        else inr s
    | None => inr (Task.status task)
    end = inr (default (Task.status task) (ut_status updateData))).
  { destruct (ut_status updateData) as [s|]; [|reflexivity].
    now rewrite (Hcan s eq_refl). }
  rewrite Hstatus'.
  change (Task.mk (default (Task.title task) (ut_title updateData)) _ _ _ _ _ _ _)
    with (updatedTask task updateData).
  change (mkTaskChanges _ _ _ _) with (updateTaskChanges task updateData).
  rewrite updateTask_logActivities_eq.
  case_scrutinee.
  - rewrite updateTask_emit_io_only. destruct db; reflexivity.
  - destruct db; reflexivity.
Qed.

(** The task and project controllers never write the team collection. *)
Lemma task_project_steps_keep_teams (db : Db) :
  (forall user taskData newId now,
     teams (snd (TaskController.createTask db user taskData newId now)) = teams db)
  /\ (forall user taskId updateData now,
        teams (snd (TaskController.updateTask db user taskId updateData now))
        = teams db)
  /\ (forall user taskId status,
        teams (snd (TaskController.updateTaskStatus db user taskId status))
        = teams db)
  /\ (forall user taskId now,
        teams (snd (TaskController.deleteTask db user taskId now)) = teams db)
  /\ (forall user name description teamId newId now,
        teams (snd (ProjectController.createProject db user name description
                      teamId newId now)) = teams db)
  /\ (forall user projectId name description now,
        teams (snd (ProjectController.updateProject db user projectId name
                      description now)) = teams db)
  /\ (forall user projectId now,
        teams (snd (ProjectController.deleteProject db user projectId now))
        = teams db).
Proof.
  repeat match goal with |- _ /\ _ => split end; intros.
  - unfold TaskController.createTask; cbv zeta; repeat case_scrutinee; reflexivity.
  - destruct (updateTask_inv db user taskId updateData now)
      as [[_ ->]|(? & ? & ? & ? & _ & _ & _ & _ & _ & _ & _ & Hsaved)];
      [reflexivity|].
    apply (f_equal teams) in Hsaved. exact Hsaved.
  - unfold TaskController.updateTaskStatus; cbv zeta; repeat case_scrutinee;
      reflexivity.
  - unfold TaskController.deleteTask; cbv zeta; repeat case_scrutinee; reflexivity.
  - unfold ProjectController.createProject; cbv zeta; repeat case_scrutinee;
      reflexivity.
  - unfold ProjectController.updateProject; cbv zeta; repeat case_scrutinee;
      reflexivity.
  - unfold ProjectController.deleteProject; cbv zeta; repeat case_scrutinee;
      reflexivity.
Qed.

Lemma ownersListed_same_teams (db db' : Db) :
  teams db' = teams db -> ownersListed db -> ownersListed db'.
Proof. unfold ownersListed. intros ->. auto. Qed.

Lemma ownersListed_insert (db db' : Db) (tid : Id) (team : Team.t) :
  teams db' = <[tid := team]> (teams db) ->
  ownerListed team -> ownersListed db -> ownersListed db'.
Proof.
  unfold ownersListed. intros -> Hteam Hall tid' team' Hlook.
  destruct (decide (tid = tid')) as [<-|Hne].
  - rewrite lookup_insert_eq in Hlook. now injection Hlook as <-.
  - rewrite lookup_insert_ne in Hlook by assumption. eauto.
Qed.

Lemma ownersListed_delete (db db' : Db) (tid : Id) :
  teams db' = delete tid (teams db) -> ownersListed db -> ownersListed db'.
Proof.
  unfold ownersListed. intros -> Hall tid' team' Hlook.
  apply lookup_delete_Some in Hlook as [_ Hlook]. eauto.
Qed.

(** Every controller keeps the owner of every team in its member list. *)
Lemma step_ownersListed (db db' : Db) :
  step db db' -> ownersListed db -> ownersListed db'.
Proof.
  pose proof (task_project_steps_keep_teams db)
    as (Hct & Hut & Hus & Hdt & Hcp & Hup & Hdp).
  intros Hstep Hall. destruct Hstep.
  - (* createTeam *)
    unfold TeamController.createTeam. repeat case_scrutinee; try exact Hall;
      (eapply ownersListed_insert; [reflexivity| |exact Hall]);
      unfold ownerListed; simpl; auto.
  - (* updateTeam *)
    unfold TeamController.updateTeam. repeat case_scrutinee; try exact Hall;
      (eapply ownersListed_insert; [reflexivity| |exact Hall]);
      unfold ownerListed; simpl; eapply Hall; eassumption.
  - (* deleteTeam *)
    unfold TeamController.deleteTeam. repeat case_scrutinee; try exact Hall.
    eapply ownersListed_delete; [reflexivity|exact Hall].
  - (* inviteMember *)
    unfold TeamController.inviteMember. repeat case_scrutinee; try exact Hall;
      (eapply ownersListed_insert; [reflexivity| |exact Hall]);
      unfold ownerListed; simpl; rewrite map_app, in_app_iff; left;
      eapply Hall; eassumption.
  - (* removeMember *)
    unfold TeamController.removeMember. repeat case_scrutinee; try exact Hall;
      (eapply ownersListed_insert; [reflexivity| |exact Hall]);
      unfold ownerListed; simpl;
      (eapply spliced_keeps_other;
       [eassumption
       |match goal with
        | H : String.eqb _ _ = false |- _ => apply String.eqb_neq in H; exact H
        end
       |eapply Hall; eassumption]).
  - (* updateMemberRole *)
    unfold TeamController.updateMemberRole. repeat case_scrutinee; try exact Hall;
      (eapply ownersListed_insert; [reflexivity| |exact Hall]);
      unfold ownerListed; simpl; rewrite updateFirst_userId;
      eapply Hall; eassumption.
  - (* leaveTeam *)
    unfold TeamController.leaveTeam. repeat case_scrutinee; try exact Hall.
    eapply ownersListed_insert; [reflexivity| |exact Hall].
    unfold ownerListed; simpl.
    eapply spliced_keeps_other;
      [eassumption
      |match goal with
       | H : String.eqb _ _ = false |- _ => apply String.eqb_neq in H; exact H
       end
      |eapply Hall; eassumption].
  - eapply ownersListed_same_teams; [apply Hcp|exact Hall].
  - eapply ownersListed_same_teams; [apply Hup|exact Hall].
  - eapply ownersListed_same_teams; [apply Hdp|exact Hall].
  - eapply ownersListed_same_teams; [apply Hct|exact Hall].
  - eapply ownersListed_same_teams; [apply Hut|exact Hall].
  - eapply ownersListed_same_teams; [apply Hus|exact Hall].
  - eapply ownersListed_same_teams; [apply Hdt|exact Hall].
Qed.

Lemma Reachable_ownersListed (db : Db) : Reachable db -> ownersListed db.
Proof.
  induction 1 as [db Hinit|db db' _ IH Hstep].
  - intros tid team Hlook. rewrite Hinit, lookup_empty in Hlook. discriminate.
  - eapply step_ownersListed; eassumption.
Qed.

(** C2, as stated, fails: [isMember] reads the member list only, so on a
    team whose owner has no entry there it answers false for the owner. *)
Lemma isMember_owner_unlisted :
  Team.isMember Sample.ownerOnly (Team.owner Sample.ownerOnly) = false
  /\ ~ (Team.isMember Sample.ownerOnly Sample.ada = true
        <-> (Sample.ada = Team.owner Sample.ownerOnly
             \/ In Sample.ada (map Team.userId (Team.members Sample.ownerOnly)))).
Proof.
  split; [reflexivity|].
  intros [_ H]. specialize (H (or_introl eq_refl)). discriminate H.
Qed.

(** C2, amended. [isMember team userId] is true exactly when [userId]
    has an entry in [team.members]; the [owner] field is not read.  In
    every database the controllers produce, the owner of each team has
    such an entry, so there [isMember team team.owner] is true. *)
Theorem isMember_listed_owner_reachable :
  (forall (team : Team.t) (uid : Id),
     Team.isMember team uid = true
     <-> In uid (map Team.userId (Team.members team)))
  /\ (forall (db : Db) (tid : Id) (team : Team.t),
        Reachable db -> teams db !! tid = Some team ->
        Team.isMember team (Team.owner team) = true).
Proof.
  split; [exact isMember_In|].
  intros db tid team Hreach Hlook. apply isMember_In.
  exact (Reachable_ownersListed db Hreach tid team Hlook).
Qed.

Lemma isMember_listed_owner_reachable_witness :
  let db := snd (TeamController.createTeam Sample.dbEmpty (Some Sample.ada)
                   "Core" None "T1" 0) in
  let team := Team.mk "Core" None Sample.ada [Team.mkMember Sample.ada OWNER 0] in
  Reachable db /\ teams db !! "T1" = Some team
  /\ Team.isMember team (Team.owner team) = true.
Proof.
  intros db team.
  assert (Hreach : Reachable db).
  { apply (reach_step Sample.dbEmpty); [apply reach_init; reflexivity|].
    apply step_createTeam. }
  assert (Hlook : teams db !! "T1" = Some team) by (vm_compute; reflexivity).
  split; [exact Hreach|]. split; [exact Hlook|].
  exact (proj2 isMember_listed_owner_reachable db "T1" team Hreach Hlook).
Defined.

(** ** C3: the owner cannot be removed *)

(** C3. When [removeMember] is called by an authorised requester (an
    admin or the owner) with the owner's id as [memberId], it answers
    400 Bad Request and the database, hence the member list of the team,
    is unchanged. *)
Theorem removeMember_owner_rejected (db : Db) (user : option Id)
    (userId teamId : Id) (team : Team.t) :
  authenticated user = Some userId ->
  teams db !! teamId = Some team ->
  Team.isAdminOrOwner team userId = true ->
  TeamController.removeMember db user teamId (Team.owner team)
  = (ResponseHandler.error "Cannot remove team owner" "Bad Request" 400, db)
  /\ teams (snd (TeamController.removeMember db user teamId (Team.owner team)))
     !! teamId = Some team.
Proof.
  intros Hauth Hteam Hadmin.
  unfold TeamController.removeMember.
  rewrite Hauth, Hteam, Hadmin, String.eqb_refl. simpl. auto.
Qed.

Lemma removeMember_owner_rejected_witness :
  TeamController.removeMember Sample.db (Some Sample.ada) "T1" Sample.ada
  = (mkResponse 400 false "Cannot remove team owner" (Some (Label "Bad Request")),
     Sample.db)
  /\ teams (snd (TeamController.removeMember Sample.db (Some Sample.ada) "T1"
                   Sample.ada)) !! "T1" = Some Sample.core.
Proof.
  apply (removeMember_owner_rejected Sample.db (Some Sample.ada) Sample.ada
           "T1" Sample.core); reflexivity.
Defined.

(** ** C4: unreachable statuses *)

(** C4, as stated, fails for the general update: the assignee is checked
    before the transition, so a request carrying an unreachable status
    together with an unknown assignee is answered 404 "Assignee not
    found", not with the transition error. *)
Lemma updateTask_assignee_error_precedes_transition :
  let updateData :=
    mkUpdateTaskDto None None None (Some REVIEW) None (Some (Some Sample.ghost)) in
  let answer :=
    fst (TaskController.updateTask Sample.db (Some Sample.ada) "K1" updateData 7) in
  tasks Sample.db !! "K1" = Some Sample.ticket
  /\ Task.canTransitionTo Sample.ticket REVIEW = false
  /\ answer = mkResponse 404 false "Assignee not found" (Some (Label "Not found"))
  /\ answer <> TaskController.statusTransitionError TODO REVIEW.
Proof. vm_compute. repeat split; discriminate. Qed.

(** C4, amended. An update of an existing task that carries a status not
    reachable from the task's current status fails, through the general
    update and through the status update alike, and leaves the database
    as it was.  The failure is the transition error (400, "Invalid
    Status Transition", message naming both statuses) whenever the
    request passes the earlier gates: the requester is authenticated and
    a member of the task's team, the task's project and team exist, and,
    in the general update, a supplied assignee exists and is a member. *)
Theorem unreachable_status_rejected (db : Db) (user : option Id) (taskId : Id)
    (task : Task.t) (updateData : UpdateTaskDto) (requested : TaskStatus)
    (now : Z) :
  tasks db !! taskId = Some task ->
  ut_status updateData = Some requested ->
  Task.canTransitionTo task requested = false ->
  let general := TaskController.updateTask db user taskId updateData now in
  let dedicated := TaskController.updateTaskStatus db user taskId requested in
  let refusal :=
    mkResponse 400 false
      ("Cannot transition from " ++ TaskStatus_value (Task.status task)
       ++ " to " ++ TaskStatus_value requested)
      (Some (Label "Invalid Status Transition")) in
  (success (fst general) = false /\ snd general = db)
  /\ (success (fst dedicated) = false /\ snd dedicated = db)
  /\ (forall userId project team,
        authenticated user = Some userId ->
        projects db !! Task.projectId task = Some project ->
        teams db !! Project.teamId project = Some team ->
        Team.isMember team userId = true ->
        fst dedicated = refusal
        /\ ((forall a, ut_assignee updateData = Some (Some a) ->
               Js.truthy a = true ->
               User.findById (users db) a <> None
               /\ Team.isMember team a = true) ->
            fst general = refusal)).
Proof.
  intros Htask Hstatus Hcan general dedicated refusal.
  subst general dedicated refusal.
  split; [|split].
  - destruct (updateTask_inv db user taskId updateData now)
      as [Hrefused|(? & task' & ? & ? & _ & Htask' & _ & _ & _ & _ & Hok & _)];
      [exact Hrefused|].
    rewrite Htask in Htask'. injection Htask' as <-.
    rewrite (Hok requested Hstatus) in Hcan. discriminate Hcan.
  - unfold TaskController.updateTaskStatus. rewrite Htask, Hcan. cbn [negb].
    repeat case_scrutinee; split; reflexivity.
  - unfold TaskController.updateTask, TaskController.updateTaskStatus.
    rewrite Htask, Hstatus, Hcan. cbn [negb].
    intros userId project team Hauth Hproject Hteam Hmember.
    rewrite Hauth, Hproject. cbv zeta. rewrite Hteam, Hmember. cbn [negb].
    split; [reflexivity|].
    intros Hassignee.
    assert (Hcheck : TaskController.checkAssignee db team
                       (default None (ut_assignee updateData)) = None).
    { unfold TaskController.checkAssignee, TaskController.truthyAssignee.
      destruct (ut_assignee updateData) as [[a|]|] eqn:Ha; simpl; try reflexivity.
      destruct (Js.truthy a) eqn:Htruthy; [|reflexivity].
      destruct (Hassignee a eq_refl Htruthy) as [Hexists Hin].
      destruct (User.findById (users db) a); [|congruence].
      now rewrite Hin. }
    rewrite Hcheck. reflexivity.
Qed.

Lemma unreachable_status_rejected_witness :
  let updateData :=
    mkUpdateTaskDto (Some "Renamed") None None (Some REVIEW) None None in
  let general :=
    TaskController.updateTask Sample.db (Some Sample.bob) "K1" updateData 7 in
  let dedicated :=
    TaskController.updateTaskStatus Sample.db (Some Sample.bob) "K1" REVIEW in
  let refusal :=
    mkResponse 400 false "Cannot transition from todo to review"
      (Some (Label "Invalid Status Transition")) in
  snd general = Sample.db /\ snd dedicated = Sample.db
  /\ fst dedicated = refusal /\ fst general = refusal.
Proof.
  intros updateData general dedicated refusal.
  destruct (unreachable_status_rejected Sample.db (Some Sample.bob) "K1"
              Sample.ticket updateData REVIEW 7)
    as ((_ & Hg) & (_ & Hd) & Hgate);
    [reflexivity | reflexivity | reflexivity |].
  destruct (Hgate Sample.bob Sample.roadmap Sample.core)
    as (Hrd & Hrg); [reflexivity | reflexivity | reflexivity | reflexivity |].
  split; [exact Hg|]. split; [exact Hd|]. split; [exact Hrd|].
  apply Hrg. intros a Ha. discriminate Ha.
Defined.

(** ** C5: which operations record an activity *)

(** C5, as stated, fails: inviting a member succeeds and hands nothing
    to the recorder, so no [member_added] record exists afterwards. *)
Lemma inviteMember_records_nothing :
  let r :=
    TeamController.inviteMember Sample.db (Some Sample.ada) "T1"
      "cyd@example.com" None 9 in
  statusCode (fst r) = 201 /\ success (fst r) = true
  /\ (exists team', teams (snd r) !! "T1" = Some team'
                    /\ Team.isMember team' Sample.cyd = true)
  /\ activities (snd r) = []
  /\ ~ (exists a, In a (activities (snd r)) /\ Activity.action a = MEMBER_ADDED).
Proof.
  vm_compute. repeat split; try reflexivity.
  - eexists. split; reflexivity.
  - intros (a & [] & _).
Qed.

(** C5, amended. Creating, updating (general field update) and deleting
    a task, and creating, updating and deleting a project, each hand a
    record of the action to the activity recorder when they succeed.
    The team operations (create, update and delete team, invite member,
    remove member, update member role, leave team) hand it nothing. *)
Theorem activity_recording (db : Db) :
  (forall user taskData newId now,
     let r := TaskController.createTask db user taskData newId now in
     success (fst r) = true ->
     recorded db (snd r) CREATED ActivityEntity.TASK newId)
  /\ (forall user taskId updateData now,
        let r := TaskController.updateTask db user taskId updateData now in
        success (fst r) = true ->
        recorded db (snd r) UPDATED ActivityEntity.TASK taskId)
  /\ (forall user taskId now,
        let r := TaskController.deleteTask db user taskId now in
        success (fst r) = true ->
        recorded db (snd r) DELETED ActivityEntity.TASK taskId)
  /\ (forall user name description teamId newId now,
        let r := ProjectController.createProject db user name description
                   teamId newId now in
        success (fst r) = true ->
        recorded db (snd r) CREATED ActivityEntity.PROJECT newId)
  /\ (forall user projectId name description now,
        let r := ProjectController.updateProject db user projectId name
                   description now in
        success (fst r) = true ->
        recorded db (snd r) UPDATED ActivityEntity.PROJECT projectId)
  /\ (forall user projectId now,
        let r := ProjectController.deleteProject db user projectId now in
        success (fst r) = true ->
        recorded db (snd r) DELETED ActivityEntity.PROJECT projectId)
  /\ (forall user name description newId now,
        activities (snd (TeamController.createTeam db user name description
                           newId now)) = activities db)
  /\ (forall user teamId name description,
        activities (snd (TeamController.updateTeam db user teamId name
                           description)) = activities db)
  /\ (forall user teamId,
        activities (snd (TeamController.deleteTeam db user teamId))
        = activities db)
  /\ (forall user teamId email role now,
        activities (snd (TeamController.inviteMember db user teamId email role
                           now)) = activities db)
  /\ (forall user teamId memberId,
        activities (snd (TeamController.removeMember db user teamId memberId))
        = activities db)
  /\ (forall user teamId memberId role,
        activities (snd (TeamController.updateMemberRole db user teamId
                           memberId role)) = activities db)
  /\ (forall user teamId,
        activities (snd (TeamController.leaveTeam db user teamId))
        = activities db).
Proof.
  repeat match goal with |- _ /\ _ => split end.
  - intros user taskData newId now. unfold TaskController.createTask. cbv zeta.
    repeat case_scrutinee; cbn [fst snd]; intros Hok; try discriminate Hok;
      try (exfalso; eapply eq_true_false_abs;
           [exact Hok|eapply checkAssignee_failure; eassumption]);
      show_recorded.
  - intros user taskId updateData now r Hok.
    destruct (updateTask_inv db user taskId updateData now)
      as [[Hfail _]|(userId & task & project & ? & _ & _ & _ & _ & _ & _ & _
                     & Hsaved)].
    { fold r in Hfail. rewrite Hfail in Hok. discriminate Hok. }
    apply (f_equal activities) in Hsaved. fold r in Hsaved. cbn in Hsaved.
    unfold recorded. rewrite Hsaved. unfold updateTaskLog. cbn.
    eexists; eexists; split; [reflexivity|cbn; auto].
  - intros user taskId now. unfold TaskController.deleteTask. cbv zeta.
    repeat case_scrutinee; cbn [fst snd]; intros Hok; try discriminate Hok;
      show_recorded.
  - intros user name description teamId newId now.
    unfold ProjectController.createProject. cbv zeta.
    repeat case_scrutinee; cbn [fst snd]; intros Hok; try discriminate Hok;
      show_recorded.
  - intros user projectId name description now.
    unfold ProjectController.updateProject. cbv zeta.
    repeat case_scrutinee; cbn [fst snd]; intros Hok; try discriminate Hok;
      show_recorded.
  - intros user projectId now. unfold ProjectController.deleteProject. cbv zeta.
    repeat case_scrutinee; cbn [fst snd]; intros Hok; try discriminate Hok;
      show_recorded.
  - intros. unfold TeamController.createTeam. cbv zeta.
    repeat case_scrutinee; reflexivity.
  - intros. unfold TeamController.updateTeam. cbv zeta.
    repeat case_scrutinee; reflexivity.
  - intros. unfold TeamController.deleteTeam. cbv zeta.
    repeat case_scrutinee; reflexivity.
  - intros. unfold TeamController.inviteMember. cbv zeta.
    repeat case_scrutinee; reflexivity.
  - intros. unfold TeamController.removeMember. cbv zeta.
    repeat case_scrutinee; reflexivity.
  - intros. unfold TeamController.updateMemberRole. cbv zeta.
    repeat case_scrutinee; reflexivity.
  - intros. unfold TeamController.leaveTeam. cbv zeta.
    repeat case_scrutinee; reflexivity.
Qed.

Lemma activity_recording_witness :
  recorded Sample.db
    (snd (TaskController.createTask Sample.db (Some Sample.ada)
            (mkCreateTaskDto "Second" None LOW TODO None (Some Sample.bob) "P1")
            "K2" 3))
    CREATED ActivityEntity.TASK "K2".
Proof.
  exact (proj1 (activity_recording Sample.db) (Some Sample.ada)
           (mkCreateTaskDto "Second" None LOW TODO None (Some Sample.bob) "P1")
           "K2" 3%Z eq_refl).
Defined.

(** ** C6: the records of an update that changes status and assignee *)

Lemma isObjectId_truthy (s : string) : Dto.isObjectId s = true -> Js.truthy s = true.
Proof. destruct s; [discriminate|reflexivity]. Qed.

(** C6. A general update that changes both the status and the assignee
    of a task hands exactly three records to the recorder: the generic
    [updated] record with the [changes] map holding the old and new
    value of each of the two fields, an [assigned] record (assignee set)
    or [unassigned] record (assignee cleared) with the old and new
    assignee, and a [status_changed] record with the old and new
    status. *)
Theorem updateTask_status_and_assignee_records (db : Db) (user : option Id)
    (taskId : Id) (updateData : UpdateTaskDto) (now : Z) (task task' : Task.t) :
  let r := TaskController.updateTask db user taskId updateData now in
  Dto.assignee_ok (default None (ut_assignee updateData)) = true ->
  tasks db !! taskId = Some task ->
  tasks (snd r) !! taskId = Some task' ->
  Task.status task' <> Task.status task ->
  Task.assignee task' <> Task.assignee task ->
  exists userId teamId changes,
    authenticated user = Some userId
    /\ activities (snd r)
       = (activities db
          ++ [Activity.mk userId teamId UPDATED ActivityEntity.TASK taskId
                (MetaTaskUpdated (Task.title task') changes) now;
              Activity.mk userId teamId
                (match Task.assignee task' with
                 | Some _ => ASSIGNED
                 | None => UNASSIGNED
                 end)
                ActivityEntity.TASK taskId
                (MetaAssignment (Task.title task') (Task.assignee task)
                   (Task.assignee task')) now;
              Activity.mk userId teamId STATUS_CHANGED ActivityEntity.TASK taskId
                (MetaStatus (Task.title task') (Task.status task)
                   (Task.status task')) now])%list
    /\ ch_status changes = Some (Task.status task, Task.status task')
    /\ ch_assignee changes = Some (Task.assignee task, Task.assignee task').
Proof.
  intros r Hdto Htask Htask' Hstatus Hassignee.
  destruct (updateTask_inv db user taskId updateData now)
    as [[_ Hsame]|(userId & task0 & project & team & Hauth & Htask0 & _ & _ & _
                   & _ & _ & Hsaved)]; fold r in Hsame || fold r in Hsaved.
  { rewrite Hsame, Htask in Htask'. injection Htask' as <-. congruence. }
  rewrite Htask in Htask0. injection Htask0 as <-.
  pose proof (f_equal tasks Hsaved) as Htasks.
  pose proof (f_equal activities Hsaved) as Hacts.
  cbn in Htasks, Hacts.
  rewrite Htasks, lookup_insert_eq in Htask'. injection Htask' as <-.
  unfold updatedTask in Hstatus, Hassignee. cbn in Hstatus, Hassignee.
  exists userId, (Project.teamId project), (updateTaskChanges task updateData).
  split; [exact Hauth|].
  rewrite Hacts. unfold updateTaskLog, updateTaskChanges, updatedTask. cbn.
  destruct (ut_status updateData) as [s|];
    [|exfalso; apply Hstatus; reflexivity].
  destruct (ut_assignee updateData) as [newAssignee|];
    [|exfalso; apply Hassignee; reflexivity].
  cbn in *.
  assert (Hdiff : TaskController.assigneeDiffers (Task.assignee task) newAssignee
                  = true).
  { unfold TaskController.assigneeDiffers.
    destruct newAssignee as [n|]; [|reflexivity].
    destruct (Task.assignee task) as [o|]; [|reflexivity].
    apply negb_true_iff, String.eqb_neq. congruence. }
  assert (Hneq : negb (TaskStatus_eqb (Task.status task) s) = true).
  { unfold TaskStatus_eqb. apply negb_true_iff, bool_decide_eq_false. congruence. }
  rewrite Hdiff, Hneq.
  assert (Haction :
    match TaskController.truthyAssignee newAssignee with
    | Some _ => ASSIGNED
    | None => UNASSIGNED
    end = match newAssignee with Some _ => ASSIGNED | None => UNASSIGNED end).
  { destruct newAssignee as [n|]; [|reflexivity].
    unfold TaskController.truthyAssignee.
    now rewrite (isObjectId_truthy n Hdto). }
  rewrite Haction. repeat split.
Qed.

Lemma updateTask_status_and_assignee_records_witness :
  let updateData :=
    mkUpdateTaskDto None None None (Some DONE) None (Some (Some Sample.bob)) in
  let r := TaskController.updateTask Sample.db (Some Sample.ada) "K1" updateData 7 in
  let task' := Task.mk "Ticket" None MEDIUM DONE None (Some Sample.bob) "P1" Sample.ada in
  exists userId teamId changes,
    authenticated (Some Sample.ada) = Some userId
    /\ activities (snd r)
       = (activities Sample.db
          ++ [Activity.mk userId teamId UPDATED ActivityEntity.TASK "K1"
                (MetaTaskUpdated "Ticket" changes) 7;
              Activity.mk userId teamId ASSIGNED ActivityEntity.TASK "K1"
                (MetaAssignment "Ticket" None (Some Sample.bob)) 7;
              Activity.mk userId teamId STATUS_CHANGED ActivityEntity.TASK "K1"
                (MetaStatus "Ticket" TODO DONE) 7])%list
    /\ ch_status changes = Some (TODO, DONE)
    /\ ch_assignee changes = Some (None, Some Sample.bob).
Proof.
  intros updateData r task'.
  apply (updateTask_status_and_assignee_records Sample.db (Some Sample.ada) "K1"
           updateData 7 Sample.ticket task').
  - reflexivity.
  - reflexivity.
  - vm_compute. reflexivity.
  - discriminate.
  - discriminate.
Defined.

(** ** C7: assignees outside the team *)

(** C7. A task creation, or a general task update, by an authenticated
    member of the task's team that names as assignee a user who does not
    exist or is not a member of that team fails: with 404 "Assignee not
    found" when the user does not exist, with 400 "Invalid Assignee"
    ("Assignee must be a member of the team") when the user exists
    outside the team.  The user is looked up by the id as cast (hex
    digits in either case), the member list by the id as written.  The
    database is left as it was: no task is created or changed, and no
    activity is recorded. *)
Theorem invalid_assignee_rejected (db : Db) (user : option Id) (userId : Id)
    (project : Project.t) (team : Team.t) (assignee : Id) :
  authenticated user = Some userId ->
  teams db !! Project.teamId project = Some team ->
  Team.isMember team userId = true ->
  Dto.isObjectId assignee = true ->
  User.findById (users db) assignee = None
  \/ Team.isMember team assignee = false ->
  let refusal :=
    match User.findById (users db) assignee with
    | None => mkResponse 404 false "Assignee not found" (Some (Label "Not found"))
    | Some _ =>
        mkResponse 400 false "Assignee must be a member of the team"
          (Some (Label "Invalid Assignee"))
    end in
  (forall taskData newId now,
     projects db !! ct_projectId taskData = Some project ->
     ct_assignee taskData = Some assignee ->
     TaskController.createTask db user taskData newId now = (refusal, db))
  /\ (forall taskId task updateData now,
        tasks db !! taskId = Some task ->
        projects db !! Task.projectId task = Some project ->
        ut_assignee updateData = Some (Some assignee) ->
        TaskController.updateTask db user taskId updateData now = (refusal, db)).
Proof.
  intros Hauth Hteam Hmember Hid Hbad refusal.
  assert (Hcheck :
    TaskController.checkAssignee db team (Some assignee) = Some refusal).
  { unfold TaskController.checkAssignee, TaskController.truthyAssignee.
    rewrite (isObjectId_truthy _ Hid). subst refusal.
    destruct (User.findById (users db) assignee) as [u|]; [|reflexivity].
    destruct Hbad as [Hbad|Hbad]; [discriminate|]. now rewrite Hbad. }
  split.
  - intros taskData newId now Hproject Hassignee.
    unfold TaskController.createTask.
    rewrite Hauth, Hproject. cbv zeta.
    rewrite Hteam, Hmember, Hassignee, Hcheck. reflexivity.
  - intros taskId task updateData now Htask Hproject Hassignee.
    unfold TaskController.updateTask.
    rewrite Hauth, Htask, Hproject. cbv zeta.
    rewrite Hteam, Hmember, Hassignee.
    change (default None (Some (Some assignee))) with (Some assignee).
    cbn [negb]. rewrite Hcheck. reflexivity.
Qed.

(** Cyd, who is registered and in no team, named by her id in upper
    case: the user is found, the member list does not name her. *)
Lemma invalid_assignee_rejected_witness :
  let cyd := "0000000000000000000000A3" in
  TaskController.createTask Sample.db (Some Sample.bob)
    (mkCreateTaskDto "Second" None LOW TODO None (Some cyd) "P1") "K2" 3
  = (mkResponse 400 false "Assignee must be a member of the team"
       (Some (Label "Invalid Assignee")), Sample.db)
  /\ TaskController.updateTask Sample.db (Some Sample.bob) "K1"
       (mkUpdateTaskDto None None None None None (Some (Some cyd))) 7
     = (mkResponse 400 false "Assignee must be a member of the team"
          (Some (Label "Invalid Assignee")), Sample.db).
Proof.
  intros cyd.
  destruct (invalid_assignee_rejected Sample.db (Some Sample.bob) Sample.bob
              Sample.roadmap Sample.core cyd) as [Hcreate Hupdate];
    [reflexivity | reflexivity | reflexivity | reflexivity
    | right; reflexivity |].
  split.
  - apply Hcreate; reflexivity.
  - apply (Hupdate "K1" Sample.ticket); reflexivity.
Defined.

(** ** C8: the team copy and the personal copy *)

(** C8, as stated, fails: while the socket server is not initialised the
    emitter sends nothing, neither to the team room nor to the personal
    room, although the removal itself succeeds. *)
Lemma memberRemoved_not_emitted_uninitialised :
  let payload :=
    mkMemberRemovedPayload "T1" "Core" Sample.bob "Bob"
      (mkUserRef Sample.ada "Ada" "ada@example.com") in
  let r :=
    TeamController.removeMember Sample.dbOffline (Some Sample.ada) "T1"
      Sample.bob in
  SocketService.emitMemberRemoved None payload = None
  /\ success (fst r) = true
  /\ io (snd r) = None
  /\ ~ fansOut (io Sample.dbOffline) (io (snd r)) SocketEvents.MEMBER_REMOVED
         (PMemberRemoved payload) "T1" Sample.bob.
Proof.
  vm_compute. repeat split.
  intros (sent & ? & ? & H & _). discriminate H.
Qed.

Lemma emitMemberRemoved_fansOut (sent : list Emission) (p : MemberRemovedPayload) :
  fansOut (Some sent) (SocketService.emitMemberRemoved (Some sent) p)
    SocketEvents.MEMBER_REMOVED (PMemberRemoved p) (mr_teamId p) (mr_memberId p).
Proof.
  unfold fansOut, SocketService.emitMemberRemoved,
    SocketService.whenInitialized, SocketService.emit.
  cbn [isSocketInitialized negb]. cbv zeta. rewrite <- app_assoc.
  eexists _, _, _. repeat split; reflexivity.
Qed.

(** C8, amended. On an initialised socket server, the emitters of
    member-removed, member-joined and member-role-updated send the
    payload to the room [team:{teamId}] and then to the personal room
    [user:{id}] of the affected user; [isPersonal: true] is on the
    personal copy only.  The emitter of task-assigned does the same when
    the assignee id is a non-empty string, and sends the team copy alone
    otherwise.  On an uninitialised server the four emitters send
    nothing. *)
Theorem personal_fanout (sent : list Emission) :
  (forall p,
     fansOut (Some sent) (SocketService.emitMemberRemoved (Some sent) p)
       SocketEvents.MEMBER_REMOVED (PMemberRemoved p) (mr_teamId p)
       (mr_memberId p))
  /\ (forall p,
        fansOut (Some sent) (SocketService.emitMemberJoined (Some sent) p)
          SocketEvents.MEMBER_JOINED (PMemberJoined p) (mj_teamId p)
          (ref_id (mj_member p)))
  /\ (forall p,
        fansOut (Some sent) (SocketService.emitMemberRoleUpdated (Some sent) p)
          SocketEvents.MEMBER_ROLE_UPDATED (PMemberRoleUpdated p) (mu_teamId p)
          (ref_id (mu_member p)))
  /\ (forall p,
        Js.truthy (ref_id (ta_assignee p)) = true ->
        fansOut (Some sent) (SocketService.emitTaskAssigned (Some sent) p)
          SocketEvents.TASK_ASSIGNED (PTaskAssigned p) (ta_teamId p)
          (ref_id (ta_assignee p)))
  /\ (forall p,
        Js.truthy (ref_id (ta_assignee p)) = false ->
        SocketService.emitTaskAssigned (Some sent) p
        = Some (sent ++ [mkEmission ("team:" ++ ta_teamId p)
                           SocketEvents.TASK_ASSIGNED (PTaskAssigned p)
                           None None])%list)
  /\ (forall p, SocketService.emitMemberRemoved None p = None)
  /\ (forall p, SocketService.emitMemberJoined None p = None)
  /\ (forall p, SocketService.emitMemberRoleUpdated None p = None)
  /\ (forall p, SocketService.emitTaskAssigned None p = None).
Proof.
  repeat match goal with |- _ /\ _ => split end; try reflexivity.
  - apply emitMemberRemoved_fansOut.
  - intros p. unfold fansOut, SocketService.emitMemberJoined,
      SocketService.whenInitialized, SocketService.emit.
    cbn [isSocketInitialized negb]. cbv zeta. rewrite <- app_assoc.
    eexists _, _, _. repeat split; reflexivity.
  - intros p. unfold fansOut, SocketService.emitMemberRoleUpdated,
      SocketService.whenInitialized, SocketService.emit.
    cbn [isSocketInitialized negb]. cbv zeta. rewrite <- app_assoc.
    eexists _, _, _. repeat split; reflexivity.
  - intros p Hid. unfold fansOut, SocketService.emitTaskAssigned,
      SocketService.whenInitialized, SocketService.emit.
    cbn [isSocketInitialized negb]. cbv zeta. rewrite Hid, <- app_assoc.
    eexists _, _, _. repeat split; reflexivity.
  - intros p Hid. unfold SocketService.emitTaskAssigned,
      SocketService.whenInitialized, SocketService.emit.
    cbn [isSocketInitialized negb]. cbv zeta. now rewrite Hid.
Qed.

Lemma personal_fanout_witness :
  let p :=
    mkTaskAssignedPayload "K1" "Ticket"
      (mkUserRef Sample.bob "Bob" "bob@example.com") "T1" "P1"
      (mkUserRef Sample.ada "Ada" "ada@example.com") in
  fansOut (Some []) (SocketService.emitTaskAssigned (Some []) p)
    SocketEvents.TASK_ASSIGNED (PTaskAssigned p) "T1" Sample.bob.
Proof.
  intros p.
  destruct (personal_fanout []) as (_ & _ & _ & Hassigned & _).
  exact (Hassigned p eq_refl).
Defined.

(** ** C9: a second owner entry *)

(** C9. The role validation of the invite and role-update requests
    accepts the value "owner", and both operations store it for a user
    other than the team's owner: there are requests after which the team
    has, besides the owner's entry, a member entry with role owner for
    another user, for whom [isAdminOrOwner] then answers true. *)
Theorem second_owner_accepted :
  Dto.InviteMemberDto_role (Some "owner") = Some OWNER
  /\ Dto.UpdateMemberRoleDto_role (Some "owner") = Some OWNER
  /\ (exists db user teamId email now team team' m,
        let r := TeamController.inviteMember db user teamId email (Some OWNER) now in
        teams db !! teamId = Some team
        /\ Team.isAdminOrOwner team (Team.userId m) = false
        /\ success (fst r) = true
        /\ teams (snd r) !! teamId = Some team'
        /\ In m (Team.members team')
        /\ Team.userId m <> Team.owner team'
        /\ Team.role m = OWNER
        /\ Team.isAdminOrOwner team' (Team.userId m) = true
        /\ In (Team.mkMember (Team.owner team') OWNER 0) (Team.members team'))
  /\ (exists db user teamId memberId team team' m,
        let r := TeamController.updateMemberRole db user teamId memberId OWNER in
        teams db !! teamId = Some team
        /\ Team.isAdminOrOwner team memberId = false
        /\ success (fst r) = true
        /\ teams (snd r) !! teamId = Some team'
        /\ In m (Team.members team')
        /\ Team.userId m = memberId
        /\ memberId <> Team.owner team'
        /\ Team.role m = OWNER
        /\ Team.isAdminOrOwner team' memberId = true
        /\ In (Team.mkMember (Team.owner team') OWNER 0) (Team.members team')).
Proof.
  split; [reflexivity|]. split; [reflexivity|]. split.
  - exists Sample.db, (Some Sample.ada), "T1", "cyd@example.com", 9%Z,
      Sample.core,
      (Team.mk "Core" None Sample.ada
         [Team.mkMember Sample.ada OWNER 0; Team.mkMember Sample.bob MEMBER 5;
          Team.mkMember Sample.cyd OWNER 9]),
      (Team.mkMember Sample.cyd OWNER 9).
    vm_compute. repeat split; auto; discriminate.
  - exists Sample.db, (Some Sample.ada), "T1", Sample.bob, Sample.core,
      (Team.mk "Core" None Sample.ada
         [Team.mkMember Sample.ada OWNER 0; Team.mkMember Sample.bob OWNER 5]),
      (Team.mkMember Sample.bob OWNER 5).
    vm_compute. repeat split; auto; discriminate.
Qed.

(** ** C10: what a removal leaves untouched *)

(** C10. A successful [removeMember] removes exactly the first member
    entry whose [userId] is [memberId]: the member list splits around
    that entry, no earlier entry has this [userId], and the team is
    saved with the same name, description and owner and with the other
    entries as they were, in their order.  No other team changes. *)
Theorem removeMember_frame (db : Db) (user : option Id) (teamId memberId : Id)
    (team : Team.t) :
  let r := TeamController.removeMember db user teamId memberId in
  teams db !! teamId = Some team ->
  success (fst r) = true ->
  exists before m after,
    Team.members team = (before ++ m :: after)%list
    /\ Team.userId m = memberId
    /\ (forall x, In x before -> Team.userId x <> memberId)
    /\ memberId <> Team.owner team
    /\ teams (snd r)
       = <[teamId := Team.mk (Team.name team) (Team.description team)
                       (Team.owner team) (before ++ after)]> (teams db)
    /\ users (snd r) = users db
    /\ projects (snd r) = projects db
    /\ tasks (snd r) = tasks db.
Proof.
  intros r Hteam Hok. subst r. revert Hok.
  unfold TeamController.removeMember. rewrite Hteam.
  destruct (authenticated user) as [userId|]; [|discriminate].
  destruct (Team.isAdminOrOwner team userId); cbn [negb]; [|discriminate].
  destruct (String.eqb (Team.owner team) memberId) eqn:Howner; [discriminate|].
  destruct (Js.findIndex (TeamController.hasUserId memberId) (Team.members team))
    as [i|] eqn:Hi; [|discriminate].
  intros _. cbv zeta.
  destruct (findIndex_split _ _ _ Hi)
    as (before & m & after & Hsplit & _ & Hm & Hbefore & Hsplice).
  exists before, m, after.
  split; [exact Hsplit|].
  split; [now apply String.eqb_eq|].
  split.
  { intros x Hx. apply String.eqb_neq. exact (Hbefore x Hx). }
  split.
  { apply String.eqb_neq in Howner. congruence. }
  rewrite Hsplice.
  repeat case_scrutinee; repeat split; reflexivity.
Qed.

Lemma removeMember_frame_witness :
  let r := TeamController.removeMember Sample.db (Some Sample.ada) "T1" Sample.bob in
  exists before m after,
    Team.members Sample.core = (before ++ m :: after)%list
    /\ Team.userId m = Sample.bob
    /\ (forall x, In x before -> Team.userId x <> Sample.bob)
    /\ Sample.bob <> Team.owner Sample.core
    /\ teams (snd r)
       = <["T1" := Team.mk "Core" None Sample.ada (before ++ after)]>
           (teams Sample.db)
    /\ users (snd r) = users Sample.db
    /\ projects (snd r) = projects Sample.db
    /\ tasks (snd r) = tasks Sample.db.
Proof.
  apply (removeMember_frame Sample.db (Some Sample.ada) "T1" Sample.bob
           Sample.core); reflexivity.
Defined.

(** ** Further facts about the controllers *)

(** The status update hands nothing to the activity recorder. *)
Lemma updateTaskStatus_keeps_activities (db : Db) (user : option Id)
    (taskId : Id) (status : TaskStatus) :
  activities (snd (TaskController.updateTaskStatus db user taskId status))
  = activities db.
Proof.
  unfold TaskController.updateTaskStatus. cbv zeta.
  repeat case_scrutinee; reflexivity.
Qed.

(** A removal on an initialised server, with both user documents at
    hand, sends the team copy and the personal copy. *)
Lemma removeMember_fans_out (db : Db) (user : option Id) (userId teamId memberId : Id)
    (team : Team.t) (removed remover : User.t) (sent : list Emission) :
  let r := TeamController.removeMember db user teamId memberId in
  authenticated user = Some userId ->
  teams db !! teamId = Some team ->
  success (fst r) = true ->
  User.findById (users db) memberId = Some removed ->
  User.findById (users db) userId = Some remover ->
  io db = Some sent ->
  fansOut (io db) (io (snd r)) SocketEvents.MEMBER_REMOVED
    (PMemberRemoved
       (mkMemberRemovedPayload teamId (Team.name team) memberId
          (User.name removed) (UserRef_of userId remover)))
    teamId memberId.
Proof.
  intros r Hauth Hteam Hok Hremoved Hremover Hio. subst r. revert Hok.
  unfold TeamController.removeMember.
  rewrite Hauth, Hteam, Hremoved, Hremover.
  destruct (Team.isAdminOrOwner team userId); cbn [negb]; [|discriminate].
  destruct (String.eqb (Team.owner team) memberId); [discriminate|].
  destruct (Js.findIndex _ _); [|discriminate].
  intros _. cbn [snd io set_io set_teams Team.name]. rewrite Hio.
  apply emitMemberRemoved_fansOut.
Qed.

(** A removal asked by an admin or the owner, of a listed member other
    than the owner, succeeds. *)
Lemma removeMember_succeeds (db : Db) (user : option Id)
    (userId teamId memberId : Id) (team : Team.t) :
  authenticated user = Some userId ->
  teams db !! teamId = Some team ->
  Team.isAdminOrOwner team userId = true ->
  memberId <> Team.owner team ->
  Team.isMember team memberId = true ->
  fst (TeamController.removeMember db user teamId memberId)
  = ResponseHandler.success "Member removed from team successfully" 200.
Proof.
  intros Hauth Hteam Hadmin Hne Hin.
  unfold TeamController.removeMember. rewrite Hauth, Hteam, Hadmin. cbn [negb].
  destruct (String.eqb (Team.owner team) memberId) eqn:Howner.
  { apply String.eqb_eq in Howner. congruence. }
  destruct (Js.findIndex (TeamController.hasUserId memberId) (Team.members team))
    as [i|] eqn:Hi; [reflexivity|].
  apply findIndex_None in Hi.
  unfold Team.isMember, Js.some in Hin.
  unfold TeamController.hasUserId in Hi.
  rewrite Hi in Hin. discriminate Hin.
Qed.

(** * Further properties of the modelled code *)

(** ** Roles and membership *)

Lemma find_hasUserId (uid : Id) (l : list Team.Member) :
  match Js.find (TeamController.hasUserId uid) l with
  | Some m => In m l /\ Team.userId m = uid
  | None => existsb (TeamController.hasUserId uid) l = false
  end.
Proof.
  unfold Js.find. induction l as [|a l IH]; simpl; [reflexivity|].
  destruct (TeamController.hasUserId uid a) eqn:Ha.
  - split; [now left|]. now apply String.eqb_eq.
  - destruct (find _ l); simpl; [|exact IH]. destruct IH. auto.
Qed.

(** [getMemberRole] answers [null] exactly for a user who is neither the
    owner nor listed in the member list. *)
Theorem getMemberRole_null_iff (team : Team.t) (uid : Id) :
  Team.getMemberRole team uid = None
  <-> Team.owner team <> uid /\ Team.isMember team uid = false.
Proof.
  unfold Team.getMemberRole, Team.isMember, Js.some. cbv zeta.
  destruct (String.eqb (Team.owner team) uid) eqn:Howner.
  - apply String.eqb_eq in Howner. split; [discriminate|]. intros [H _]. contradiction.
  - apply String.eqb_neq in Howner.
    pose proof (find_hasUserId uid (Team.members team)) as Hfind.
    change (fun m : Team.Member => String.eqb (Team.userId m) uid)
      with (TeamController.hasUserId uid).
    change (fun member : Team.Member =>
              let memberId := Team.userId member in String.eqb memberId uid)
      with (TeamController.hasUserId uid).
    destruct (Js.find (TeamController.hasUserId uid) (Team.members team)) as [m|].
    + split; [discriminate|]. intros [_ Hnone].
      destruct Hfind as [Hin Hm].
      assert (Hex : existsb (TeamController.hasUserId uid) (Team.members team) = true).
      { apply existsb_exists. exists m. split; [exact Hin|].
        now apply String.eqb_eq. }
      rewrite Hex in Hnone. discriminate Hnone.
    + split; [intros _; split; assumption|reflexivity].
Qed.

Lemma In_updateFirst {A} (p : A -> bool) (f : A -> A) (l : list A) (x : A) :
  In x (Js.updateFirst p f l) ->
  In x l \/ exists y, In y l /\ p y = true /\ x = f y.
Proof.
  induction l as [|a l IH]; simpl; [tauto|].
  destruct (p a) eqn:Hpa; simpl.
  - intros [<-|H]; [right; exists a; auto|left; auto].
  - intros [<-|H]; [left; auto|].
    destruct (IH H) as [Hin|(y & Hy & Hpy & ->)]; [left; auto|].
    right. exists y. auto.
Qed.

Lemma teamOk_created (name : string) (description : option string) (uid : Id)
    (now : Z) :
  teamOk (Team.mk name description uid [Team.mkMember uid OWNER now]).
Proof.
  repeat split; simpl.
  - unfold ownerListed. simpl. now left.
  - apply NoDup_singleton.
  - intros m [<-|[]] _. reflexivity.
Qed.

Lemma teamOk_renamed (team : Team.t) (name : string) (description : option string) :
  teamOk team ->
  teamOk (Team.mk name description (Team.owner team) (Team.members team)).
Proof. intros H. exact H. Qed.

Lemma teamOk_invited (team : Team.t) (uid : Id) (role : TeamMemberRole) (now : Z) :
  teamOk team ->
  Team.isMember team uid = false ->
  teamOk (Team.mk (Team.name team) (Team.description team) (Team.owner team)
            (Team.members team ++ [Team.mkMember uid role now])).
Proof.
  intros (Howner & Hdistinct & Hrole) Hnew.
  assert (Hfresh : ~ In uid (map Team.userId (Team.members team))).
  { intros Hin. apply isMember_In in Hin. congruence. }
  repeat split; simpl.
  - unfold ownerListed. simpl. rewrite map_app, in_app_iff. now left.
  - rewrite map_app. simpl. apply NoDup_app. split; [exact Hdistinct|].
    split; [|apply NoDup_singleton].
    intros x Hx Hx'. apply list_elem_of_In in Hx.
    apply list_elem_of_singleton in Hx'. congruence.
  - intros m Hin Hm. apply in_app_iff in Hin as [Hin|[<-|[]]]; [auto|].
    simpl in Hm. subst uid. contradiction.
Qed.

Lemma teamOk_spliced (team : Team.t) (victim : Id) (i : nat) :
  teamOk team ->
  Js.findIndex (TeamController.hasUserId victim) (Team.members team) = Some i ->
  victim <> Team.owner team ->
  teamOk (Team.mk (Team.name team) (Team.description team) (Team.owner team)
            (Js.splice1 i (Team.members team))).
Proof.
  intros (Howner & Hdistinct & Hrole) Hi Hne.
  repeat split; simpl.
  - unfold ownerListed. simpl.
    eapply spliced_keeps_other; [exact Hi|congruence|exact Howner].
  - destruct (findIndex_split _ _ _ Hi) as (l1 & x & l2 & Hl & _ & _ & _ & ->).
    rewrite Hl in Hdistinct. rewrite map_app in *. simpl in Hdistinct.
    apply NoDup_app in Hdistinct as (H1 & H2 & H3).
    apply NoDup_cons in H3 as [_ H3].
    apply NoDup_app. repeat split; [exact H1| |exact H3].
    intros y Hy Hy'. apply (H2 y Hy). now apply list_elem_of_further.
  - destruct (findIndex_split _ _ _ Hi) as (l1 & x & l2 & Hl & _ & _ & _ & ->).
    intros m Hin. apply Hrole. rewrite Hl.
    apply in_app_iff in Hin as [Hin|Hin]; apply in_app_iff; simpl; auto.
Qed.

Lemma teamOk_role_set (team : Team.t) (memberId : Id) (role : TeamMemberRole) :
  teamOk team ->
  memberId <> Team.owner team ->
  teamOk (Team.mk (Team.name team) (Team.description team) (Team.owner team)
            (Js.updateFirst (TeamController.hasUserId memberId)
               (TeamController.setRole role) (Team.members team))).
Proof.
  intros (Howner & Hdistinct & Hrole) Hne.
  repeat split; simpl.
  - unfold ownerListed. simpl. rewrite updateFirst_userId. exact Howner.
  - rewrite updateFirst_userId. exact Hdistinct.
  - intros m Hin Hm.
    apply In_updateFirst in Hin as [Hin|(y & Hy & Hpy & ->)]; [auto|].
    unfold TeamController.hasUserId in Hpy. apply String.eqb_eq in Hpy.
    simpl in Hm. congruence.
Qed.

Lemma teamsOk_same_teams (db db' : Db) :
  teams db' = teams db -> teamsOk db -> teamsOk db'.
Proof. unfold teamsOk. intros ->. auto. Qed.

Lemma teamsOk_insert (db db' : Db) (tid : Id) (team : Team.t) :
  teams db' = <[tid := team]> (teams db) ->
  teamOk team -> teamsOk db -> teamsOk db'.
Proof.
  unfold teamsOk. intros -> Hteam Hall tid' team' Hlook.
  destruct (decide (tid = tid')) as [<-|Hne].
  - rewrite lookup_insert_eq in Hlook. now injection Hlook as <-.
  - rewrite lookup_insert_ne in Hlook by assumption. eauto.
Qed.

Lemma teamsOk_delete (db db' : Db) (tid : Id) :
  teams db' = delete tid (teams db) -> teamsOk db -> teamsOk db'.
Proof.
  unfold teamsOk. intros -> Hall tid' team' Hlook.
  apply lookup_delete_Some in Hlook as [_ Hlook]. eauto.
Qed.

(** Every controller keeps every stored team in shape. *)
Lemma step_teamsOk (db db' : Db) : step db db' -> teamsOk db -> teamsOk db'.
Proof.
  pose proof (task_project_steps_keep_teams db)
    as (Hct & Hut & Hus & Hdt & Hcp & Hup & Hdp).
  intros Hstep Hall. destruct Hstep.
  - unfold TeamController.createTeam. repeat case_scrutinee; try exact Hall;
      (eapply teamsOk_insert; [reflexivity|apply teamOk_created|exact Hall]).
  - unfold TeamController.updateTeam. repeat case_scrutinee; try exact Hall;
      (eapply teamsOk_insert; [reflexivity| |exact Hall]);
      apply teamOk_renamed; eapply Hall; eassumption.
  - unfold TeamController.deleteTeam. repeat case_scrutinee; try exact Hall.
    eapply teamsOk_delete; [reflexivity|exact Hall].
  - unfold TeamController.inviteMember. repeat case_scrutinee; try exact Hall;
      (eapply teamsOk_insert; [reflexivity| |exact Hall]);
      (apply teamOk_invited; [eapply Hall; eassumption|assumption]).
  - unfold TeamController.removeMember. repeat case_scrutinee; try exact Hall;
      (eapply teamsOk_insert; [reflexivity| |exact Hall]);
      eqb_facts;
      (eapply teamOk_spliced; [eapply Hall; eassumption|eassumption|congruence]).
  - unfold TeamController.updateMemberRole. repeat case_scrutinee; try exact Hall;
      (eapply teamsOk_insert; [reflexivity| |exact Hall]);
      eqb_facts;
      (apply teamOk_role_set; [eapply Hall; eassumption|congruence]).
  - unfold TeamController.leaveTeam. repeat case_scrutinee; try exact Hall.
    eapply teamsOk_insert; [reflexivity| |exact Hall].
    eqb_facts.
    eapply teamOk_spliced; [eapply Hall; eassumption|eassumption|].
    unfold authenticated in *. repeat case_scrutinee; congruence.
  - eapply teamsOk_same_teams; [apply Hcp|exact Hall].
  - eapply teamsOk_same_teams; [apply Hup|exact Hall].
  - eapply teamsOk_same_teams; [apply Hdp|exact Hall].
  - eapply teamsOk_same_teams; [apply Hct|exact Hall].
  - eapply teamsOk_same_teams; [apply Hut|exact Hall].
  - eapply teamsOk_same_teams; [apply Hus|exact Hall].
  - eapply teamsOk_same_teams; [apply Hdt|exact Hall].
Qed.

Lemma Reachable_teamsOk (db : Db) : Reachable db -> teamsOk db.
Proof.
  induction 1 as [db Hinit|db db' _ IH Hstep].
  - intros tid team Hlook. rewrite Hinit, lookup_empty in Hlook. discriminate.
  - eapply step_teamsOk; eassumption.
Qed.

Lemma existsb_unlisted (uid : Id) (q : Team.Member -> bool) (l : list Team.Member) :
  ~ In uid (map Team.userId l) ->
  existsb (fun m => String.eqb (Team.userId m) uid && q m) l = false.
Proof.
  induction l as [|a l IH]; simpl; [reflexivity|].
  intros Hnot. destruct (String.eqb (Team.userId a) uid) eqn:Ha.
  - apply String.eqb_eq in Ha. tauto.
  - simpl. apply IH. tauto.
Qed.

Lemma existsb_first_entry (uid : Id) (q : Team.Member -> bool)
    (l : list Team.Member) :
  NoDup (map Team.userId l) ->
  existsb (fun m => String.eqb (Team.userId m) uid && q m) l
  = match Js.find (TeamController.hasUserId uid) l with
    | Some m => q m
    | None => false
    end.
Proof.
  unfold Js.find, TeamController.hasUserId.
  induction l as [|a l IH]; simpl; [reflexivity|].
  intros Hdistinct. apply NoDup_cons in Hdistinct as [Hfresh Hdistinct].
  destruct (String.eqb (Team.userId a) uid) eqn:Ha; simpl.
  - apply String.eqb_eq in Ha. subst uid.
    rewrite existsb_unlisted; [apply orb_false_r|].
    intros Hin. apply Hfresh. now apply list_elem_of_In.
  - now apply IH.
Qed.

(** In every database the controllers produce, no user is listed twice
    in a team, and the entry of the team's owner has role owner. *)
Theorem reachable_members_distinct (db : Db) (tid : Id) (team : Team.t) :
  Reachable db ->
  teams db !! tid = Some team ->
  NoDup (map Team.userId (Team.members team))
  /\ (forall m, In m (Team.members team) ->
                Team.userId m = Team.owner team -> Team.role m = OWNER).
Proof.
  intros Hreach Hlook.
  destruct (Reachable_teamsOk db Hreach tid team Hlook) as (_ & H1 & H2).
  split; assumption.
Qed.

Lemma reachable_members_distinct_witness :
  let db1 := snd (TeamController.createTeam Sample.dbEmpty (Some Sample.ada)
                    "Core" None "T1" 0) in
  let db2 := snd (TeamController.inviteMember db1 (Some Sample.ada) "T1"
                    "bob@example.com" (Some ADMIN) 5) in
  let team :=
    Team.mk "Core" None Sample.ada
      [Team.mkMember Sample.ada OWNER 0; Team.mkMember Sample.bob ADMIN 5] in
  NoDup (map Team.userId (Team.members team))
  /\ (forall m, In m (Team.members team) ->
                Team.userId m = Team.owner team -> Team.role m = OWNER).
Proof.
  intros db1 db2 team.
  apply (reachable_members_distinct db2 "T1" team).
  - apply (reach_step db1); [|apply step_inviteMember].
    apply (reach_step Sample.dbEmpty); [apply reach_init; reflexivity|].
    apply step_createTeam.
  - vm_compute. reflexivity.
Defined.

(** In every database the controllers produce, the two authorisation
    queries agree: [isAdminOrOwner] holds of a user exactly when
    [getMemberRole] answers owner or admin for that user, and whoever
    passes [isAdminOrOwner] also passes [isMember]. *)
Theorem reachable_admin_matches_role (db : Db) (tid : Id) (team : Team.t)
    (uid : Id) :
  Reachable db ->
  teams db !! tid = Some team ->
  (Team.isAdminOrOwner team uid = true
   <-> Team.getMemberRole team uid = Some OWNER
       \/ Team.getMemberRole team uid = Some ADMIN)
  /\ (Team.isAdminOrOwner team uid = true -> Team.isMember team uid = true).
Proof.
  intros Hreach Hlook.
  destruct (Reachable_teamsOk db Hreach tid team Hlook) as (Howner & Hdistinct & _).
  unfold Team.isAdminOrOwner, Team.getMemberRole, Js.some. cbv zeta.
  destruct (String.eqb (Team.owner team) uid) eqn:Hu.
  - apply String.eqb_eq in Hu. subst uid. split; [tauto|].
    intros _. now apply isMember_In.
  - rewrite (existsb_first_entry uid
               (fun m => TeamMemberRole_eqb (Team.role m) ADMIN
                         || TeamMemberRole_eqb (Team.role m) OWNER)
               (Team.members team) Hdistinct).
    change (fun m : Team.Member => String.eqb (Team.userId m) uid)
      with (TeamController.hasUserId uid).
    pose proof (find_hasUserId uid (Team.members team)) as Hfind.
    destruct (Js.find (TeamController.hasUserId uid) (Team.members team)) as [m|].
    + destruct Hfind as [Hin Hm]. split.
      * destruct (Team.role m); (split; [intros H|intros [H|H]]);
          try reflexivity; try discriminate H; auto.
      * intros _. apply isMember_In. rewrite <- Hm. now apply in_map.
    + split; [|discriminate]. split; [discriminate|]. intros [H|H]; discriminate.
Qed.

Lemma reachable_admin_matches_role_witness :
  let db1 := snd (TeamController.createTeam Sample.dbEmpty (Some Sample.ada)
                    "Core" None "T1" 0) in
  let db2 := snd (TeamController.inviteMember db1 (Some Sample.ada) "T1"
                    "bob@example.com" (Some ADMIN) 5) in
  let team :=
    Team.mk "Core" None Sample.ada
      [Team.mkMember Sample.ada OWNER 0; Team.mkMember Sample.bob ADMIN 5] in
  (Team.isAdminOrOwner team Sample.bob = true
   <-> Team.getMemberRole team Sample.bob = Some OWNER
       \/ Team.getMemberRole team Sample.bob = Some ADMIN)
  /\ (Team.isAdminOrOwner team Sample.bob = true
      -> Team.isMember team Sample.bob = true).
Proof.
  intros db1 db2 team.
  apply (reachable_admin_matches_role db2 "T1" team Sample.bob).
  - apply (reach_step db1); [|apply step_inviteMember].
    apply (reach_step Sample.dbEmpty); [apply reach_init; reflexivity|].
    apply step_createTeam.
  - vm_compute. reflexivity.
Defined.

(** ** The team controller *)

(** What a successful invitation did. *)
Lemma inviteMember_inv (db : Db) (user : option Id) (teamId : Id)
    (email : string) (role : option TeamMemberRole) (now : Z) :
  let r := TeamController.inviteMember db user teamId email role now in
  success (fst r) = true ->
  exists userId team invited inviter,
    authenticated user = Some userId
    /\ teams db !! teamId = Some team
    /\ Team.isAdminOrOwner team userId = true
    /\ User.findOneByEmail (users db) email = Some invited
    /\ Team.isMember team (User._id invited) = false
    /\ User.findById (users db) userId = Some inviter
    /\ users (snd r) = users db
    /\ projects (snd r) = projects db
    /\ tasks (snd r) = tasks db
    /\ activities (snd r) = activities db
    /\ teams (snd r)
       = <[teamId := Team.mk (Team.name team) (Team.description team)
                       (Team.owner team)
                       (Team.members team
                        ++ [Team.mkMember (User._id invited)
                              (default MEMBER role) now])]> (teams db).
Proof.
  unfold TeamController.inviteMember.
  destruct (authenticated user) as [userId|] eqn:Hauth; [|discriminate].
  destruct (teams db !! teamId) as [team|] eqn:Hteam; [|discriminate].
  destruct (Team.isAdminOrOwner team userId) eqn:Hadmin; cbn [negb]; [|discriminate].
  destruct (User.findOneByEmail (users db) email) as [invited|] eqn:Hemail;
    [|discriminate].
  destruct (Team.isMember team (User._id invited)) eqn:Hnew; [discriminate|].
  destruct (User.findById (users db) userId) as [inviter|] eqn:Hinviter;
    [|discriminate].
  intros _. exists userId, team, invited, inviter.
  destruct role; repeat split; first [reflexivity | assumption].
Qed.

Lemma isAdminOrOwner_more_members (team : Team.t) (extra : list Team.Member)
    (uid : Id) :
  Team.isAdminOrOwner team uid = true ->
  Team.isAdminOrOwner
    (Team.mk (Team.name team) (Team.description team) (Team.owner team)
       (Team.members team ++ extra)) uid = true.
Proof.
  unfold Team.isAdminOrOwner, Js.some. cbn.
  destruct (String.eqb (Team.owner team) uid); [reflexivity|].
  rewrite existsb_app. intros ->. reflexivity.
Qed.

Lemma findIndex_appended {A} (p : A -> bool) (l : list A) (x : A) :
  existsb p l = false -> p x = true ->
  Js.findIndex p (l ++ [x]) = Some (length l)
  /\ Js.splice1 (length l) (l ++ [x]) = l.
Proof.
  intros Hnone Hx. induction l as [|a l IH]; simpl in *.
  - rewrite Hx. split; reflexivity.
  - apply orb_false_iff in Hnone as [Ha Hl]. rewrite Ha.
    destruct (IH Hl) as [-> Hsplice]. split; [reflexivity|].
    unfold Js.splice1 in *. cbn. f_equal. exact Hsplice.
Qed.

(** Once a user has been invited into a team, inviting the same e-mail
    again, with any role, is refused with 409 Conflict and changes
    nothing. *)
Theorem inviteMember_repeat_conflict (db : Db) (user : option Id) (teamId : Id)
    (email : string) (role role' : option TeamMemberRole) (now now' : Z) :
  let r := TeamController.inviteMember db user teamId email role now in
  success (fst r) = true ->
  TeamController.inviteMember (snd r) user teamId email role' now'
  = (mkResponse 409 false "User is already a member of this team"
       (Some (Label "Conflict")), snd r).
Proof.
  intros r Hok.
  destruct (inviteMember_inv db user teamId email role now Hok)
    as (userId & team & invited & inviter & Hauth & Hteam & Hadmin & Hemail
        & Hnew & Hinviter & Husers & _ & _ & _ & Hteams).
  fold r in Husers, Hteams.
  unfold TeamController.inviteMember.
  rewrite Hauth, Hteams, lookup_insert_eq, Husers, Hemail.
  rewrite (isAdminOrOwner_more_members team _ userId Hadmin). cbn [negb].
  assert (Hlisted :
    Team.isMember
      (Team.mk (Team.name team) (Team.description team) (Team.owner team)
         (Team.members team
          ++ [Team.mkMember (User._id invited) (default MEMBER role) now]))
      (User._id invited) = true).
  { apply isMember_In. cbn. rewrite map_app, in_app_iff. right. now left. }
  rewrite Hlisted. reflexivity.
Qed.

Lemma inviteMember_repeat_conflict_witness :
  let r := TeamController.inviteMember Sample.db (Some Sample.ada) "T1"
             "cyd@example.com" None 9 in
  TeamController.inviteMember (snd r) (Some Sample.ada) "T1" "cyd@example.com"
    (Some ADMIN) 11
  = (mkResponse 409 false "User is already a member of this team"
       (Some (Label "Conflict")), snd r).
Proof.
  intros r.
  apply (inviteMember_repeat_conflict Sample.db (Some Sample.ada) "T1"
           "cyd@example.com" None (Some ADMIN) 9 11).
  reflexivity.
Defined.

(** Removing a user right after a successful invitation of that user
    gives back the team collection as it was before the invitation. *)
Theorem invite_then_remove_restores (db : Db) (user : option Id) (teamId : Id)
    (email : string) (role : option TeamMemberRole) (now : Z)
    (team : Team.t) (invited : User.t) :
  let r := TeamController.inviteMember db user teamId email role now in
  success (fst r) = true ->
  teams db !! teamId = Some team ->
  User.findOneByEmail (users db) email = Some invited ->
  User._id invited <> Team.owner team ->
  let r' := TeamController.removeMember (snd r) user teamId (User._id invited) in
  success (fst r') = true /\ teams (snd r') = teams db.
Proof.
  intros r Hok Hteam0 Hemail0 Hne r'.
  destruct (inviteMember_inv db user teamId email role now Hok)
    as (userId & team1 & invited1 & inviter & Hauth & Hteam & Hadmin & Hemail
        & Hnew & Hinviter & Husers & _ & _ & _ & Hteams).
  fold r in Husers, Hteams.
  rewrite Hteam0 in Hteam. injection Hteam as <-.
  rewrite Hemail0 in Hemail. injection Hemail as <-.
  clearbody r.
  assert (Hnone : existsb (TeamController.hasUserId (User._id invited))
                    (Team.members team) = false) by exact Hnew.
  destruct (findIndex_appended (TeamController.hasUserId (User._id invited))
              (Team.members team)
              (Team.mkMember (User._id invited) (default MEMBER role) now) Hnone)
    as [Hindex Hsplice].
  { unfold TeamController.hasUserId. cbn. apply String.eqb_refl. }
  subst r'. unfold TeamController.removeMember.
  rewrite Hauth, Hteams, lookup_insert_eq.
  rewrite (isAdminOrOwner_more_members team _ userId Hadmin). cbn [negb].
  cbn [Team.owner Team.members Team.name Team.description].
  apply String.eqb_neq in Hne. rewrite String.eqb_sym in Hne. rewrite Hne.
  rewrite Hindex, Hsplice. cbv zeta. cbn [fst snd teams set_io set_teams].
  split; [reflexivity|].
  rewrite insert_insert_eq.
  apply insert_id. rewrite Hteam0. now destruct team.
Qed.

Lemma invite_then_remove_restores_witness :
  let r := TeamController.inviteMember Sample.db (Some Sample.ada) "T1"
             "cyd@example.com" None 9 in
  let r' := TeamController.removeMember (snd r) (Some Sample.ada) "T1" Sample.cyd in
  success (fst r') = true /\ teams (snd r') = teams Sample.db.
Proof.
  intros r r'.
  apply (invite_then_remove_restores Sample.db (Some Sample.ada) "T1"
           "cyd@example.com" None 9 Sample.core
           (User.mk Sample.cyd "Cyd" "cyd@example.com"));
    [reflexivity | reflexivity | reflexivity | discriminate].
Defined.

Lemma isMember_spliced_other (l1 l2 : list Team.Member) (x : Team.Member)
    (name : string) (description : option string) (owner u : Id) :
  u <> Team.userId x ->
  Team.isMember (Team.mk name description owner (l1 ++ l2)) u
  = Team.isMember (Team.mk name description owner (l1 ++ x :: l2)) u.
Proof.
  intros Hne. unfold Team.isMember, Js.some. cbn.
  rewrite !existsb_app. cbn.
  assert (String.eqb (Team.userId x) u = false) as ->; [|reflexivity].
  apply String.eqb_neq. congruence.
Qed.

Lemma isMember_spliced_self (l1 l2 : list Team.Member) (x : Team.Member)
    (name : string) (description : option string) (owner : Id) :
  NoDup (map Team.userId (l1 ++ x :: l2)) ->
  Team.isMember (Team.mk name description owner (l1 ++ l2)) (Team.userId x) = false.
Proof.
  intros Hdistinct.
  destruct (Team.isMember _ (Team.userId x)) eqn:Hin; [|reflexivity].
  apply isMember_In in Hin. cbn in Hin.
  rewrite map_app in *. cbn in Hdistinct.
  apply NoDup_app in Hdistinct as (_ & H2 & H3).
  apply NoDup_cons in H3 as [H3 _].
  apply in_app_iff in Hin as [Hin|Hin]; apply list_elem_of_In in Hin.
  - exfalso. apply (H2 _ Hin). now left.
  - contradiction.
Qed.

(** Leaving a team.  The owner is refused, and so is a user who is not
    listed; a listed member leaves, which changes nothing but that
    team's member list: nothing is recorded and no event is sent.  The
    other users keep their membership, and the leaver is a member no
    more when the list named no user twice. *)
Theorem leaveTeam_effect (db : Db) (user : option Id) (userId teamId : Id)
    (team : Team.t) :
  authenticated user = Some userId ->
  teams db !! teamId = Some team ->
  let r := TeamController.leaveTeam db user teamId in
  (userId = Team.owner team ->
   r = (mkResponse 400 false
          "Team owner cannot leave. Please transfer ownership or delete the team."
          (Some (Label "Bad Request")), db))
  /\ (userId <> Team.owner team -> Team.isMember team userId = false ->
      r = (mkResponse 400 false "You are not a member of this team"
             (Some (Label "Bad Request")), db))
  /\ (userId <> Team.owner team -> Team.isMember team userId = true ->
      exists team',
        r = (mkResponse 200 true "Left team successfully" None,
             set_teams db (<[teamId := team']> (teams db)))
        /\ Team.owner team' = Team.owner team
        /\ Team.name team' = Team.name team
        /\ Team.description team' = Team.description team
        /\ (forall u, u <> userId -> Team.isMember team' u = Team.isMember team u)
        /\ (NoDup (map Team.userId (Team.members team)) ->
            Team.isMember team' userId = false)).
Proof.
  intros Hauth Hteam r. subst r. unfold TeamController.leaveTeam.
  rewrite Hauth, Hteam. split; [|split].
  - intros ->. now rewrite String.eqb_refl.
  - intros Hne Hout.
    assert (String.eqb (Team.owner team) userId = false) as ->.
    { apply String.eqb_neq. congruence. }
    assert (Js.findIndex (TeamController.hasUserId userId) (Team.members team)
            = None) as ->; [|reflexivity].
    apply findIndex_None. exact Hout.
  - intros Hne Hin.
    assert (String.eqb (Team.owner team) userId = false) as ->.
    { apply String.eqb_neq. congruence. }
    destruct (Js.findIndex (TeamController.hasUserId userId) (Team.members team))
      as [i|] eqn:Hi.
    2:{ apply findIndex_None in Hi. unfold Team.isMember, Js.some in Hin.
        unfold TeamController.hasUserId in Hi. rewrite Hi in Hin. discriminate. }
    destruct (findIndex_split _ _ _ Hi) as (l1 & x & l2 & Hl & _ & Hx & _ & Hsplice).
    unfold TeamController.hasUserId in Hx. apply String.eqb_eq in Hx.
    eexists. split; [reflexivity|]. cbn. rewrite Hsplice.
    repeat split.
    + intros u Hu. destruct team as [n d o ms]. cbn in *. subst ms.
      apply (isMember_spliced_other l1 l2 x n d o u). congruence.
    + intros Hdistinct. destruct team as [n d o ms]. cbn in *. subst ms userId.
      exact (isMember_spliced_self l1 l2 x n d o Hdistinct).
Qed.

Lemma leaveTeam_effect_witness :
  exists team',
    TeamController.leaveTeam Sample.db (Some Sample.bob) "T1"
    = (mkResponse 200 true "Left team successfully" None,
       set_teams Sample.db (<["T1" := team']> (teams Sample.db)))
    /\ Team.owner team' = Sample.ada
    /\ Team.name team' = "Core"
    /\ Team.description team' = None
    /\ (forall u, u <> Sample.bob ->
                  Team.isMember team' u = Team.isMember Sample.core u)
    /\ (NoDup (map Team.userId (Team.members Sample.core)) ->
        Team.isMember team' Sample.bob = false).
Proof.
  destruct (leaveTeam_effect Sample.db (Some Sample.bob) Sample.bob "T1"
              Sample.core eq_refl eq_refl) as (_ & _ & Hleave).
  apply Hleave; [discriminate|reflexivity].
Defined.

Lemma find_updateFirst_same (v : Id) (r : TeamMemberRole) (l : list Team.Member) :
  Js.find (TeamController.hasUserId v)
    (Js.updateFirst (TeamController.hasUserId v) (TeamController.setRole r) l)
  = option_map (TeamController.setRole r)
      (Js.find (TeamController.hasUserId v) l).
Proof.
  unfold Js.find. induction l as [|a l IH]; simpl; [reflexivity|].
  destruct (TeamController.hasUserId v a) eqn:Ha; simpl.
  - unfold TeamController.hasUserId in *. simpl. now rewrite Ha.
  - now rewrite Ha.
Qed.

Lemma find_updateFirst_other (u v : Id) (r : TeamMemberRole)
    (l : list Team.Member) :
  u <> v ->
  Js.find (TeamController.hasUserId u)
    (Js.updateFirst (TeamController.hasUserId v) (TeamController.setRole r) l)
  = Js.find (TeamController.hasUserId u) l.
Proof.
  intros Hne. unfold Js.find. induction l as [|a l IH]; simpl; [reflexivity|].
  destruct (TeamController.hasUserId v a) eqn:Ha; simpl.
  - unfold TeamController.hasUserId in *. simpl.
    apply String.eqb_eq in Ha.
    assert (String.eqb (Team.userId a) u = false) as ->; [|reflexivity].
    apply String.eqb_neq. congruence.
  - destruct (TeamController.hasUserId u a); [reflexivity|exact IH].
Qed.

Lemma updateFirst_joinedAt (p : Team.Member -> bool) (r : TeamMemberRole)
    (l : list Team.Member) :
  map Team.joinedAt (Js.updateFirst p (TeamController.setRole r) l)
  = map Team.joinedAt l.
Proof.
  induction l as [|a l IH]; simpl; [reflexivity|].
  destruct (p a); simpl; [reflexivity|]. now rewrite IH.
Qed.

(** A successful role update was asked by the owner, for a listed user
    other than the owner.  It saves the team with the same owner, name
    and description and the same users listed in the same order with
    their join dates; [getMemberRole] then answers the new role for the
    target and what it answered before for everybody else. *)
Theorem updateMemberRole_effect (db : Db) (user : option Id)
    (teamId memberId : Id) (role : TeamMemberRole) (team : Team.t) :
  let r := TeamController.updateMemberRole db user teamId memberId role in
  teams db !! teamId = Some team ->
  success (fst r) = true ->
  exists team',
    authenticated user = Some (Team.owner team)
    /\ memberId <> Team.owner team
    /\ teams (snd r) = <[teamId := team']> (teams db)
    /\ Team.owner team' = Team.owner team
    /\ Team.name team' = Team.name team
    /\ Team.description team' = Team.description team
    /\ map Team.userId (Team.members team') = map Team.userId (Team.members team)
    /\ map Team.joinedAt (Team.members team')
       = map Team.joinedAt (Team.members team)
    /\ Team.getMemberRole team' memberId = Some role
    /\ (forall u, u <> memberId ->
                  Team.getMemberRole team' u = Team.getMemberRole team u).
Proof.
  intros r Hteam. subst r. unfold TeamController.updateMemberRole. rewrite Hteam.
  destruct (authenticated user) as [userId|] eqn:Hauth; [|discriminate].
  destruct (String.eqb (Team.owner team) userId) eqn:Howner; cbn [negb];
    [|discriminate].
  destruct (String.eqb (Team.owner team) memberId) eqn:Htarget; [discriminate|].
  pose proof (find_hasUserId memberId (Team.members team)) as Hfind.
  destruct (Js.find (TeamController.hasUserId memberId) (Team.members team))
    as [member|] eqn:Hmember; [|discriminate].
  intros _. eqb_facts. subst userId.
  eexists. split; [reflexivity|]. split; [congruence|].
  split.
  { cbv zeta. repeat case_scrutinee; reflexivity. }
  cbn [Team.owner Team.name Team.description Team.members].
  repeat split.
  - apply updateFirst_userId.
  - apply updateFirst_joinedAt.
  - unfold Team.getMemberRole. cbn.
    apply String.eqb_neq in Htarget. rewrite Htarget.
    change (fun m : Team.Member => String.eqb (Team.userId m) memberId)
      with (TeamController.hasUserId memberId).
    now rewrite find_updateFirst_same, Hmember.
  - intros u Hu. unfold Team.getMemberRole. cbn.
    destruct (String.eqb (Team.owner team) u); [reflexivity|].
    change (fun m : Team.Member => String.eqb (Team.userId m) u)
      with (TeamController.hasUserId u).
    now rewrite find_updateFirst_other.
Qed.

Lemma updateMemberRole_effect_witness :
  exists team',
    authenticated (Some Sample.ada) = Some (Team.owner Sample.core)
    /\ Sample.bob <> Team.owner Sample.core
    /\ teams (snd (TeamController.updateMemberRole Sample.db (Some Sample.ada)
                     "T1" Sample.bob ADMIN))
       = <["T1" := team']> (teams Sample.db)
    /\ Team.owner team' = Team.owner Sample.core
    /\ Team.name team' = Team.name Sample.core
    /\ Team.description team' = Team.description Sample.core
    /\ map Team.userId (Team.members team')
       = map Team.userId (Team.members Sample.core)
    /\ map Team.joinedAt (Team.members team')
       = map Team.joinedAt (Team.members Sample.core)
    /\ Team.getMemberRole team' Sample.bob = Some ADMIN
    /\ (forall u, u <> Sample.bob ->
                  Team.getMemberRole team' u = Team.getMemberRole Sample.core u).
Proof.
  apply (updateMemberRole_effect Sample.db (Some Sample.ada) "T1" Sample.bob
           ADMIN Sample.core); reflexivity.
Defined.

(** Deleting a team is the owner's alone and does not cascade: the
    team's projects and tasks stay stored, nothing is recorded and no
    event is sent.  From then on a general update of a task of that
    team is refused with 403 Forbidden, whoever asks. *)
Theorem deleteTeam_no_cascade (db : Db) (user : option Id) (teamId : Id)
    (team : Team.t) :
  let r := TeamController.deleteTeam db user teamId in
  teams db !! teamId = Some team ->
  success (fst r) = true ->
  authenticated user = Some (Team.owner team)
  /\ snd r = set_teams db (delete teamId (teams db))
  /\ (forall taskId task project user' userId' updateData now,
        tasks db !! taskId = Some task ->
        projects db !! Task.projectId task = Some project ->
        Project.teamId project = teamId ->
        authenticated user' = Some userId' ->
        TaskController.updateTask (snd r) user' taskId updateData now
        = (mkResponse 403 false "You are not authorized to access this task"
             (Some (Label "Forbidden")), snd r)).
Proof.
  intros r Hteam. subst r. unfold TeamController.deleteTeam. rewrite Hteam.
  destruct (authenticated user) as [userId|] eqn:Hauth; [|discriminate].
  destruct (String.eqb (Team.owner team) userId) eqn:Howner; cbn [negb];
    [|discriminate].
  intros _. eqb_facts. subst userId.
  split; [reflexivity|]. split; [reflexivity|].
  intros taskId task project user' userId' updateData now Htask Hproject Hpt Hauth'.
  unfold TaskController.updateTask. cbn [snd tasks projects teams set_teams].
  rewrite Hauth', Htask, Hproject. cbv zeta. rewrite Hpt, lookup_delete_eq.
  reflexivity.
Qed.

Lemma deleteTeam_no_cascade_witness :
  let r := TeamController.deleteTeam Sample.db (Some Sample.ada) "T1" in
  snd r = set_teams Sample.db (delete "T1" (teams Sample.db))
  /\ TaskController.updateTask (snd r) (Some Sample.bob) "K1"
       (mkUpdateTaskDto (Some "Renamed") None None None None None) 7
     = (mkResponse 403 false "You are not authorized to access this task"
          (Some (Label "Forbidden")), snd r).
Proof.
  intros r.
  destruct (deleteTeam_no_cascade Sample.db (Some Sample.ada) "T1" Sample.core
              eq_refl eq_refl) as (_ & Hdb & Hlater).
  split; [exact Hdb|].
  apply (Hlater "K1" Sample.ticket Sample.roadmap (Some Sample.bob) Sample.bob);
    reflexivity.
Defined.

(** ** The task controller *)

Lemma canTransitionTo_self (task : Task.t) :
  Task.canTransitionTo task (Task.status task) = false.
Proof. unfold Task.canTransitionTo. now destruct (Task.status task). Qed.

(** What a successful status update did. *)
Lemma updateTaskStatus_inv (db : Db) (user : option Id) (taskId : Id)
    (status : TaskStatus) :
  let r := TaskController.updateTaskStatus db user taskId status in
  success (fst r) = true ->
  exists userId task project team,
    authenticated user = Some userId
    /\ tasks db !! taskId = Some task
    /\ projects db !! Task.projectId task = Some project
    /\ teams db !! Project.teamId project = Some team
    /\ Team.isMember team userId = true
    /\ Task.canTransitionTo task status = true
    /\ fst r = ResponseHandler.success ResponseMessages.TASK_STATUS_UPDATED 200
    /\ set_io (snd r) (io db)
       = set_tasks db
           (<[taskId := Task.mk (Task.title task) (Task.description task)
                          (Task.priority task) status (Task.dueDate task)
                          (Task.assignee task) (Task.projectId task)
                          (Task.createdBy task)]> (tasks db)).
Proof.
  unfold TaskController.updateTaskStatus.
  destruct (authenticated user) as [userId|] eqn:Hauth; [|discriminate].
  destruct (tasks db !! taskId) as [task|] eqn:Htask; [|discriminate].
  destruct (projects db !! Task.projectId task) as [project|] eqn:Hproject;
    [|discriminate].
  cbv zeta.
  destruct (teams db !! Project.teamId project) as [team|] eqn:Hteam;
    [|discriminate].
  destruct (Team.isMember team userId) eqn:Hmember; cbn [negb]; [|discriminate].
  destruct (Task.canTransitionTo task status) eqn:Hcan; cbn [negb]; [|discriminate].
  intros _. exists userId, task, project, team.
  repeat (split; [first [assumption | reflexivity]|]).
  destruct db; reflexivity.
Qed.

(** A successful status update stores the task with the requested
    status, which was reachable, and with every other field as it was;
    users, teams, projects, the other tasks and the activities are
    untouched. *)
Theorem updateTaskStatus_effect (db : Db) (user : option Id) (taskId : Id)
    (status : TaskStatus) (task : Task.t) :
  let r := TaskController.updateTaskStatus db user taskId status in
  tasks db !! taskId = Some task ->
  success (fst r) = true ->
  Task.canTransitionTo task status = true
  /\ tasks (snd r)
     = <[taskId := Task.mk (Task.title task) (Task.description task)
                     (Task.priority task) status (Task.dueDate task)
                     (Task.assignee task) (Task.projectId task)
                     (Task.createdBy task)]> (tasks db)
  /\ users (snd r) = users db
  /\ teams (snd r) = teams db
  /\ projects (snd r) = projects db
  /\ activities (snd r) = activities db.
Proof.
  intros r Htask Hok.
  destruct (updateTaskStatus_inv db user taskId status Hok)
    as (userId & task0 & project & team & _ & Htask0 & _ & _ & _ & Hcan & _
        & Hsaved).
  fold r in Hsaved. clearbody r.
  rewrite Htask in Htask0. injection Htask0 as <-.
  split; [exact Hcan|].
  pose proof (f_equal tasks Hsaved) as H1.
  pose proof (f_equal users Hsaved) as H2.
  pose proof (f_equal teams Hsaved) as H3.
  pose proof (f_equal projects Hsaved) as H4.
  pose proof (f_equal activities Hsaved) as H5.
  cbn in H1, H2, H3, H4, H5. auto.
Qed.

Lemma updateTaskStatus_effect_witness :
  let r := TaskController.updateTaskStatus Sample.db (Some Sample.bob) "K1"
             IN_PROGRESS in
  Task.canTransitionTo Sample.ticket IN_PROGRESS = true
  /\ tasks (snd r)
     = <["K1" := Task.mk "Ticket" None MEDIUM IN_PROGRESS None None "P1"
                   Sample.ada]> (tasks Sample.db)
  /\ users (snd r) = users Sample.db
  /\ teams (snd r) = teams Sample.db
  /\ projects (snd r) = projects Sample.db
  /\ activities (snd r) = activities Sample.db.
Proof.
  apply (updateTaskStatus_effect Sample.db (Some Sample.bob) "K1" IN_PROGRESS
           Sample.ticket); reflexivity.
Defined.

(** The status update is not idempotent: once it has succeeded, the same
    request again is refused with 400 "Invalid Status Transition", the
    message naming the status twice, and changes nothing. *)
Theorem updateTaskStatus_repeat_rejected (db : Db) (user : option Id)
    (taskId : Id) (status : TaskStatus) :
  let r := TaskController.updateTaskStatus db user taskId status in
  success (fst r) = true ->
  TaskController.updateTaskStatus (snd r) user taskId status
  = (mkResponse 400 false
       ("Cannot transition from " ++ TaskStatus_value status
        ++ " to " ++ TaskStatus_value status)
       (Some (Label "Invalid Status Transition")), snd r).
Proof.
  intros r Hok.
  destruct (updateTaskStatus_inv db user taskId status Hok)
    as (userId & task & project & team & Hauth & _ & Hproject & Hteam & Hmember
        & _ & _ & Hsaved).
  fold r in Hsaved. clearbody r.
  pose proof (f_equal tasks Hsaved) as H1.
  pose proof (f_equal teams Hsaved) as H3.
  pose proof (f_equal projects Hsaved) as H4.
  cbn in H1, H3, H4.
  unfold TaskController.updateTaskStatus.
  rewrite Hauth, H1, lookup_insert_eq.
  cbn [Task.projectId]. rewrite H4, Hproject. cbv zeta.
  rewrite H3, Hteam, Hmember. cbn [negb].
  match goal with
  | |- context [Task.canTransitionTo ?t status] =>
      pose proof (canTransitionTo_self t) as Hself
  end.
  cbn [Task.status] in Hself. rewrite Hself. reflexivity.
Qed.

Lemma updateTaskStatus_repeat_rejected_witness :
  let r := TaskController.updateTaskStatus Sample.db (Some Sample.bob) "K1"
             IN_PROGRESS in
  TaskController.updateTaskStatus (snd r) (Some Sample.bob) "K1" IN_PROGRESS
  = (mkResponse 400 false "Cannot transition from in_progress to in_progress"
       (Some (Label "Invalid Status Transition")), snd r).
Proof.
  intros r.
  apply (updateTaskStatus_repeat_rejected Sample.db (Some Sample.bob) "K1"
           IN_PROGRESS).
  reflexivity.
Defined.

Lemma updateTask_emit_answer (db : Db) (userId teamId taskId : Id)
    (oldAssignee : option Id) (oldStatus : TaskStatus) (task' : Task.t)
    (changes : TaskChanges) (updateData : UpdateTaskDto) (project : Project.t)
    (creator : User.t) :
  TaskController.truthyAssignee (default None (ut_assignee updateData)) = None ->
  fst (TaskController.updateTask_emit db userId teamId taskId oldAssignee
         oldStatus task' changes updateData project creator)
  = ResponseHandler.success ResponseMessages.TASK_UPDATED 200.
Proof.
  unfold TaskController.updateTask_emit. cbv zeta.
  destruct (ut_assignee updateData) as [newAssignee|]; cbn [default from_option id].
  - intros ->. repeat case_scrutinee; reflexivity.
  - intros _. repeat case_scrutinee; reflexivity.
Qed.

(** A general update that names no assignee, or clears it, and passes
    the gates: its answer and its database but for the socket server. *)
Lemma updateTask_accepted (db : Db) (user : option Id) (userId taskId : Id)
    (task : Task.t) (project : Project.t) (team : Team.t) (creator : User.t)
    (updateData : UpdateTaskDto) (now : Z) :
  authenticated user = Some userId ->
  tasks db !! taskId = Some task ->
  projects db !! Task.projectId task = Some project ->
  teams db !! Project.teamId project = Some team ->
  Team.isMember team userId = true ->
  User.findById (users db) (Task.createdBy task) = Some creator ->
  TaskController.truthyAssignee (default None (ut_assignee updateData)) = None ->
  (forall s, ut_status updateData = Some s -> Task.canTransitionTo task s = true) ->
  let r := TaskController.updateTask db user taskId updateData now in
  fst r = ResponseHandler.success ResponseMessages.TASK_UPDATED 200
  /\ set_io (snd r) (io db)
     = set_activities
         (set_tasks db (<[taskId := updatedTask task updateData]> (tasks db)))
         (activities db
          ++ updateTaskLog userId (Project.teamId project) taskId task
               updateData now).
Proof.
  intros Hauth Htask Hproject Hteam Hmember Hcreator Hassignee Hcan r.
  subst r. unfold TaskController.updateTask.
  rewrite Hauth, Htask, Hproject. cbv zeta. rewrite Hteam, Hmember. cbn [negb].
  assert (Hcheck : TaskController.checkAssignee db team
                     (default None (ut_assignee updateData)) = None).
  { unfold TaskController.checkAssignee. now rewrite Hassignee. }
  rewrite Hcheck.
  assert (Hstatus' :
    match ut_status updateData with
    | Some s =>
        if negb (Task.canTransitionTo task s)
        then inl (TaskController.statusTransitionError (Task.status task) s)
        else inr s
    | None => inr (Task.status task)
    end = inr (default (Task.status task) (ut_status updateData))).
  { destruct (ut_status updateData) as [s|]; [|reflexivity].
    now rewrite (Hcan s eq_refl). }
  rewrite Hstatus'.
  change (Task.mk (default (Task.title task) (ut_title updateData)) _ _ _ _ _ _ _)
    with (updatedTask task updateData).
  change (mkTaskChanges _ _ _ _) with (updateTaskChanges task updateData).
  rewrite updateTask_logActivities_eq.
  cbn [users set_activities set_tasks updatedTask Task.createdBy].
  rewrite Hcreator. split.
  - now apply updateTask_emit_answer.
  - rewrite updateTask_emit_io_only. destruct db; reflexivity.
Qed.

(** An update that names no field at all still succeeds and is recorded:
    the task stays as it was and the recorder receives one [updated]
    record with an empty [changes] map. *)
Theorem updateTask_empty_update (db : Db) (user : option Id) (userId taskId : Id)
    (task : Task.t) (project : Project.t) (team : Team.t) (creator : User.t)
    (now : Z) :
  authenticated user = Some userId ->
  tasks db !! taskId = Some task ->
  projects db !! Task.projectId task = Some project ->
  teams db !! Project.teamId project = Some team ->
  Team.isMember team userId = true ->
  User.findById (users db) (Task.createdBy task) = Some creator ->
  let r :=
    TaskController.updateTask db user taskId
      (mkUpdateTaskDto None None None None None None) now in
  fst r = mkResponse 200 true "Task updated successfully" None
  /\ tasks (snd r) = tasks db
  /\ activities (snd r)
     = (activities db
        ++ [Activity.mk userId (Project.teamId project) UPDATED
              ActivityEntity.TASK taskId
              (MetaTaskUpdated (Task.title task)
                 (mkTaskChanges None None None None)) now])%list.
Proof.
  intros Hauth Htask Hproject Hteam Hmember Hcreator r.
  destruct (updateTask_accepted db user userId taskId task project team creator
              (mkUpdateTaskDto None None None None None None) now
              Hauth Htask Hproject Hteam Hmember Hcreator eq_refl)
    as [Hanswer Hsaved]; [discriminate|].
  fold r in Hanswer, Hsaved. clearbody r.
  split; [exact Hanswer|].
  pose proof (f_equal tasks Hsaved) as H1.
  pose proof (f_equal activities Hsaved) as H2.
  cbn in H1, H2. split; [|exact H2].
  rewrite H1. apply insert_id. rewrite Htask. now destruct task.
Qed.

Lemma updateTask_empty_update_witness :
  let r :=
    TaskController.updateTask Sample.db (Some Sample.bob) "K1"
      (mkUpdateTaskDto None None None None None None) 7 in
  fst r = mkResponse 200 true "Task updated successfully" None
  /\ tasks (snd r) = tasks Sample.db
  /\ activities (snd r)
     = (activities Sample.db
        ++ [Activity.mk Sample.bob "T1" UPDATED ActivityEntity.TASK "K1"
              (MetaTaskUpdated "Ticket" (mkTaskChanges None None None None)) 7])%list.
Proof.
  apply (updateTask_empty_update Sample.db (Some Sample.bob) Sample.bob "K1"
           Sample.ticket Sample.roadmap Sample.core
           (User.mk Sample.ada "Ada" "ada@example.com")); reflexivity.
Defined.

(** Clearing the assignee of a task that has none ([assignee: null])
    changes nothing in the task, yet the recorder receives, after the
    [updated] record, an [unassigned] record whose old and new assignee
    are both absent. *)
Theorem updateTask_clear_unassigned (db : Db) (user : option Id)
    (userId taskId : Id) (task : Task.t) (project : Project.t) (team : Team.t)
    (creator : User.t) (now : Z) :
  authenticated user = Some userId ->
  tasks db !! taskId = Some task ->
  projects db !! Task.projectId task = Some project ->
  teams db !! Project.teamId project = Some team ->
  Team.isMember team userId = true ->
  User.findById (users db) (Task.createdBy task) = Some creator ->
  Task.assignee task = None ->
  let r :=
    TaskController.updateTask db user taskId
      (mkUpdateTaskDto None None None None None (Some None)) now in
  fst r = mkResponse 200 true "Task updated successfully" None
  /\ tasks (snd r) = tasks db
  /\ activities (snd r)
     = (activities db
        ++ [Activity.mk userId (Project.teamId project) UPDATED
              ActivityEntity.TASK taskId
              (MetaTaskUpdated (Task.title task)
                 (mkTaskChanges None None None (Some (None, None)))) now;
            Activity.mk userId (Project.teamId project) UNASSIGNED
              ActivityEntity.TASK taskId
              (MetaAssignment (Task.title task) None None) now])%list.
Proof.
  intros Hauth Htask Hproject Hteam Hmember Hcreator Hnone r.
  destruct (updateTask_accepted db user userId taskId task project team creator
              (mkUpdateTaskDto None None None None None (Some None)) now
              Hauth Htask Hproject Hteam Hmember Hcreator eq_refl)
    as [Hanswer Hsaved]; [discriminate|].
  fold r in Hanswer, Hsaved. clearbody r.
  split; [exact Hanswer|].
  pose proof (f_equal tasks Hsaved) as H1.
  pose proof (f_equal activities Hsaved) as H2.
  unfold updateTaskLog, updateTaskChanges in H2.
  cbn in H1, H2. rewrite Hnone in H2. cbn in H2. split; [|exact H2].
  rewrite H1. apply insert_id. rewrite Htask.
  destruct task. cbn in *. now subst.
Qed.

Lemma updateTask_clear_unassigned_witness :
  let r :=
    TaskController.updateTask Sample.db (Some Sample.bob) "K1"
      (mkUpdateTaskDto None None None None None (Some None)) 7 in
  fst r = mkResponse 200 true "Task updated successfully" None
  /\ tasks (snd r) = tasks Sample.db
  /\ activities (snd r)
     = (activities Sample.db
        ++ [Activity.mk Sample.bob "T1" UPDATED ActivityEntity.TASK "K1"
              (MetaTaskUpdated "Ticket"
                 (mkTaskChanges None None None (Some (None, None)))) 7;
            Activity.mk Sample.bob "T1" UNASSIGNED ActivityEntity.TASK "K1"
              (MetaAssignment "Ticket" None None) 7])%list.
Proof.
  apply (updateTask_clear_unassigned Sample.db (Some Sample.bob) Sample.bob "K1"
           Sample.ticket Sample.roadmap Sample.core
           (User.mk Sample.ada "Ada" "ada@example.com")); reflexivity.
Defined.

(** Who may delete a task: an admin or the owner of the team, or the
    task's creator, who need not be a member of the team any more.
    Then the task is removed and one [deleted] record is handed to the
    recorder; anybody else is refused with 403 and nothing changes. *)
Theorem deleteTask_authorisation (db : Db) (user : option Id)
    (userId taskId : Id) (task : Task.t) (project : Project.t) (team : Team.t)
    (now : Z) :
  authenticated user = Some userId ->
  tasks db !! taskId = Some task ->
  projects db !! Task.projectId task = Some project ->
  teams db !! Project.teamId project = Some team ->
  let r := TaskController.deleteTask db user taskId now in
  (Team.isAdminOrOwner team userId = true \/ Task.createdBy task = userId ->
   fst r = mkResponse 200 true "Task deleted successfully" None
   /\ tasks (snd r) = delete taskId (tasks db)
   /\ activities (snd r)
      = (activities db
         ++ [Activity.mk userId (Project.teamId project) DELETED
               ActivityEntity.TASK taskId (MetaTaskDeleted (Task.title task))
               now])%list)
  /\ (Team.isAdminOrOwner team userId = false -> Task.createdBy task <> userId ->
      r = (mkResponse 403 false
             "Only team admins/owners or task creator can delete tasks"
             (Some (Label "Forbidden")), db)).
Proof.
  intros Hauth Htask Hproject Hteam r. subst r.
  unfold TaskController.deleteTask.
  rewrite Hauth, Htask, Hproject. cbv zeta. rewrite Hteam.
  split.
  - intros Hallowed.
    assert (negb (Team.isAdminOrOwner team userId)
            && negb (String.eqb (Task.createdBy task) userId) = false) as ->.
    { destruct Hallowed as [-> | ->]; [reflexivity|].
      rewrite String.eqb_refl. apply andb_false_r. }
    repeat case_scrutinee; repeat split; reflexivity.
  - intros Hadmin Hcreator. rewrite Hadmin.
    assert (String.eqb (Task.createdBy task) userId = false) as ->.
    { now apply String.eqb_neq. }
    reflexivity.
Qed.

Lemma deleteTask_authorisation_witness :
  let db :=
    set_tasks Sample.db
      {[ "K1" := Task.mk "Ticket" None MEDIUM TODO None None "P1" Sample.cyd ]} in
  let r := TaskController.deleteTask db (Some Sample.cyd) "K1" 8 in
  Team.isMember Sample.core Sample.cyd = false
  /\ fst r = mkResponse 200 true "Task deleted successfully" None
  /\ tasks (snd r) = delete "K1" (tasks db)
  /\ activities (snd r)
     = (activities db
        ++ [Activity.mk Sample.cyd "T1" DELETED ActivityEntity.TASK "K1"
              (MetaTaskDeleted "Ticket") 8])%list.
Proof.
  intros db r. split; [reflexivity|].
  destruct (deleteTask_authorisation db (Some Sample.cyd) Sample.cyd "K1"
              (Task.mk "Ticket" None MEDIUM TODO None None "P1" Sample.cyd)
              Sample.roadmap Sample.core 8 eq_refl eq_refl eq_refl eq_refl)
    as [Hallowed _].
  apply Hallowed. right. reflexivity.
Defined.

(** What a successful task creation did. *)
Lemma createTask_inv (db : Db) (user : option Id) (taskData : CreateTaskDto)
    (newId : Id) (now : Z) :
  let r := TaskController.createTask db user taskData newId now in
  success (fst r) = true ->
  exists userId project team creator,
    authenticated user = Some userId
    /\ projects db !! ct_projectId taskData = Some project
    /\ teams db !! Project.teamId project = Some team
    /\ Team.isMember team userId = true
    /\ TaskController.checkAssignee db team (ct_assignee taskData) = None
    /\ tasks db !! newId = None
    /\ User.findById (users db) userId = Some creator
    /\ snd r
       = let task :=
           Task.mk (ct_title taskData) (ct_description taskData)
             (ct_priority taskData) (ct_status taskData) (ct_dueDate taskData)
             (ct_assignee taskData) (ct_projectId taskData) userId in
         let db2 :=
           set_activities (set_tasks db (<[newId := task]> (tasks db)))
             (activities db
              ++ [Activity.mk userId (Project.teamId project) CREATED
                    ActivityEntity.TASK newId
                    (MetaTaskCreated (ct_title taskData) (ct_priority taskData)
                       (ct_status taskData) (ct_assignee taskData)) now]) in
         set_io db2
           (SocketService.emitTaskCreated (io db)
              (TaskController.taskView (users db) newId task
                 (Project.name project) creator)
              (Project.teamId project) (ct_projectId taskData)).
Proof.
  unfold TaskController.createTask.
  destruct (authenticated user) as [userId|] eqn:Hauth; [|discriminate].
  destruct (projects db !! ct_projectId taskData) as [project|] eqn:Hproject;
    [|discriminate].
  cbv zeta.
  destruct (teams db !! Project.teamId project) as [team|] eqn:Hteam;
    [|discriminate].
  destruct (Team.isMember team userId) eqn:Hmember; cbn [negb]; [|discriminate].
  destruct (TaskController.checkAssignee db team (ct_assignee taskData))
    as [err|] eqn:Hcheck.
  { intros Hok. cbn in Hok.
    rewrite (checkAssignee_failure _ _ _ _ Hcheck) in Hok. discriminate. }
  destruct (tasks db !! newId) eqn:Hfresh; [discriminate|].
  cbn [users ActivityService.logActivity set_activities set_tasks].
  destruct (User.findById (users db) userId) as [creator|] eqn:Hcreator;
    [|discriminate].
  intros _. exists userId, project, team, creator.
  repeat (split; [first [assumption | reflexivity]|]).
  reflexivity.
Qed.

(** A successful task creation stores the task under the new id with
    the requester as creator, hands the recorder exactly one record,
    [created], also when an assignee is named, and on an initialised
    socket server sends exactly one emission, [task:created] to the room
    of the team: the assignee gets no personal copy. *)
Theorem createTask_effect (db : Db) (user : option Id) (taskData : CreateTaskDto)
    (newId : Id) (now : Z) :
  let r := TaskController.createTask db user taskData newId now in
  success (fst r) = true ->
  exists userId project,
    authenticated user = Some userId
    /\ projects db !! ct_projectId taskData = Some project
    /\ tasks db !! newId = None
    /\ tasks (snd r)
       = <[newId := Task.mk (ct_title taskData) (ct_description taskData)
                      (ct_priority taskData) (ct_status taskData)
                      (ct_dueDate taskData) (ct_assignee taskData)
                      (ct_projectId taskData) userId]> (tasks db)
    /\ activities (snd r)
       = (activities db
          ++ [Activity.mk userId (Project.teamId project) CREATED
                ActivityEntity.TASK newId
                (MetaTaskCreated (ct_title taskData) (ct_priority taskData)
                   (ct_status taskData) (ct_assignee taskData)) now])%list
    /\ (io db = None -> io (snd r) = None)
    /\ (forall sent, io db = Some sent ->
        exists e,
          io (snd r) = Some (sent ++ [e])%list
          /\ room e = "team:" ++ Project.teamId project
          /\ event e = SocketEvents.TASK_CREATED
          /\ isPersonal e = None).
Proof.
  intros r Hok.
  destruct (createTask_inv db user taskData newId now Hok)
    as (userId & project & team & creator & Hauth & Hproject & _ & _ & _ & Hfresh
        & _ & Hdb).
  fold r in Hdb. clearbody r. cbv zeta in Hdb.
  exists userId, project. rewrite Hdb.
  repeat (split; [first [assumption | reflexivity]|]).
  split.
  - intros ->. reflexivity.
  - intros sent ->. eexists. split; [reflexivity|]. repeat split.
Qed.

Lemma createTask_effect_witness :
  let taskData :=
    mkCreateTaskDto "Second" None LOW TODO None (Some Sample.bob) "P1" in
  let r := TaskController.createTask Sample.db (Some Sample.ada) taskData "K2" 3 in
  exists userId project,
    authenticated (Some Sample.ada) = Some userId
    /\ projects Sample.db !! "P1" = Some project
    /\ tasks Sample.db !! "K2" = None
    /\ tasks (snd r)
       = <["K2" := Task.mk "Second" None LOW TODO None (Some Sample.bob) "P1"
                     userId]> (tasks Sample.db)
    /\ activities (snd r)
       = (activities Sample.db
          ++ [Activity.mk userId (Project.teamId project) CREATED
                ActivityEntity.TASK "K2"
                (MetaTaskCreated "Second" LOW TODO (Some Sample.bob)) 3])%list
    /\ (io Sample.db = None -> io (snd r) = None)
    /\ (forall sent, io Sample.db = Some sent ->
        exists e,
          io (snd r) = Some (sent ++ [e])%list
          /\ room e = "team:" ++ Project.teamId project
          /\ event e = SocketEvents.TASK_CREATED
          /\ isPersonal e = None).
Proof.
  intros taskData r.
  apply (createTask_effect Sample.db (Some Sample.ada) taskData "K2" 3).
  reflexivity.
Defined.

(** The status graph has no dead end and is tightly connected: from the
    status of any task every other status is accepted either at once or
    after one accepted intermediate status, and [done] is accepted at
    once from every other status. *)
Theorem status_reachable_in_two (task : Task.t) (target : TaskStatus) :
  Task.status task <> target ->
  (Task.canTransitionTo task target = true
   \/ exists mid,
        Task.canTransitionTo task mid = true
        /\ forall task', Task.status task' = mid ->
                         Task.canTransitionTo task' target = true)
  /\ (target = DONE -> Task.canTransitionTo task target = true).
Proof.
  unfold Task.canTransitionTo. cbv zeta.
  destruct (Task.status task) eqn:Hs, target; intros Hne;
    try (exfalso; apply Hne; reflexivity);
    (split; [|intros; first [reflexivity | discriminate]]);
    first [left; reflexivity
          | right; exists IN_PROGRESS; split;
            [reflexivity|intros task' ->; reflexivity]].
Qed.

Lemma status_reachable_in_two_witness :
  (Task.canTransitionTo Sample.ticket REVIEW = true
   \/ exists mid,
        Task.canTransitionTo Sample.ticket mid = true
        /\ forall task', Task.status task' = mid ->
                         Task.canTransitionTo task' REVIEW = true)
  /\ (REVIEW = DONE -> Task.canTransitionTo Sample.ticket REVIEW = true).
Proof.
  apply (status_reachable_in_two Sample.ticket REVIEW). discriminate.
Defined.

(** ** What no request does *)

Lemma appends_refl (l : list Activity.t) : appends l l.
Proof. exists []. split; [now rewrite app_nil_r|reflexivity]. Qed.

Lemma appends_one (l : list Activity.t) (a : Activity.t) :
  producedKind a = true -> appends l (l ++ [a]).
Proof. intros Ha. exists [a]. split; [reflexivity|]. cbn. now rewrite Ha. Qed.

Lemma appends_trans (l1 l2 l3 : list Activity.t) :
  appends l1 l2 -> appends l2 l3 -> appends l1 l3.
Proof.
  intros (n1 & -> & H1) (n2 & -> & H2). exists (n1 ++ n2)%list.
  split; [now rewrite app_assoc|]. rewrite forallb_app. now rewrite H1, H2.
Qed.

Lemma extends_refl (io : option (list Emission)) : extends io io.
Proof.
  destruct io as [sent|]; cbn; [|exact I].
  exists []. split; [now rewrite app_nil_r|reflexivity].
Qed.

Lemma extends_trans (a b c : option (list Emission)) :
  extends a b -> extends b c -> extends a c.
Proof.
  destruct a as [sa|], b as [sb|], c as [sc|]; cbn; try tauto.
  intros (n1 & -> & H1) (n2 & -> & H2). exists (n1 ++ n2)%list.
  split; [now rewrite app_assoc|]. rewrite forallb_app. now rewrite H1, H2.
Qed.

Lemma whenInitialized_extends (io : option (list Emission))
    (body : list Emission -> list Emission) :
  (forall sent, exists new,
      body sent = (sent ++ new)%list /\ forallb wellAddressed new = true) ->
  extends io (SocketService.whenInitialized io body).
Proof.
  intros Hbody. destruct io as [sent|]; cbn; [|exact I]. apply Hbody.
Qed.

Lemma emitToTeam_extends (io : option (list Emission)) (ev : SocketEvents.t)
    (payload : Payload) :
  ev = Payload_event payload ->
  extends io (SocketService.emitToTeam io ev payload).
Proof.
  intros ->. apply whenInitialized_extends. intros sent. eexists.
  split; [reflexivity|]. unfold wellAddressed. cbn.
  rewrite bool_decide_eq_true_2 by reflexivity. now rewrite String.eqb_refl.
Qed.

Lemma emitTaskAssigned_extends (io : option (list Emission))
    (payload : TaskAssignedPayload) :
  extends io (SocketService.emitTaskAssigned io payload).
Proof.
  apply whenInitialized_extends. intros sent. unfold SocketService.emit. cbv zeta.
  destruct (Js.truthy (ref_id (ta_assignee payload))).
  - rewrite <- app_assoc. eexists. split; [reflexivity|].
    unfold wellAddressed. cbn. now rewrite !String.eqb_refl.
  - eexists. split; [reflexivity|].
    unfold wellAddressed. cbn. now rewrite !String.eqb_refl.
Qed.

Lemma emitMemberJoined_extends (io : option (list Emission))
    (payload : MemberJoinedPayload) :
  extends io (SocketService.emitMemberJoined io payload).
Proof.
  apply whenInitialized_extends. intros sent. unfold SocketService.emit. cbv zeta.
  rewrite <- app_assoc. eexists. split; [reflexivity|].
  unfold wellAddressed. cbn. now rewrite !String.eqb_refl.
Qed.

Lemma emitMemberRemoved_extends (io : option (list Emission))
    (payload : MemberRemovedPayload) :
  extends io (SocketService.emitMemberRemoved io payload).
Proof.
  apply whenInitialized_extends. intros sent. unfold SocketService.emit. cbv zeta.
  rewrite <- app_assoc. eexists. split; [reflexivity|].
  unfold wellAddressed. cbn. now rewrite !String.eqb_refl.
Qed.

Lemma emitMemberRoleUpdated_extends (io : option (list Emission))
    (payload : MemberRoleUpdatedPayload) :
  extends io (SocketService.emitMemberRoleUpdated io payload).
Proof.
  apply whenInitialized_extends. intros sent. unfold SocketService.emit. cbv zeta.
  rewrite <- app_assoc. eexists. split; [reflexivity|].
  unfold wellAddressed. cbn. now rewrite !String.eqb_refl.
Qed.

Ltac solve_extends :=
  repeat first
    [ apply extends_refl
    | eapply extends_trans;
      [|first [ apply emitTaskAssigned_extends
              | apply emitMemberJoined_extends
              | apply emitMemberRemoved_extends
              | apply emitMemberRoleUpdated_extends
              | apply emitToTeam_extends; reflexivity ]] ].

Ltac solve_effects :=
  unfold effects; project_db;
  split; [reflexivity|];
  split; [first [apply appends_refl | apply appends_one; reflexivity]|];
  unfold SocketService.emitTaskCreated, SocketService.emitTaskUpdated,
    SocketService.emitTaskDeleted, SocketService.emitTaskStatusChanged,
    SocketService.emitProjectCreated, SocketService.emitProjectUpdated,
    SocketService.emitProjectDeleted;
  solve_extends.

Lemma updateTask_logActivities_frame (db : Db) (userId teamId taskId : Id)
    (oldAssignee : option Id) (oldStatus : TaskStatus) (task' : Task.t)
    (changes : TaskChanges) (updateData : UpdateTaskDto) (now : Z) :
  let db' :=
    TaskController.updateTask_logActivities db userId teamId taskId oldAssignee
      oldStatus task' changes updateData now in
  users db' = users db /\ io db' = io db
  /\ appends (activities db) (activities db').
Proof.
  unfold TaskController.updateTask_logActivities. cbv zeta.
  repeat case_scrutinee; project_db; repeat split;
    repeat first [ apply appends_refl
                 | eapply appends_trans; [|apply appends_one; reflexivity] ].
Qed.

Lemma updateTask_emit_effects (db : Db) (userId teamId taskId : Id)
    (oldAssignee : option Id) (oldStatus : TaskStatus) (task' : Task.t)
    (changes : TaskChanges) (updateData : UpdateTaskDto) (project : Project.t)
    (creator : User.t) :
  effects db
    (snd (TaskController.updateTask_emit db userId teamId taskId oldAssignee
            oldStatus task' changes updateData project creator)).
Proof.
  unfold TaskController.updateTask_emit. cbv zeta.
  repeat case_scrutinee; solve_effects.
Qed.

Lemma effects_trans (a b c : Db) : effects a b -> effects b c -> effects a c.
Proof.
  intros (H1 & H2 & H3) (H1' & H2' & H3'). repeat split.
  - congruence.
  - eapply appends_trans; eassumption.
  - eapply extends_trans; eassumption.
Qed.

Lemma effects_refl (db : Db) : effects db db.
Proof. repeat split; [apply appends_refl|apply extends_refl]. Qed.

Lemma updateTask_effects (db : Db) (user : option Id) (taskId : Id)
    (updateData : UpdateTaskDto) (now : Z) :
  effects db (snd (TaskController.updateTask db user taskId updateData now)).
Proof.
  unfold TaskController.updateTask.
  destruct (authenticated user) as [userId|]; [|apply effects_refl].
  destruct (tasks db !! taskId) as [task|]; [|apply effects_refl].
  destruct (projects db !! Task.projectId task) as [project|]; [|apply effects_refl].
  cbv zeta.
  destruct (teams db !! Project.teamId project) as [team|]; [|apply effects_refl].
  destruct (negb (Team.isMember team userId)); [apply effects_refl|].
  destruct (TaskController.checkAssignee db team _); [apply effects_refl|].
  match goal with
  | |- context [match ?gate with inl _ => _ | inr _ => _ end] =>
      destruct gate as [err|status']
  end; [apply effects_refl|].
  match goal with
  | |- context [TaskController.updateTask_logActivities ?d ?u ?t ?k ?oa ?os ?t' ?c
                  ?upd ?n] =>
      pose proof (updateTask_logActivities_frame d u t k oa os t' c upd n)
        as (Husers & Hio & Hacts);
      set (db4 := TaskController.updateTask_logActivities d u t k oa os t' c upd n)
        in *
  end.
  assert (Hlogged : effects db db4).
  { unfold effects. rewrite Husers, Hio. project_db.
    repeat split; [exact Hacts|apply extends_refl]. }
  case_scrutinee; [|exact Hlogged].
  eapply effects_trans; [exact Hlogged|apply updateTask_emit_effects].
Qed.

(** One request leaves the users alone, appends activities of the
    produced kinds and well-addressed emissions, and nothing else. *)
Lemma step_effects (db db' : Db) : step db db' -> effects db db'.
Proof.
  intros Hstep. destruct Hstep.
  - unfold TeamController.createTeam. repeat case_scrutinee; solve_effects.
  - unfold TeamController.updateTeam. repeat case_scrutinee; solve_effects.
  - unfold TeamController.deleteTeam. repeat case_scrutinee; solve_effects.
  - unfold TeamController.inviteMember. repeat case_scrutinee; solve_effects.
  - unfold TeamController.removeMember. repeat case_scrutinee; solve_effects.
  - unfold TeamController.updateMemberRole. repeat case_scrutinee; solve_effects.
  - unfold TeamController.leaveTeam. repeat case_scrutinee; solve_effects.
  - unfold ProjectController.createProject. repeat case_scrutinee; solve_effects.
  - unfold ProjectController.updateProject. repeat case_scrutinee; solve_effects.
  - unfold ProjectController.deleteProject. repeat case_scrutinee; solve_effects.
  - unfold TaskController.createTask. repeat case_scrutinee; solve_effects.
  - apply updateTask_effects.
  - unfold TaskController.updateTaskStatus. repeat case_scrutinee; solve_effects.
  - unfold TaskController.deleteTask. repeat case_scrutinee; solve_effects.
Qed.

Lemma steps_effects (db db' : Db) : steps db db' -> effects db db'.
Proof.
  induction 1 as [db|db db' db'' _ IH Hstep]; [apply effects_refl|].
  eapply effects_trans; [exact IH|]. now apply step_effects.
Qed.

(** Whatever requests are served, the user collection is never written
    and the activity log only grows, by records about a task or a
    project: no record with the action [member_added], [member_removed]
    or [role_changed], and none about a team or a user, is ever
    produced. *)
Theorem requests_append_activities (db db' : Db) :
  steps db db' ->
  users db' = users db
  /\ exists new,
       activities db' = (activities db ++ new)%list
       /\ forall a, In a new ->
            (Activity.entity a = ActivityEntity.TASK
             \/ Activity.entity a = ActivityEntity.PROJECT)
            /\ Activity.action a <> MEMBER_ADDED
            /\ Activity.action a <> MEMBER_REMOVED
            /\ Activity.action a <> ROLE_CHANGED.
Proof.
  intros Hsteps.
  destruct (steps_effects db db' Hsteps) as (Husers & (new & Hnew & Hkinds) & _).
  split; [exact Husers|]. exists new. split; [exact Hnew|].
  intros a Ha. rewrite forallb_forall in Hkinds. specialize (Hkinds a Ha).
  unfold producedKind in Hkinds.
  destruct (Activity.entity a), (Activity.action a); try discriminate Hkinds;
    repeat split; auto; discriminate.
Qed.

Lemma requests_append_activities_witness :
  let db' :=
    snd (TeamController.inviteMember Sample.db (Some Sample.ada) "T1"
           "cyd@example.com" None 9) in
  users db' = users Sample.db
  /\ exists new,
       activities db' = (activities Sample.db ++ new)%list
       /\ forall a, In a new ->
            (Activity.entity a = ActivityEntity.TASK
             \/ Activity.entity a = ActivityEntity.PROJECT)
            /\ Activity.action a <> MEMBER_ADDED
            /\ Activity.action a <> MEMBER_REMOVED
            /\ Activity.action a <> ROLE_CHANGED.
Proof.
  intros db'.
  apply (requests_append_activities Sample.db db').
  apply (steps_step Sample.db Sample.db); [apply steps_refl|].
  apply step_inviteMember.
Defined.

(** Whatever requests are served, they never initialise or reset the
    socket server, and what they send is appended and well addressed:
    each emission travels under the event of its payload and is either
    a copy without [isPersonal] for the room of the payload's team or a
    copy with [isPersonal: true] for the personal room of the user the
    payload is about. *)
Theorem requests_emit_well_addressed (db db' : Db) :
  steps db db' ->
  isSocketInitialized (io db') = isSocketInitialized (io db)
  /\ forall sent, io db = Some sent ->
       exists new,
         io db' = Some (sent ++ new)%list
         /\ forall e, In e new ->
              event e = Payload_event (data e)
              /\ ((isPersonal e = None
                   /\ room e = "team:" ++ Payload_teamId (data e))
                  \/ (isPersonal e = Some true
                      /\ exists uid, personalTarget (data e) = Some uid
                                     /\ room e = "user:" ++ uid)).
Proof.
  intros Hsteps.
  destruct (steps_effects db db' Hsteps) as (_ & _ & Hio).
  unfold extends in Hio.
  destruct (io db) as [sent|], (io db') as [sent'|]; try contradiction.
  - split; [reflexivity|]. intros sent0 [= <-].
    destruct Hio as (new & -> & Hnew). exists new. split; [reflexivity|].
    intros e He. rewrite forallb_forall in Hnew. specialize (Hnew e He).
    unfold wellAddressed in Hnew.
    apply andb_true_iff in Hnew as [Hev Hroom].
    apply bool_decide_eq_true in Hev. split; [exact Hev|].
    destruct (isPersonal e) as [flag|].
    + right. apply andb_true_iff in Hroom as [-> Hroom].
      split; [reflexivity|].
      destruct (personalTarget (data e)) as [uid|]; [|discriminate].
      exists uid. split; [reflexivity|]. now apply String.eqb_eq.
    + left. split; [reflexivity|]. now apply String.eqb_eq.
  - split; [reflexivity|]. intros sent Hsent. discriminate Hsent.
Qed.

Lemma requests_emit_well_addressed_witness :
  let db' :=
    snd (TeamController.removeMember Sample.db (Some Sample.ada) "T1" Sample.bob) in
  isSocketInitialized (io db') = isSocketInitialized (io Sample.db)
  /\ forall sent, io Sample.db = Some sent ->
       exists new,
         io db' = Some (sent ++ new)%list
         /\ forall e, In e new ->
              event e = Payload_event (data e)
              /\ ((isPersonal e = None
                   /\ room e = "team:" ++ Payload_teamId (data e))
                  \/ (isPersonal e = Some true
                      /\ exists uid, personalTarget (data e) = Some uid
                                     /\ room e = "user:" ++ uid)).
Proof.
  intros db'.
  apply (requests_emit_well_addressed Sample.db db').
  apply (steps_step Sample.db Sample.db); [apply steps_refl|].
  apply step_removeMember.
Defined.

(** ** Socket connections *)

Lemma handle_user (db : Db) (c : SocketServer.Connection)
    (ev : SocketServer.ClientEvent) :
  SocketServer.user (fst (SocketServer.handle db c ev)) = SocketServer.user c.
Proof.
  destruct ev as [teamId|teamId]; cbn [SocketServer.handle].
  - unfold SocketServer.onJoinTeam.
    destruct (if Js.truthy teamId then authenticated (SocketServer.user c) else None)
      as [userId|]; [|reflexivity].
    destruct (ObjectId.cast teamId) as [id|]; [|reflexivity].
    destruct (teams db !! id) as [team|]; [|reflexivity].
    now destruct (negb (Team.isMember team userId)).
  - unfold SocketServer.onLeaveTeam. now destruct (negb (Js.truthy teamId)).
Qed.

(** A handler leaves the personal rooms of a connection as they are. *)
Lemma handle_personal_rooms (db : Db) (c : SocketServer.Connection)
    (ev : SocketServer.ClientEvent) (x : string) :
  "user:" ++ x ∈ SocketServer.rooms (fst (SocketServer.handle db c ev))
  <-> "user:" ++ x ∈ SocketServer.rooms c.
Proof.
  destruct ev as [teamId|teamId]; cbn [SocketServer.handle].
  - unfold SocketServer.onJoinTeam.
    destruct (if Js.truthy teamId then authenticated (SocketServer.user c) else None)
      as [userId|]; [|reflexivity].
    destruct (ObjectId.cast teamId) as [id|]; [|reflexivity].
    destruct (teams db !! id) as [team|]; [|reflexivity].
    destruct (negb (Team.isMember team userId)); [reflexivity|].
    cbn [fst SocketServer.rooms]. rewrite elem_of_union, elem_of_singleton.
    split; [intros [H|H]; [discriminate H|exact H]|now right].
  - unfold SocketServer.onLeaveTeam.
    destruct (negb (Js.truthy teamId)); [reflexivity|].
    cbn [fst SocketServer.rooms]. rewrite elem_of_difference, elem_of_singleton.
    split; [now intros [H _]|]. intros H. split; [exact H|]. discriminate.
Qed.

(** A room a handler leaves a connection in was there before, or is the
    room of a team the handler found the user to be a member of. *)
Lemma handle_rooms (db : Db) (c : SocketServer.Connection)
    (ev : SocketServer.ClientEvent) (room : string) :
  room ∈ SocketServer.rooms (fst (SocketServer.handle db c ev)) ->
  room ∈ SocketServer.rooms c
  \/ exists userId teamId id team,
       ev = SocketServer.JOIN_TEAM teamId
       /\ authenticated (SocketServer.user c) = Some userId
       /\ ObjectId.cast teamId = Some id
       /\ teams db !! id = Some team
       /\ Team.isMember team userId = true
       /\ room = "team:" ++ teamId.
Proof.
  destruct ev as [teamId|teamId]; cbn [SocketServer.handle].
  - unfold SocketServer.onJoinTeam.
    destruct (Js.truthy teamId); [|now left].
    destruct (authenticated (SocketServer.user c)) as [userId|] eqn:Hauth;
      [|now left].
    destruct (ObjectId.cast teamId) as [id|] eqn:Hcast; [|now left].
    destruct (teams db !! id) as [team|] eqn:Hteam; [|now left].
    destruct (Team.isMember team userId) eqn:Hmember; cbn [negb]; [|now left].
    cbn [fst SocketServer.rooms]. rewrite elem_of_union, elem_of_singleton.
    intros [->|H]; [right|now left].
    exists userId, teamId, id, team. repeat split; assumption || reflexivity.
  - unfold SocketServer.onLeaveTeam.
    destruct (negb (Js.truthy teamId)); [now left|].
    cbn [fst SocketServer.rooms]. rewrite elem_of_difference. intros [H _]. now left.
Qed.

Lemma fold_handle_user (events : list (Db * SocketServer.ClientEvent))
    (c : SocketServer.Connection) :
  SocketServer.user
    (fold_left (fun c ev => fst (SocketServer.handle (fst ev) c (snd ev))) events c)
  = SocketServer.user c.
Proof.
  revert c. induction events as [|[db ev] events IH]; intros c; [reflexivity|].
  cbn [fold_left fst snd]. rewrite IH. apply handle_user.
Qed.

Lemma onConnection_user (user : option Id) :
  SocketServer.user (SocketServer.onConnection user) = user.
Proof. unfold SocketServer.onConnection. now destruct (authenticated user). Qed.

(** Whatever a client sends, and whatever happens to the teams
    meanwhile, its connection is in the personal room of a user exactly
    when that user is the one the connection authenticated as: the
    room events neither take the own personal room away nor give access
    to the personal room of anybody else. *)
Theorem session_personal_room (user : option Id)
    (events : list (Db * SocketServer.ClientEvent)) (x : Id) :
  "user:" ++ x ∈ SocketServer.rooms (SocketServer.session user events)
  <-> authenticated user = Some x.
Proof.
  unfold SocketServer.session.
  assert (Hstart : "user:" ++ x ∈ SocketServer.rooms (SocketServer.onConnection user)
                   <-> authenticated user = Some x).
  { unfold SocketServer.onConnection.
    destruct (authenticated user) as [userId|]; cbn [SocketServer.rooms].
    - rewrite elem_of_singleton. split; [|intros [= ->]; reflexivity].
      intros H. injection H as H. change (x = userId) in H. now subst x.
    - rewrite elem_of_empty. split; [contradiction|discriminate]. }
  revert Hstart. generalize (SocketServer.onConnection user) as c.
  induction events as [|[db ev] events IH]; intros c Hstart; [exact Hstart|].
  cbn [fold_left fst snd]. apply IH. now rewrite handle_personal_rooms.
Qed.

(** Every room a connection is in is its user's personal room or a team
    room [team:{id as sent}] that one of its [team:join] events opened:
    the id sent was an ObjectId, and at the moment of that event the
    team stored under it listed the user.  A connection without an
    authenticated user is in no room at all. *)
Theorem session_rooms_authorised (user : option Id)
    (events : list (Db * SocketServer.ClientEvent)) (room : string) :
  room ∈ SocketServer.rooms (SocketServer.session user events) ->
  exists userId,
    authenticated user = Some userId
    /\ (room = "user:" ++ userId
        \/ exists db teamId id team,
             In (db, SocketServer.JOIN_TEAM teamId) events
             /\ ObjectId.cast teamId = Some id
             /\ teams db !! id = Some team
             /\ Team.isMember team userId = true
             /\ room = "team:" ++ teamId).
Proof.
  unfold SocketServer.session.
  assert (Hgen : forall events c,
    room ∈ SocketServer.rooms
      (fold_left (fun c ev => fst (SocketServer.handle (fst ev) c (snd ev))) events c) ->
    room ∈ SocketServer.rooms c
    \/ exists userId db teamId id team,
         authenticated (SocketServer.user c) = Some userId
         /\ In (db, SocketServer.JOIN_TEAM teamId) events
         /\ ObjectId.cast teamId = Some id
         /\ teams db !! id = Some team
         /\ Team.isMember team userId = true
         /\ room = "team:" ++ teamId).
  { clear events. intros events.
    induction events as [|[db ev] events IH]; intros c Hroom; [now left|].
    cbn [fold_left fst snd] in Hroom.
    destruct (IH _ Hroom)
      as [Hin|(userId & db' & teamId & id & team & Hauth & Hev & Hrest)].
    - destruct (handle_rooms db c ev room Hin)
        as [Hold|(userId & teamId & id & team & -> & Hauth & Hrest)]; [now left|].
      right. exists userId, db, teamId, id, team. split; [exact Hauth|].
      split; [now left|exact Hrest].
    - right. exists userId, db', teamId, id, team. rewrite handle_user in Hauth.
      split; [exact Hauth|]. split; [now right|exact Hrest]. }
  intros Hroom. apply Hgen in Hroom. rewrite onConnection_user in Hroom.
  destruct Hroom as [Hroom|(userId & db & teamId & id & team & Hauth & Hrest)].
  - unfold SocketServer.onConnection in Hroom.
    destruct (authenticated user) as [userId|]; cbn [SocketServer.rooms] in Hroom.
    + apply elem_of_singleton in Hroom. exists userId. split; [reflexivity|now left].
    + now apply elem_of_empty in Hroom.
  - exists userId. split; [exact Hauth|]. right. exists db, teamId, id, team.
    exact Hrest.
Qed.

(** Bob joins the room of his team with the id written in upper case:
    the team is found under the id as stored, the room is named as
    sent. *)
Lemma session_rooms_authorised_witness :
  exists userId,
    authenticated (Some Sample.bob) = Some userId
    /\ ("team:0000000000000000000000B1" = "user:" ++ userId
        \/ exists db teamId id team,
             In (db, SocketServer.JOIN_TEAM teamId)
               [(Sample.dbCore, SocketServer.JOIN_TEAM "0000000000000000000000B1")]
             /\ ObjectId.cast teamId = Some id
             /\ teams db !! id = Some team
             /\ Team.isMember team userId = true
             /\ "team:0000000000000000000000B1" = "team:" ++ teamId).
Proof.
  apply (session_rooms_authorised (Some Sample.bob)
           [(Sample.dbCore, SocketServer.JOIN_TEAM "0000000000000000000000B1")]
           "team:0000000000000000000000B1").
  vm_compute. reflexivity.
Defined.

(** ** The project controller *)

(** Deleting a project does not cascade: its tasks stay stored, and
    from then on nobody can update them, move their status or delete
    them, since each of these requests fails with 500 Internal server
    error on the missing project (the [error] text being the one
    [serverError] chooses) and leaves the database as it is. *)
Theorem deleteProject_orphans_tasks (db : Db) (user : option Id)
    (projectId : Id) (now : Z) :
  let r := ProjectController.deleteProject db user projectId now in
  success (fst r) = true ->
  tasks (snd r) = tasks db
  /\ teams (snd r) = teams db
  /\ projects (snd r) = delete projectId (projects db)
  /\ (forall taskId task user' userId' updateData status now',
        tasks db !! taskId = Some task ->
        Task.projectId task = projectId ->
        authenticated user' = Some userId' ->
        let failed :=
          (mkResponse 500 false "Internal server error"
             (Some ServerErrorText), snd r) in
        TaskController.updateTask (snd r) user' taskId updateData now' = failed
        /\ TaskController.updateTaskStatus (snd r) user' taskId status = failed
        /\ TaskController.deleteTask (snd r) user' taskId now' = failed).
Proof.
  intros r. subst r. unfold ProjectController.deleteProject.
  destruct (authenticated user) as [userId|]; [|discriminate].
  destruct (projects db !! projectId) as [project|]; [|discriminate].
  destruct (teams db !! Project.teamId project) as [team|]; [|discriminate].
  destruct (negb (Team.isAdminOrOwner team userId)); [discriminate|].
  intros _. cbv zeta. cbn [snd].
  match goal with |- tasks ?d = _ /\ _ => set (db' := d) end.
  assert (Ht : tasks db' = tasks db) by reflexivity.
  assert (Hteams : teams db' = teams db) by reflexivity.
  assert (Hp : projects db' = delete projectId (projects db)) by reflexivity.
  clearbody db'.
  split; [exact Ht|]. split; [exact Hteams|]. split; [exact Hp|].
  intros taskId task user' userId' updateData status now' Htask Hpt Hauth.
  unfold TaskController.updateTask, TaskController.updateTaskStatus,
    TaskController.deleteTask.
  rewrite Hauth, Ht, Htask, Hp, Hpt, lookup_delete_eq. repeat split.
Qed.

Lemma deleteProject_orphans_tasks_witness :
  let r := ProjectController.deleteProject Sample.db (Some Sample.ada) "P1" 7 in
  tasks (snd r) = tasks Sample.db
  /\ TaskController.deleteTask (snd r) (Some Sample.ada) "K1" 8
     = (mkResponse 500 false "Internal server error"
          (Some ServerErrorText), snd r).
Proof.
  intros r.
  destruct (deleteProject_orphans_tasks Sample.db (Some Sample.ada) "P1" 7 eq_refl)
    as (Htasks & _ & _ & Hlater).
  split; [exact Htasks|].
  destruct (Hlater "K1" Sample.ticket (Some Sample.ada) Sample.ada
              (mkUpdateTaskDto None None None None None None) DONE 8%Z
              eq_refl eq_refl eq_refl) as (_ & _ & Hdelete).
  exact Hdelete.
Defined.

(** Creating a project gives its creator no right over it: a member
    without the admin or owner role may create a project, and is then
    refused, with 403 Forbidden and nothing changed, when updating or
    deleting that very project. *)
Theorem project_creator_cannot_edit (db : Db) (user : option Id) (userId : Id)
    (team : Team.t) (name : string) (description : option string)
    (teamId newId : Id) (now : Z) :
  let r := ProjectController.createProject db user name description teamId newId now in
  authenticated user = Some userId ->
  teams db !! teamId = Some team ->
  Team.isAdminOrOwner team userId = false ->
  success (fst r) = true ->
  projects (snd r) !! newId = Some (Project.mk name description teamId userId)
  /\ forall name' description' now',
       let refused :=
         (mkResponse 403 false "You are not authorized to access this project"
            (Some (Label "Forbidden")), snd r) in
       ProjectController.updateProject (snd r) user newId name' description' now'
       = refused
       /\ ProjectController.deleteProject (snd r) user newId now' = refused.
Proof.
  intros r Hauth Hteam Hadmin. subst r. unfold ProjectController.createProject.
  rewrite Hauth, Hteam.
  destruct (negb (Team.isMember team userId)); [discriminate|].
  destruct (projects db !! newId); [discriminate|]. cbv zeta.
  destruct (User.findById _ userId) as [creator|]; [|discriminate].
  intros _. cbn [snd].
  match goal with |- projects ?d !! _ = _ /\ _ => set (db' := d) end.
  assert (Hp : projects db' !! newId
               = Some (Project.mk name description teamId userId))
    by apply lookup_insert_eq.
  assert (Hteams : teams db' = teams db) by reflexivity.
  clearbody db'. split; [exact Hp|].
  intros name' description' now'.
  unfold ProjectController.updateProject, ProjectController.deleteProject.
  rewrite Hauth, Hp. cbn [Project.teamId]. rewrite Hteams, Hteam, Hadmin.
  split; reflexivity.
Qed.

Lemma project_creator_cannot_edit_witness :
  let r :=
    ProjectController.createProject Sample.db (Some Sample.bob) "Docs" None "T1"
      "P2" 7 in
  ProjectController.deleteProject (snd r) (Some Sample.bob) "P2" 8
  = (mkResponse 403 false "You are not authorized to access this project"
       (Some (Label "Forbidden")), snd r).
Proof.
  intros r.
  destruct (project_creator_cannot_edit Sample.db (Some Sample.bob) Sample.bob
              Sample.core "Docs" None "T1" "P2" 7 eq_refl eq_refl eq_refl eq_refl)
    as (_ & Hlater).
  destruct (Hlater None None 8%Z) as (_ & Hdelete). exact Hdelete.
Defined.

(** ** Request validation *)

(** The role a request body may carry is read back exactly: a string is
    accepted as a role if and only if it is the stored value of that
    role, so no two spellings denote one role and no role is left
    without a spelling. *)
Theorem IsEnum_TeamMemberRole_round_trip (v : string) (r : TeamMemberRole) :
  Dto.IsEnum_TeamMemberRole v = Some r <-> v = TeamMemberRole_value r.
Proof.
  unfold Dto.IsEnum_TeamMemberRole, Dto.TeamMemberRole_values, Js.find.
  cbn [List.find]. split.
  - destruct (String.eqb (TeamMemberRole_value OWNER) v) eqn:Howner;
      [intros [= <-]; symmetry; now apply String.eqb_eq|].
    destruct (String.eqb (TeamMemberRole_value ADMIN) v) eqn:Hadmin;
      [intros [= <-]; symmetry; now apply String.eqb_eq|].
    destruct (String.eqb (TeamMemberRole_value MEMBER) v) eqn:Hmember;
      [intros [= <-]; symmetry; now apply String.eqb_eq|discriminate].
  - intros ->. now destruct r.
Qed.
